(** * The weather dashboard client (static/script.js)

    A shallow embedding of the browser script: the JavaScript values a
    [/check] response can carry, the operations the script applies to them,
    the page state the script mutates (inputs, loading flag, bar chart, line
    chart, summary card, Leaflet map and marker), and the event handlers
    [checkWeather], [drawLineChart], the [DOMContentLoaded] initialiser and
    the map click handler.

    JavaScript numbers are IEEE 754 binary64 values: they are embedded as
    Rocq's primitive floats, whose operations are the same binary64
    operations with the same rounding.

    The two download actions come after the page, with the files the
    browser saves.

    Outside the model: the server (a response is an input), the static
    markup of the page (every element the script looks up is taken to
    exist), the browser's markup parser (the model keeps what the script
    writes into [innerHTML]; see [svg_elements]), and Leaflet itself, of
    which the model keeps the view, the list of marker layers, and what
    Leaflet answers on the data it is handed: whether it takes it, and the
    error it throws when it does not. *)

From Stdlib Require Import ZArith NArith List String Ascii Bool Lia.
From Stdlib Require Import DecimalString Floats.
Import ListNotations.

#[local] Set Warnings "-inexact-float,-register-all".

Local Open Scope string_scope.

(** ** JavaScript values and the operations the script uses *)

Module JS.

(** What [JSON.parse] can return, plus [undefined] (the result of reading a
    property that is not there).  A string holds one character per UTF-16
    code unit, so only code units below 256 are represented.  An object is
    its list of properties in insertion order; a parsed object has one
    entry per key and [lookup] takes the first. *)
Inductive value : Type :=
| VUndefined
| VNull
| VBool (b : bool)
| VNum (x : float)
| VStr (s : string)
| VArr (elems : list value)
| VObj (props : list (string * value)).

(** The errors the script can meet: [new Error(msg)] (thrown by the script
    on a bad status, and by Leaflet), the engine's [TypeError], and the
    [SyntaxError] of a body that is not JSON.  The wording of an engine
    message differs between engines; the model carries a description. *)
Inductive exn : Type :=
| Error (message : string)
| TypeError (message : string)
| SyntaxError (message : string).

Definition message_of (e : exn) : string :=
  match e with
  | Error m | TypeError m | SyntaxError m => m
  end.

(** The two ways an evaluation ends. *)
Inductive completion (A : Type) : Type :=
| Normal (a : A)
| Throw (e : exn).

Arguments Normal {A} a.
Arguments Throw {A} e.

(** The two number/string conversions of ECMAScript are taken as given:
    [Number::toString] (shortest decimal that reads back as the same
    binary64 value) and [StringToNumber] (the numeric-literal grammar with
    correct rounding).  The script reaches them only through template
    literals, through [toFixed] on magnitudes of 1e21 and above, and
    through arithmetic on values that are not numbers. *)
Class Engine : Type := {
  Number_toString : float -> string;
  StringToNumber : string -> float
}.

Fixpoint lookup (k : string) (ps : list (string * value)) : option value :=
  match ps with
  | [] => None
  | (k', v) :: rest => if String.eqb k k' then Some v else lookup k rest
  end.

(** [ToBoolean]: the falsy values are [undefined], [null], [false], [+0],
    [-0], [NaN] and the empty string. *)
Definition ToBoolean (v : value) : bool :=
  match v with
  | VUndefined | VNull => false
  | VBool b => b
  | VNum x => negb ((x =? 0)%float || is_nan x)
  | VStr s => match s with EmptyString => false | String _ _ => true end
  | VArr _ | VObj _ => true
  end.

(** [a || b] on values (wherever the script uses it both operands are
    free of effects, so evaluating the second early changes nothing). *)
Definition or_else (a b : value) : value := if ToBoolean a then a else b.

Definition is_number (v : value) : bool :=
  match v with VNum _ => true | _ => false end.

(** [v.k] and [v[k]] for the property names the script reads from response
    data ([coords], [city], [probabilities], [time_series], [hot], [wet],
    [date] and the five metric keys).  None of them is an inherited
    property, so on anything but an object the read gives [undefined], and
    on [null] and [undefined] it throws.  ([length] is read through
    [length_is] below.) *)
Definition Get (v : value) (k : string) : completion value :=
  match v with
  | VUndefined =>
      Throw (TypeError ("Cannot read properties of undefined (reading '" ++ k ++ "')"))
  | VNull =>
      Throw (TypeError ("Cannot read properties of null (reading '" ++ k ++ "')"))
  | VObj ps => Normal (match lookup k ps with Some x => x | None => VUndefined end)
  | VBool _ | VNum _ | VStr _ | VArr _ => Normal VUndefined
  end.

(** A length below 2^53 is the same number as a natural and as a binary64
    value, so lengths stay naturals. *)
Definition float_of_nat (n : nat) : float :=
  PrimFloat.of_uint63 (Uint63.of_Z (Z.of_nat n)).

(** [v.length === k] for a [v] that is neither [null] nor [undefined]: the
    length of an array or of a string, the [length] property of an object,
    and [undefined] (never [=== k]) on a boolean or a number. *)
Definition length_is (v : value) (k : nat) : bool :=
  match v with
  | VArr l => Nat.eqb (List.length l) k
  | VStr s => Nat.eqb (String.length s) k
  | VObj ps =>
      match lookup "length" ps with
      | Some (VNum x) => (x =? float_of_nat k)%float
      | _ => false
      end
  | _ => false
  end.

(** [arr.slice(-k)]: the last [k] elements, all of them when there are
    fewer (the start index is [max(len - k, 0)]). *)
Definition slice_last {A : Type} (k : nat) (l : list A) : list A :=
  skipn (List.length l - k) l.

(** [Math.max(...args)] on numbers: [NaN] if any argument is [NaN],
    otherwise the largest, starting from [-Infinity], with [+0] above
    [-0]. *)
Definition is_pos_zero (x : float) : bool :=
  match Prim2SF x with S754_zero false => true | _ => false end.
Definition is_neg_zero (x : float) : bool :=
  match Prim2SF x with S754_zero true => true | _ => false end.

Definition max_step (highest number : float) : float :=
  if is_nan highest || is_nan number then nan
  else if is_pos_zero number && is_neg_zero highest then number
  else if (highest <? number)%float then number
  else highest.

Definition Math_max (args : list float) : float :=
  fold_left max_step args neg_infinity.

(** *** [Number.prototype.toFixed] *)

Definition digits (n : N) : string := NilZero.string_of_uint (N.to_uint n).

Definition zeros (k : nat) : string := string_of_list_ascii (repeat "0"%char k).

(** The integer [n] for which [n / 10^f] is nearest to [m * 2^e], the larger
    one of two. *)
Definition scaled_round (f : nat) (m : positive) (e : Z) : N :=
  let t := (Z.pos m * 10 ^ Z.of_nat f)%Z in
  Z.to_N (if (0 <=? e)%Z then t * 2 ^ e
          else (2 * t + 2 ^ (- e)) / 2 ^ (- e + 1))%Z.

(** The digits of [n] with a point before the last [f] of them, padded with
    zeros on the left to [f + 1] digits. *)
Definition fixed_digits (f : nat) (n : N) : string :=
  let m := digits n in
  match f with
  | O => m
  | S _ =>
      let m := if (String.length m <=? f)%nat
               then zeros (f + 1 - String.length m) ++ m else m in
      let k := String.length m in
      substring 0 (k - f) m ++ "." ++ substring (k - f) f m
  end.

Section WithEngine.
Context {engine : Engine}.

(** [ToPrimitive] is where a conversion can throw.  An object parsed from
    JSON inherits [toString] and [valueOf] from [Object.prototype], unless a
    key of its own hides one of them with something that cannot be called.
    [valueOf] yields no primitive either way (inherited, it gives back the
    object; hidden, it is skipped), so for both hints the conversion ends
    with the inherited [toString], or it throws a [TypeError] when the
    object has a key [toString] of its own.  An array is joined, which
    converts its items (but for [null] and [undefined]) the same way. *)
Fixpoint converts (v : value) : bool :=
  match v with
  | VObj ps => match lookup "toString" ps with
               | Some _ => false
               | None => true
               end
  | VArr l =>
      forallb (fun e => match e with
                        | VUndefined | VNull => true
                        | _ => converts e
                        end) l
  | _ => true
  end.

Definition not_primitive : exn := TypeError "Cannot convert object to primitive value".

(** The string [ToString] gives when the conversion completes (see
    [try_ToString] for the conversion itself). *)
Fixpoint ToString (v : value) : string :=
  match v with
  | VUndefined => "undefined"
  | VNull => "null"
  | VBool b => if b then "true" else "false"
  | VNum x => Number_toString x
  | VStr s => s
  | VArr l =>
      String.concat ","
        (map (fun e => match e with
                       | VUndefined | VNull => EmptyString
                       | _ => ToString e
                       end) l)
  | VObj _ => "[object Object]"
  end.

(** The number [ToNumber] gives when the conversion completes (see
    [try_ToNumber]). *)
Definition ToNumber (v : value) : float :=
  match v with
  | VUndefined => nan
  | VNull => 0
  | VBool b => if b then 1 else 0
  | VNum x => x
  | VStr s => StringToNumber s
  | VArr _ => StringToNumber (ToString v)
  | VObj _ => nan
  end.

(** [ToString], as a template literal applies it to a substituted value,
    and [ToNumber], as [Math.max] and [/] apply it to their operands: the
    result, or the [TypeError] of [ToPrimitive]. *)
Definition try_ToString (v : value) : completion string :=
  if converts v then Normal (ToString v) else Throw not_primitive.

Definition try_ToNumber (v : value) : completion float :=
  if converts v then Normal (ToNumber v) else Throw not_primitive.

(** [x.toFixed(f)] for [0 <= f <= 100]: a value that is not finite prints as
    [Number::toString] does; otherwise the sign, then either the fixed
    digits (magnitude below 1e21) or [Number::toString] of the magnitude.
    Both zeros print without a sign. *)
Definition toFixed (f : nat) (x : float) : string :=
  match Prim2SF x with
  | S754_zero _ => fixed_digits f 0
  | S754_finite s m e =>
      (if s then "-" else EmptyString) ++
      (if (abs x <? 1e21)%float then fixed_digits f (scaled_round f m e)
       else Number_toString (abs x))
  | S754_infinity _ | S754_nan => Number_toString x
  end.

End WithEngine.

End JS.

Import JS.

(** ** The Leaflet map, as far as the script drives it *)

Module Leaflet.

(** A marker object: its identity (two calls of [L.marker] give two
    objects), its position and the content bound to its popup. *)
Record marker : Type := {
  marker_id : nat;
  marker_latlng : value * value;
  marker_popup : value
}.

(** The map object: its view and the marker layers added to it, oldest
    first.  (The tile layer is added once and never touched again; it is
    left out.) *)
Record map : Type := {
  center : value * value;
  zoom : nat;
  layers : list marker
}.

(** What Leaflet does with data it is handed is Leaflet's own code: whether
    it takes a pair as coordinates, and what [setView] throws when it does
    not; whether it can show a value as popup content, and what
    [bindPopup(...).openPopup()] throws when it cannot. *)
Class Library : Type := {
  latlng_ok : value -> value -> bool;
  latlng_error : value -> value -> exn;
  popup_ok : value -> bool;
  popup_error : value -> exn
}.

Definition setView (c : value * value) (z : nat) (m : map) : map :=
  {| center := c; zoom := z; layers := layers m |}.

Definition addLayer (mk : marker) (m : map) : map :=
  {| center := center m; zoom := zoom m; layers := layers m ++ [mk] |}.

(** [map.removeLayer(marker)]: nothing happens when the marker is not on
    the map. *)
Definition removeLayer (id : nat) (m : map) : map :=
  {| center := center m; zoom := zoom m;
     layers := filter (fun mk => negb (Nat.eqb (marker_id mk) id)) (layers m) |}.

End Leaflet.

(** ** The page *)

(** One bar of the bar chart, as the template of [checkWeather] fills it:
    [<div class="bar" style="height: ${prob}%; background: ${m.color};">],
    [<span class="bar-label">${m.label}</span>] and [<div ...>${prob}%</div>]. *)
Record bar_item : Type := {
  bar_height : float;
  bar_background : string;
  bar_label : string;
  bar_percent : float
}.

(** A piece of markup the script adds to the line chart ([svg.innerHTML +=
    ...]): the tag, the attributes in order, and the text between the tags
    as the template literal made it.  A substituted number is kept as the
    number (its conversion to a string cannot throw).  The text is what the
    script wrote: the browser reads it as markup again (see
    [svg_elements]). *)
Inductive attr : Type :=
| AStr (s : string)
| ANum (x : float).

Record element : Type := {
  tag : string;
  attrs : list (string * attr);
  text : option string
}.

(** The summary card: [${hp}% Very Hot] and
    [For ${actualCity} on ${date}, there's ${hp}% chance ... and ${wp}% chance ...],
    with the four substituted strings. *)
Record info_card : Type := {
  info_hp : string;
  info_wp : string;
  info_city : string;
  info_date : string
}.

(** The locals of a [checkWeather] call that are read after its [await]. *)
Record frame : Type := {
  city : string;
  date : string;
  selected : list string
}.

(** The state the script reads and writes: its two globals, the form
    inputs, the [loading] class of the body, the three rendered areas, what
    was alerted and logged, and the [checkWeather] calls whose request is
    outstanding. *)
Record page : Type := {
  map : option Leaflet.map;
  marker : option nat;
  fresh : nat;
  cityInput : string;
  pinInput : string;
  dateInput : string;
  checked : list string;
  loading : bool;
  barChart : list bar_item;
  lineChart : list element;
  infoCard : option info_card;
  alerts : list string;
  console : list exn;
  pending : list frame
}.

Definition set_map (m : Leaflet.map) (st : page) : page :=
  {| map := Some m; marker := marker st; fresh := fresh st;
     cityInput := cityInput st; pinInput := pinInput st; dateInput := dateInput st;
     checked := checked st; loading := loading st; barChart := barChart st;
     lineChart := lineChart st; infoCard := infoCard st; alerts := alerts st;
     console := console st; pending := pending st |}.

Definition set_marker (id : nat) (st : page) : page :=
  {| map := map st; marker := Some id; fresh := fresh st;
     cityInput := cityInput st; pinInput := pinInput st; dateInput := dateInput st;
     checked := checked st; loading := loading st; barChart := barChart st;
     lineChart := lineChart st; infoCard := infoCard st; alerts := alerts st;
     console := console st; pending := pending st |}.

Definition set_fresh (n : nat) (st : page) : page :=
  {| map := map st; marker := marker st; fresh := n;
     cityInput := cityInput st; pinInput := pinInput st; dateInput := dateInput st;
     checked := checked st; loading := loading st; barChart := barChart st;
     lineChart := lineChart st; infoCard := infoCard st; alerts := alerts st;
     console := console st; pending := pending st |}.

Definition set_cityInput (s : string) (st : page) : page :=
  {| map := map st; marker := marker st; fresh := fresh st;
     cityInput := s; pinInput := pinInput st; dateInput := dateInput st;
     checked := checked st; loading := loading st; barChart := barChart st;
     lineChart := lineChart st; infoCard := infoCard st; alerts := alerts st;
     console := console st; pending := pending st |}.

Definition set_pinInput (s : string) (st : page) : page :=
  {| map := map st; marker := marker st; fresh := fresh st;
     cityInput := cityInput st; pinInput := s; dateInput := dateInput st;
     checked := checked st; loading := loading st; barChart := barChart st;
     lineChart := lineChart st; infoCard := infoCard st; alerts := alerts st;
     console := console st; pending := pending st |}.

Definition set_dateInput (s : string) (st : page) : page :=
  {| map := map st; marker := marker st; fresh := fresh st;
     cityInput := cityInput st; pinInput := pinInput st; dateInput := s;
     checked := checked st; loading := loading st; barChart := barChart st;
     lineChart := lineChart st; infoCard := infoCard st; alerts := alerts st;
     console := console st; pending := pending st |}.

Definition set_checked (ids : list string) (st : page) : page :=
  {| map := map st; marker := marker st; fresh := fresh st;
     cityInput := cityInput st; pinInput := pinInput st; dateInput := dateInput st;
     checked := ids; loading := loading st; barChart := barChart st;
     lineChart := lineChart st; infoCard := infoCard st; alerts := alerts st;
     console := console st; pending := pending st |}.

Definition set_loading (b : bool) (st : page) : page :=
  {| map := map st; marker := marker st; fresh := fresh st;
     cityInput := cityInput st; pinInput := pinInput st; dateInput := dateInput st;
     checked := checked st; loading := b; barChart := barChart st;
     lineChart := lineChart st; infoCard := infoCard st; alerts := alerts st;
     console := console st; pending := pending st |}.

Definition set_barChart (bars : list bar_item) (st : page) : page :=
  {| map := map st; marker := marker st; fresh := fresh st;
     cityInput := cityInput st; pinInput := pinInput st; dateInput := dateInput st;
     checked := checked st; loading := loading st; barChart := bars;
     lineChart := lineChart st; infoCard := infoCard st; alerts := alerts st;
     console := console st; pending := pending st |}.

Definition set_lineChart (els : list element) (st : page) : page :=
  {| map := map st; marker := marker st; fresh := fresh st;
     cityInput := cityInput st; pinInput := pinInput st; dateInput := dateInput st;
     checked := checked st; loading := loading st; barChart := barChart st;
     lineChart := els; infoCard := infoCard st; alerts := alerts st;
     console := console st; pending := pending st |}.

Definition set_infoCard (c : info_card) (st : page) : page :=
  {| map := map st; marker := marker st; fresh := fresh st;
     cityInput := cityInput st; pinInput := pinInput st; dateInput := dateInput st;
     checked := checked st; loading := loading st; barChart := barChart st;
     lineChart := lineChart st; infoCard := Some c; alerts := alerts st;
     console := console st; pending := pending st |}.

Definition log_and_alert (e : exn) (msg : string) (st : page) : page :=
  {| map := map st; marker := marker st; fresh := fresh st;
     cityInput := cityInput st; pinInput := pinInput st; dateInput := dateInput st;
     checked := checked st; loading := loading st; barChart := barChart st;
     lineChart := lineChart st; infoCard := infoCard st; alerts := alerts st ++ [msg];
     console := console st ++ [e]; pending := pending st |}.

Definition set_pending (frs : list frame) (st : page) : page :=
  {| map := map st; marker := marker st; fresh := fresh st;
     cityInput := cityInput st; pinInput := pinInput st; dateInput := dateInput st;
     checked := checked st; loading := loading st; barChart := barChart st;
     lineChart := lineChart st; infoCard := infoCard st; alerts := alerts st;
     console := console st; pending := frs |}.

(** *** Statements that change the page and may throw *)

(** A run of statements: the page it leaves behind and how it ended.  What
    was written before a [throw] stays written. *)
Definition M (A : Type) : Type := page -> completion A * page.

Definition ret {A : Type} (a : A) : M A := fun st => (Normal a, st).

Definition throw {A : Type} (e : exn) : M A := fun st => (Throw e, st).

Definition bind {A B : Type} (c : M A) (k : A -> M B) : M B :=
  fun st =>
    match c st with
    | (Normal a, st') => k a st'
    | (Throw e, st') => (Throw e, st')
    end.

Definition lift {A : Type} (c : completion A) : M A := fun st => (c, st).

Definition gets {A : Type} (f : page -> A) : M A := fun st => (Normal (f st), st).

Definition modify (f : page -> page) : M unit := fun st => (Normal tt, f st).

Notation "x <- c ;; k" := (bind c (fun x => k))
  (at level 61, c at next level, right associativity).
Notation "c ;; k" := (bind c (fun _ => k))
  (at level 61, right associativity).

(** [arr.forEach(f)] for a callback that changes the page and may throw. *)
Fixpoint forEach {A : Type} (f : A -> M unit) (l : list A) : M unit :=
  match l with
  | [] => ret tt
  | a :: rest => f a ;; forEach f rest
  end.

(** Exceptions in code that leaves the page alone, and [arr.map(f)] for a
    callback that may throw ([arr.map((v, i) => ...)] is [mapC] over the
    items paired with their indices). *)
Definition bindC {A B : Type} (c : completion A) (k : A -> completion B) : completion B :=
  match c with
  | Normal a => k a
  | Throw e => Throw e
  end.

Fixpoint mapC {A B : Type} (f : A -> completion B) (l : list A) : completion (list B) :=
  match l with
  | [] => Normal []
  | a :: rest => bindC (f a) (fun b => bindC (mapC f rest) (fun bs => Normal (b :: bs)))
  end.

(** ** static/script.js *)

(** [const METRICS = [...]] *)
Record metric : Type := {
  id : string;
  key : string;
  label : string;
  color : string
}.

Definition METRICS : list metric :=
  [ {| id := "hot"; key := "very_hot"; label := "Very hot"; color := "#ff6b6b" |};
    {| id := "cold"; key := "very_cold"; label := "Very cold"; color := "#6b9bff" |};
    {| id := "wet"; key := "very_wet"; label := "Very wet"; color := "#70d6ff" |};
    {| id := "windy"; key := "very_windy"; label := "Very windy"; color := "#7dd3c0" |};
    {| id := "uncomfortable"; key := "uncomfortable"; label := "Uncomfortable";
       color := "#ff9ff3" |} ].

(** [resp.ok]: the status is in the range 200-299. *)
Definition ok (status : N) : bool := ((200 <=? status) && (status <=? 299))%N.

(** How the request of a [checkWeather] call ends: [fetch] rejects (the
    network failed), or a response arrives with its status and with what
    [resp.json()] makes of its body (a value, or a [SyntaxError]). *)
Inductive outcome : Type :=
| Rejected (e : exn)
| Responded (status : N) (body : completion value).

(** [const [lat, lon] = v]: the first two items of an iterable ([undefined]
    when it runs out); only arrays and strings are iterable here. *)
Definition destructure2 (v : value) : completion (value * value) :=
  match v with
  | VArr l => Normal (nth 0 l VUndefined, nth 1 l VUndefined)
  | VStr s =>
      let item i := match String.get i s with
                    | Some c => VStr (String c EmptyString)
                    | None => VUndefined
                    end in
      Normal (item 0%nat, item 1%nat)
  | _ => Throw (TypeError "data.coords is not iterable")
  end.

(** [selected.length === 0 ? METRICS : METRICS.filter(m => selected.includes(m.id))] *)
Definition useDefs (selected : list string) : list metric :=
  match selected with
  | [] => METRICS
  | _ :: _ => filter (fun m => existsb (String.eqb (id m)) selected) METRICS
  end.

(** [(data.probabilities && typeof data.probabilities[m.key] === 'number')
      ? data.probabilities[m.key] : 0] *)
Definition bar_prob (data : value) (m : metric) : completion float :=
  bindC (Get data "probabilities") (fun probs =>
  if ToBoolean probs then
    bindC (Get probs (key m)) (fun v =>
    match v with
    | VNum x => Normal x
    | _ => Normal 0%float
    end)
  else Normal 0%float).

(** [(data.probabilities && data.probabilities.k) ? data.probabilities.k : 0] *)
Definition card_prob (data : value) (k : string) : completion value :=
  bindC (Get data "probabilities") (fun probs =>
  if ToBoolean probs then
    bindC (Get probs k) (fun v => Normal (if ToBoolean v then v else VNum 0))
  else Normal (VNum 0)).

(** [p.k || 0], the callback of [last.map(p => p.hot || 0)]. *)
Definition field_or_0 (k : string) (p : value) : completion value :=
  bindC (Get p k) (fun v => Normal (or_else v (VNum 0))).

Definition el (t : string) (a : list (string * attr)) (txt : option string) : element :=
  {| tag := t; attrs := a; text := txt |}.

(** [svg.innerHTML += ...] and [barChart.appendChild(barItem)] *)
Definition append_svg (e : element) : M unit :=
  modify (fun st => set_lineChart (lineChart st ++ [e]) st).

Definition appendChild (b : bar_item) : M unit :=
  modify (fun st => set_barChart (barChart st ++ [b]) st).

Definition modify_map (f : Leaflet.map -> Leaflet.map) : M unit :=
  modify (fun st => match map st with
                    | Some m => set_map (f m) st
                    | None => st
                    end).

Definition degree_sign : string := String (ascii_of_nat 176) EmptyString.

Section Script.
Context {engine : Engine} {leaflet : Leaflet.Library}.

(** *** [drawLineChart] *)

Definition viewW : float := 500.
Definition viewH : float := 200.
Definition leftPad : float := 40.
Definition rightPad : float := 20.
Definition topPad : float := 20.
Definition bottomPad : float := 30.
Definition width : float := viewW - leftPad - rightPad.
Definition height : float := viewH - topPad - bottomPad.

(** [leftPad + (n === 1 ? width / 2 : (i * (width / (n - 1))))] *)
Definition xFor (n i : nat) : float :=
  leftPad + (if Nat.eqb n 1 then width / 2
             else float_of_nat i * (width / (float_of_nat n - 1))).

(** [Math.max(...vals, 1)], with [vals] the result of
    [last.map(p => p.hot || 0)] (or [p.wet]).  Every argument goes through
    [ToNumber] first, in order, and the first that cannot be converted
    throws; [scale_max] is the maximum once they all are. *)
Definition scale_max (vals : list value) : float :=
  Math_max (List.map ToNumber vals ++ [1%float]).

Definition Math_max_1 (vals : list value) : completion float :=
  bindC (mapC try_ToNumber vals) (fun _ => Normal (scale_max vals)).

(** [(maxVal === 0) ? 0 : (v / maxVal)] and the [y] it gives; the division
    converts [v], which may throw. *)
Definition path_y (v : value) (maxVal : float) : float :=
  let ratio := if (maxVal =? 0)%float then 0%float else (ToNumber v / maxVal)%float in
  topPad + (height - ratio * height).

Definition try_path_y (v : value) (maxVal : float) : completion float :=
  if (maxVal =? 0)%float then Normal (path_y v maxVal)
  else bindC (try_ToNumber v) (fun _ => Normal (path_y v maxVal)).

(** The callback of [arr.map((v, i) => ...)] in [buildPath]. *)
Definition path_cmd (n : nat) (maxVal : float) (iv : nat * value) : completion string :=
  bindC (try_path_y (snd iv) maxVal) (fun y =>
  Normal ((if Nat.eqb (fst iv) 0 then "M" else "L") ++ " " ++ toFixed 2 (xFor n (fst iv))
            ++ " " ++ toFixed 2 y)).

Definition path_cmds (n : nat) (arr : list value) (maxVal : float) : completion (list string) :=
  mapC (path_cmd n maxVal) (combine (seq 0 (List.length arr)) arr).

Definition buildPath (n : nat) (arr : list value) (maxVal : float) : completion string :=
  bindC (path_cmds n arr maxVal) (fun cmds => Normal (String.concat " " cmds)).

(** The body of [last.forEach((p, i) => ...)]: two circles and the date
    label of one point.  The two divisions convert [p.hot || 0] and
    [p.wet || 0]; the template literal of the label converts [p.date], after
    the two circles are in the markup. *)
Definition draw_point (n : nat) (maxHot maxWet : float) (i : nat) (p : value) : M unit :=
  let x := xFor n i in
  hot <- lift (field_or_0 "hot" p) ;;
  hotN <- lift (try_ToNumber hot) ;;
  let yHot := (topPad + (height - (hotN / maxHot) * height))%float in
  wet <- lift (field_or_0 "wet" p) ;;
  wetN <- lift (try_ToNumber wet) ;;
  let yWet := (topPad + (height - (wetN / maxWet) * height))%float in
  append_svg (el "circle" [("cx", ANum x); ("cy", ANum yHot); ("r", AStr "3");
                           ("fill", AStr "#ff6b6b")] None) ;;
  append_svg (el "circle" [("cx", ANum x); ("cy", ANum yWet); ("r", AStr "3");
                           ("fill", AStr "#70d6ff")] None) ;;
  d <- lift (Get p "date") ;;
  dS <- lift (try_ToString d) ;;
  append_svg (el "text" [("x", ANum x); ("y", ANum (topPad + height + 18));
                         ("font-size", AStr "11"); ("text-anchor", AStr "middle");
                         ("fill", AStr "#666")] (Some dS)).

Definition placeholder : element :=
  el "text" [("x", AStr "20"); ("y", ANum (viewH / 2)); ("fill", AStr "#999")]
     (Some "No time-series data").

Definition legend : list element :=
  [ el "rect" [("x", ANum (viewW - 140)); ("y", ANum topPad); ("width", AStr "10");
               ("height", AStr "10"); ("fill", AStr "#ff6b6b")] None;
    el "text" [("x", ANum (viewW - 124)); ("y", ANum (topPad + 9));
               ("font-size", AStr "11"); ("fill", AStr "#333")]
       (Some ("Temp (" ++ degree_sign ++ "C)"));
    el "rect" [("x", ANum (viewW - 140)); ("y", ANum (topPad + 18)); ("width", AStr "10");
               ("height", AStr "10"); ("fill", AStr "#70d6ff")] None;
    el "text" [("x", ANum (viewW - 124)); ("y", ANum (topPad + 27));
               ("font-size", AStr "11"); ("fill", AStr "#333")]
       (Some "Rain (mm)") ].

(** [function drawLineChart(ts)].  A [ts] that is truthy, not of length 0
    and not an array has no [slice] to call, or (a string) gives a [last]
    with no [map].  Nothing is written before both maxima and both paths
    are there. *)
Definition drawLineChart (ts : value) : M unit :=
  modify (set_lineChart []) ;;
  if negb (ToBoolean ts) || length_is ts 0 then
    modify (set_lineChart [placeholder])
  else
    match ts with
    | VArr l =>
        let last := slice_last 6 l in
        let n := List.length last in
        hots <- lift (mapC (field_or_0 "hot") last) ;;
        maxHot <- lift (Math_max_1 hots) ;;
        wets <- lift (mapC (field_or_0 "wet") last) ;;
        maxWet <- lift (Math_max_1 wets) ;;
        hots' <- lift (mapC (field_or_0 "hot") last) ;;
        hotPath <- lift (buildPath n hots' maxHot) ;;
        wets' <- lift (mapC (field_or_0 "wet") last) ;;
        wetPath <- lift (buildPath n wets' maxWet) ;;
        append_svg (el "line" [("x1", ANum leftPad); ("y1", ANum topPad);
                               ("x2", ANum leftPad); ("y2", ANum (topPad + height));
                               ("stroke", AStr "#eee")] None) ;;
        append_svg (el "path" [("d", AStr hotPath); ("stroke", AStr "#ff6b6b");
                               ("stroke-width", AStr "3"); ("fill", AStr "none")] None) ;;
        append_svg (el "path" [("d", AStr wetPath); ("stroke", AStr "#70d6ff");
                               ("stroke-width", AStr "3"); ("fill", AStr "none")] None) ;;
        forEach (fun ip => draw_point n maxHot maxWet (fst ip) (snd ip))
                (combine (seq 0 n) last) ;;
        forEach append_svg legend
    | VStr _ => throw (TypeError "last.map is not a function")
    | _ => throw (TypeError "ts.slice is not a function")
    end.

(** *** [checkWeather] *)

(** [data.city || city || 'Selected Location'], with [data.city] already
    read. *)
Definition displayName (dcity : value) (city : string) : value :=
  or_else (or_else dcity (VStr city)) (VStr "Selected Location").

(** Lines 34-49: the map view and the marker. *)
Definition update_map (fr : frame) (data : value) : M unit :=
  coords <- lift (Get data "coords") ;;
  if ToBoolean coords && length_is coords 2 then
    ll <- lift (destructure2 coords) ;;
    let lat := fst ll in
    let lon := snd ll in
    m <- gets map ;;
    match m with
    | None => ret tt
    | Some _ =>
        (if Leaflet.latlng_ok lat lon
         then modify_map (Leaflet.setView (lat, lon) 10)
         else throw (Leaflet.latlng_error lat lon)) ;;
        old <- gets marker ;;
        match old with
        | Some i => modify_map (Leaflet.removeLayer i)
        | None => ret tt
        end ;;
        dcity <- lift (Get data "city") ;;
        let name := displayName dcity (city fr) in
        i <- gets fresh ;;
        modify (set_fresh (S i)) ;;
        modify_map (Leaflet.addLayer
                      {| Leaflet.marker_id := i; Leaflet.marker_latlng := (lat, lon);
                         Leaflet.marker_popup := name |}) ;;
        (if Leaflet.popup_ok name then ret tt
         else throw (Leaflet.popup_error name)) ;;
        modify (set_marker i)
    end
  else ret tt.

(** Lines 51-65: the bar chart. *)
Definition render_bar (data : value) (m : metric) : M unit :=
  prob <- lift (bar_prob data m) ;;
  appendChild {| bar_height := prob; bar_background := color m;
                 bar_label := label m; bar_percent := prob |}.

Definition render_barChart (fr : frame) (data : value) : M unit :=
  modify (set_barChart []) ;;
  forEach (render_bar data) (useDefs (selected fr)).

(** Lines 69-79: the summary card.  The template literal converts what it
    substitutes, in the order [hp], [actualCity], [date] (a string), [hp]
    again and [wp]; nothing is written when a conversion throws. *)
Definition render_infoCard (fr : frame) (data : value) : M unit :=
  hp <- lift (card_prob data "very_hot") ;;
  wp <- lift (card_prob data "very_wet") ;;
  dcity <- lift (Get data "city") ;;
  let actualCity := displayName dcity (city fr) in
  hpS <- lift (try_ToString hp) ;;
  cityS <- lift (try_ToString actualCity) ;;
  wpS <- lift (try_ToString wp) ;;
  modify (set_infoCard {| info_hp := hpS; info_wp := wpS; info_city := cityS;
                          info_date := date fr |}).

(** The [try] block from the settled request on. *)
Definition try_block (fr : frame) (o : outcome) : M unit :=
  match o with
  | Rejected e => throw e
  | Responded status body =>
      if negb (ok status) then throw (Error ("Server " ++ digits status))
      else
        data <- lift body ;;
        update_map fr data ;;
        render_barChart fr data ;;
        ts <- lift (Get data "time_series") ;;
        drawLineChart (or_else ts (VArr [])) ;;
        render_infoCard fr data
  end.

(** [checkWeather] up to its [await]: the locals are read from the inputs
    and the body gets the [loading] class.  (The request is not modelled:
    its answer is an input of [checkWeather_resume].) *)
Definition checkWeather_call (st : page) : page :=
  let fr := {| city := match cityInput st with
                       | EmptyString => "Karachi"
                       | String _ _ => cityInput st
                       end;
               date := dateInput st;
               selected := checked st |} in
  set_pending (pending st ++ [fr]) (set_loading true st).

(** [`Oops: ${err.message}. Try a past date or change city/coords.`] *)
Definition oops (err : exn) : string :=
  "Oops: " ++ message_of err ++ ". Try a past date or change city/coords.".

(** [checkWeather] from the settled request to its end: the [try] block,
    the [catch] clause when it threw, and the [finally] clause. *)
Definition checkWeather_resume (fr : frame) (o : outcome) (st : page) : page :=
  let (r, st1) := try_block fr o st in
  let st2 :=
    match r with
    | Normal _ => st1
    | Throw err =>
        log_and_alert err (oops err) st1
    end in
  set_loading false st2.

(** *** The [DOMContentLoaded] handler and the map click handler *)

Definition Karachi : value * value := (VNum 24.86, VNum 67).

Definition on_DOMContentLoaded (st : page) : page :=
  let i := fresh st in
  let mk := {| Leaflet.marker_id := i; Leaflet.marker_latlng := Karachi;
               Leaflet.marker_popup := VStr "Karachi" |} in
  set_marker i
    (set_fresh (S i)
       (set_map {| Leaflet.center := Karachi; Leaflet.zoom := 10;
                   Leaflet.layers := [mk] |} st)).

(** [map.on('click', function(e) {...})] with [e.latlng = (lat, lng)].  The
    coordinates come from Leaflet and the marker gets their decimal
    numerals and a string for its popup, which Leaflet takes. *)
Definition on_click (elat elng : float) (st : page) : page :=
  match map st with
  | None => st
  | Some m =>
      let lat := toFixed 5 elat in
      let lon := toFixed 5 elng in
      let m1 := match marker st with
                | Some i => Leaflet.removeLayer i m
                | None => m
                end in
      let i := fresh st in
      let mk := {| Leaflet.marker_id := i;
                   Leaflet.marker_latlng := (VStr lat, VStr lon);
                   Leaflet.marker_popup :=
                     VStr ("Selected Location: " ++ lat ++ ", " ++ lon) |} in
      set_cityInput EmptyString
        (set_pinInput (lat ++ "," ++ lon)
           (set_marker i (set_fresh (S i) (set_map (Leaflet.addLayer mk m1) st))))
  end.

(** *** The page as events drive it *)

(** The page once the script has run: [map] and [marker] are [null], the
    date input holds today's date, nothing is rendered or outstanding, and
    the body has no [loading] class (only [checkWeather] ever adds it). *)
Definition boot (today : string) : page :=
  {| map := None; marker := None; fresh := 0;
     cityInput := EmptyString; pinInput := EmptyString; dateInput := today;
     checked := []; loading := false; barChart := []; lineChart := [];
     infoCard := None; alerts := []; console := []; pending := [] |}.

(** What can happen next on the single thread: the document finishes
    loading, the user edits an input or ticks metric boxes, clicks the map,
    starts a query, or the request of the [k]-th outstanding query
    settles. *)
Inductive event : Type :=
| DOMContentLoaded
| TypeCity (s : string)
| TypePin (s : string)
| PickDate (s : string)
| Tick (ids : list string)
| MapClick (lat lng : float)
| Query
| Settled (k : nat) (o : outcome).

Fixpoint remove_nth {A : Type} (k : nat) (l : list A) : list A :=
  match k, l with
  | _, [] => []
  | O, _ :: rest => rest
  | S k', a :: rest => a :: remove_nth k' rest
  end.

(** One handler runs to its end (or to its [await]) before the next
    starts.  [DOMContentLoaded] fires once; a click does nothing before the
    click handler is registered. *)
Definition step (st : page) (ev : event) : page :=
  match ev with
  | DOMContentLoaded =>
      match map st with
      | None => on_DOMContentLoaded st
      | Some _ => st
      end
  | TypeCity s => set_cityInput s st
  | TypePin s => set_pinInput s st
  | PickDate s => set_dateInput s st
  | Tick ids => set_checked ids st
  | MapClick lat lng => on_click lat lng st
  | Query => checkWeather_call st
  | Settled k o =>
      match nth_error (pending st) k with
      | Some fr => checkWeather_resume fr o (set_pending (remove_nth k (pending st)) st)
      | None => st
      end
  end.

Definition run (today : string) (evs : list event) : page :=
  fold_left step evs (boot today).

End Script.

(** ** Notions the statements use *)

(** A value that has properties to read: anything but [null] and
    [undefined]. *)
Definition nullish (v : value) : bool :=
  match v with
  | VUndefined | VNull => true
  | _ => false
  end.

(** [v.k] where the read cannot throw. *)
Definition prop (v : value) (k : string) : value :=
  match Get v k with
  | Normal x => x
  | Throw _ => VUndefined
  end.

(** The response gives no probability for the key [k]: it has no (truthy)
    [probabilities], or [probabilities] has no such key, or what it holds
    under the key is not a number. *)
Inductive no_probability (data : value) (k : string) : Prop :=
| probabilities_absent :
    nullish data = false -> ToBoolean (prop data "probabilities") = false ->
    no_probability data k
| key_missing :
    nullish data = false -> ToBoolean (prop data "probabilities") = true ->
    prop (prop data "probabilities") k = VUndefined ->
    no_probability data k
| not_a_number :
    nullish data = false -> ToBoolean (prop data "probabilities") = true ->
    is_number (prop (prop data "probabilities") k) = false ->
    no_probability data k.

(** The bar of a metric whose probability is [x]. *)
Definition bar_of (m : metric) (x : float) : bar_item :=
  {| bar_height := x; bar_background := color m; bar_label := label m;
     bar_percent := x |}.

Definition bar_value (data : value) (m : metric) : float :=
  match bar_prob data m with
  | Normal x => x
  | Throw _ => 0%float
  end.

(** [l1] is [l2] with some items left out, the rest in the same order. *)
Inductive subseq {A : Type} : list A -> list A -> Prop :=
| subseq_nil : subseq [] []
| subseq_skip : forall a l1 l2, subseq l1 l2 -> subseq l1 (a :: l2)
| subseq_keep : forall a l1 l2, subseq l1 l2 -> subseq (a :: l1) (a :: l2).

(** The identifier is one of the metric table. *)
Definition known (i : string) : bool :=
  existsb (fun m => String.eqb (id m) i) METRICS.

(** Elements of the line chart by kind: the marker circles, the two paths,
    and the axis labels (the [text] elements anchored in the middle; the
    placeholder and the legend texts carry no anchor). *)
Definition has_tag (t : string) (e : element) : bool := String.eqb (tag e) t.

Fixpoint attr_of (k : string) (a : list (string * attr)) : option attr :=
  match a with
  | [] => None
  | (k', v) :: rest => if String.eqb k k' then Some v else attr_of k rest
  end.

Definition circles (els : list element) : list element := filter (has_tag "circle") els.

Definition paths (els : list element) : list element := filter (has_tag "path") els.

Definition axis_labels (els : list element) : list element :=
  filter (fun e => has_tag "text" e &&
                   match attr_of "text-anchor" (attrs e) with
                   | Some _ => true
                   | None => false
                   end) els.

(** A decimal numeral with a point and exactly [f] digits after it. *)
Definition is_digit (c : ascii) : bool :=
  (48 <=? nat_of_ascii c)%nat && (nat_of_ascii c <=? 57)%nat.

Definition all_digits (s : string) : bool := forallb is_digit (list_ascii_of_string s).

Definition fixed_shape (f : nat) (s : string) : Prop :=
  exists a b : string,
    s = a ++ "." ++ b /\ String.length b = f /\ (0 < String.length a)%nat /\
    all_digits a = true /\ all_digits b = true.

(** A number [toFixed] prints in fixed notation: finite, and below 1e21 in
    magnitude. *)
Definition plain (x : float) : bool :=
  match Prim2SF x with
  | S754_zero _ => true
  | S754_finite _ _ _ => (abs x <? 1e21)%float
  | S754_infinity _ | S754_nan => false
  end.

(** What a response says about its city is text when it says anything. *)
Definition city_is_text (data : value) : bool :=
  match prop data "city" with
  | VStr _ => true
  | c => negb (ToBoolean c)
  end.

Definition response_city_is_text (ev : event) : bool :=
  match ev with
  | Settled _ (Responded _ (Normal data)) => city_is_text data
  | _ => true
  end.

Definition is_Query (ev : event) : bool :=
  match ev with
  | Query => true
  | _ => false
  end.

Section Rendered.
Context {engine : Engine}.

(** The values [last.map(p => p.hot || 0)] gives when no point is nullish. *)
Definition series (k : string) (last : list value) : list value :=
  List.map (fun p => or_else (prop p k) (VNum 0)) last.

(** The [y] of a marker circle: [topPad + (height - ((p.k || 0) / max) * height)]. *)
Definition circle_y (k : string) (maxVal : float) (p : value) : float :=
  topPad + (height - (ToNumber (or_else (prop p k) (VNum 0)) / maxVal) * height).

Definition hot_circle (n : nat) (maxHot : float) (ip : nat * value) : element :=
  el "circle" [("cx", ANum (xFor n (fst ip))); ("cy", ANum (circle_y "hot" maxHot (snd ip)));
               ("r", AStr "3"); ("fill", AStr "#ff6b6b")] None.

Definition wet_circle (n : nat) (maxWet : float) (ip : nat * value) : element :=
  el "circle" [("cx", ANum (xFor n (fst ip))); ("cy", ANum (circle_y "wet" maxWet (snd ip)));
               ("r", AStr "3"); ("fill", AStr "#70d6ff")] None.

Definition date_label (n : nat) (ip : nat * value) : element :=
  el "text" [("x", ANum (xFor n (fst ip))); ("y", ANum (topPad + height + 18));
             ("font-size", AStr "11"); ("text-anchor", AStr "middle");
             ("fill", AStr "#666")] (Some (ToString (prop (snd ip) "date"))).

(** What [draw_point] appends for the point [snd ip] at index [fst ip]. *)
Definition point_elems (n : nat) (maxHot maxWet : float) (ip : nat * value) : list element :=
  [hot_circle n maxHot ip; wet_circle n maxWet ip; date_label n ip].

Definition axis_line : element :=
  el "line" [("x1", ANum leftPad); ("y1", ANum topPad); ("x2", ANum leftPad);
             ("y2", ANum (topPad + height)); ("stroke", AStr "#eee")] None.

Definition path_elem (d stroke : string) : element :=
  el "path" [("d", AStr d); ("stroke", AStr stroke); ("stroke-width", AStr "3");
             ("fill", AStr "none")] None.

(** The path of a series, written out: [M] to the first point and [L] to
    each of the others, every point at the x of its index and at the y of
    its marker circle, both printed with two decimals. *)
Definition path_vertex (n : nat) (k : string) (maxVal : float) (ip : nat * value) : string :=
  (if Nat.eqb (fst ip) 0 then "M" else "L") ++ " " ++ toFixed 2 (xFor n (fst ip))
    ++ " " ++ toFixed 2 (circle_y k maxVal (snd ip)).

Definition path_data (k : string) (maxVal : float) (last : list value) : string :=
  String.concat " "
    (List.map (path_vertex (List.length last) k maxVal)
              (combine (seq 0 (List.length last)) last)).

(** The chart of the window [last], when all of it can be drawn. *)
Definition chart_of (last : list value) : list element :=
  let n := List.length last in
  let maxHot := scale_max (series "hot" last) in
  let maxWet := scale_max (series "wet" last) in
  [ axis_line;
    path_elem (path_data "hot" maxHot last) "#ff6b6b";
    path_elem (path_data "wet" maxWet last) "#70d6ff" ]
  ++ flat_map (point_elems n maxHot maxWet) (combine (seq 0 n) last)
  ++ legend.

End Rendered.

(** A signed decimal numeral with exactly [f] digits after the point. *)
Definition signed_fixed (f : nat) (s : string) : Prop :=
  exists sign body : string,
    s = sign ++ body /\ (sign = EmptyString \/ sign = "-") /\ fixed_shape f body.

Definition is_DOMContentLoaded (ev : event) : bool :=
  match ev with
  | DOMContentLoaded => true
  | _ => false
  end.

(** The map has been created (it is [null] until [DOMContentLoaded]). *)
Definition loaded (st : page) : bool :=
  match map st with
  | Some _ => true
  | None => false
  end.

(** The map shows exactly one marker and the global [marker] refers to it;
    before there is a map there is no marker either. *)
Definition one_marker (st : page) : Prop :=
  match map st with
  | None => marker st = None
  | Some m =>
      exists mk : Leaflet.marker,
        Leaflet.layers m = [mk] /\ marker st = Some (Leaflet.marker_id mk)
  end.

(** Statements that leave an observation [f] of the page as it was,
    however they end. *)
Definition keeps {A B : Type} (f : page -> B) (c : M A) : Prop :=
  forall st : page, f (snd (c st)) = f st.

(** What the summary card shows for the key [k], when [data] can be read:
    [(data.probabilities && data.probabilities.k) ? data.probabilities.k : 0]. *)
Definition card_value (data : value) (k : string) : value :=
  if ToBoolean (prop data "probabilities")
     && ToBoolean (prop (prop data "probabilities") k)
  then prop (prop data "probabilities") k
  else VNum 0.

(** The values the card's template converts can be converted, and the
    card it then writes. *)
Definition card_converts (fr : frame) (data : value) : bool :=
  converts (card_value data "very_hot") && converts (card_value data "very_wet")
  && converts (displayName (prop data "city") (city fr)).

Definition card_of {engine : Engine} (fr : frame) (data : value) : info_card :=
  {| info_hp := ToString (card_value data "very_hot");
     info_wp := ToString (card_value data "very_wet");
     info_city := ToString (displayName (prop data "city") (city fr));
     info_date := date fr |}.

(** A point whose [hot] and [wet] can be read and converted to numbers
    (both maxima and both paths need no more), and one whose [date] can be
    converted to a string as well. *)
Definition point_scales (p : value) : bool :=
  negb (nullish p) && converts (or_else (prop p "hot") (VNum 0))
  && converts (or_else (prop p "wet") (VNum 0)).

Definition point_draws (p : value) : bool :=
  point_scales p && converts (prop p "date").

Definition window_draws (last : list value) : bool := forallb point_draws last.

(** The index of the first item that fails [f]. *)
Fixpoint first_failing {A : Type} (f : A -> bool) (l : list A) : option nat :=
  match l with
  | [] => None
  | a :: rest => if f a then option_map S (first_failing f rest) else Some 0%nat
  end.

(** Text the browser's parser takes as it is: no [<], no [&], no NUL and
    no CR. *)
Definition plain_text (s : string) : bool :=
  forallb (fun c => negb (existsb (Nat.eqb (nat_of_ascii c)) [60; 38; 0; 13]%nat))
          (list_ascii_of_string s).

(** The elements the browser makes of the pieces of markup written into
    the line chart.  When every text is plain each piece is one element,
    with that text.  A text that is not plain is parsed as markup (it may
    close the label and open elements of its own): what comes of it is the
    parser's affair, and the model gives no answer. *)
Definition svg_elements (els : list element) : option (list element) :=
  if forallb (fun e => match text e with
                       | Some s => plain_text s
                       | None => true
                       end) els
  then Some els else None.

Definition dates_plain {engine : Engine} (last : list value) : bool :=
  forallb (fun p => plain_text (ToString (prop p "date"))) last.

(** A time series whose points can be read: falsy or of length 0 (the
    placeholder), or an array with nothing nullish among its last six
    entries. *)
Definition series_drawable (ts : value) : bool :=
  negb (ToBoolean ts) || length_is ts 0
  || match ts with
     | VArr l => forallb (fun p => negb (nullish p)) (slice_last 6 l)
     | _ => false
     end.

(** A time series the chart renderer gets through: falsy or of length 0, or
    an array whose last six entries can all be drawn. *)
Definition chart_completes (ts : value) : bool :=
  negb (ToBoolean ts) || length_is ts 0
  || match ts with
     | VArr l => window_draws (slice_last 6 l)
     | _ => false
     end.

(** Coordinates the map block gets through: none to speak of (absent, or
    not of length 2), or an array of two that Leaflet takes, with a popup
    content it can show. *)
Definition coords_taken {leaflet : Leaflet.Library} (fr : frame) (data : value) : bool :=
  let coords := prop data "coords" in
  negb (ToBoolean coords && length_is coords 2)
  || match coords with
     | VArr [lat; lon] =>
         Leaflet.latlng_ok lat lon
         && Leaflet.popup_ok (displayName (prop data "city") (city fr))
     | _ => false
     end.

(** The closed examples below need an engine and a Leaflet.  This engine
    prints the integers below 2^53 in magnitude as [Number::toString] does
    (the examples print no other number) and reads no string as a number.
    This Leaflet takes a pair of numbers as coordinates and a string as
    popup content, as Leaflet does with values parsed from JSON, and throws
    errors of Leaflet's two kinds. *)
Definition integer_toString (x : float) : string :=
  match Prim2SF x with
  | S754_zero _ => "0"
  | S754_finite s m e =>
      if ((0 <=? e)%Z || (Z.pos m mod 2 ^ (- e) =? 0)%Z) && (abs x <? 9007199254740992)%float
      then (if s then "-" else EmptyString) ++ digits (scaled_round 0 m e)
      else "NaN"
  | S754_infinity s => if s then "-Infinity" else "Infinity"
  | S754_nan => "NaN"
  end.

Definition example_engine : Engine :=
  {| Number_toString := integer_toString; StringToNumber := fun _ => nan |}.

Definition example_leaflet : Leaflet.Library :=
  {| Leaflet.latlng_ok := fun lat lon =>
       match lat, lon with
       | VNum a, VNum b => negb (is_nan a || is_nan b)
       | _, _ => false
       end;
     Leaflet.latlng_error := fun lat lon =>
       match lat with
       | VNull => TypeError "Cannot read properties of null (reading 'lat')"
       | _ => Error ("Invalid LatLng object: (" ++ @ToString example_engine lat ++ ", "
                     ++ @ToString example_engine lon ++ ")")
       end;
     Leaflet.popup_ok := fun v => match v with VStr _ => true | _ => false end;
     Leaflet.popup_error := fun _ =>
       TypeError "Failed to execute 'appendChild' on 'Node': parameter 1 is not of type 'Node'." |}.

(** Sample data for the closed examples: a page that has loaded and has one
    query outstanding, and a few responses. *)
Definition sample_frame : frame :=
  {| city := "Karachi"; date := "2025-01-01"; selected := [] |}.

Definition wet_and_unknown : frame :=
  {| city := "Karachi"; date := "2025-01-01"; selected := ["wet"; "snowy"] |}.

Definition only_unknown : frame :=
  {| city := "Karachi"; date := "2025-01-01"; selected := ["snowy"] |}.

Definition only_wet : frame :=
  {| city := "Karachi"; date := "2025-01-01"; selected := ["wet"] |}.

Definition hot_metric : metric :=
  {| id := "hot"; key := "very_hot"; label := "Very hot"; color := "#ff6b6b" |}.

Definition cold_metric : metric :=
  {| id := "cold"; key := "very_cold"; label := "Very cold"; color := "#6b9bff" |}.

Definition sample_page : page :=
  @run example_engine example_leaflet "2025-01-01" [DOMContentLoaded; Query].

Definition point (d : string) (h w : float) : value :=
  VObj [("date", VStr d); ("hot", VNum h); ("wet", VNum w)].

(** Seven entries, the fifth of them [null]. *)
Definition seven_with_null : list value :=
  [ point "05-01" 31 0; point "05-02" 33 0; point "05-03" 36 2; point "05-04" 41 0;
    VNull; point "05-06" 35 4; point "05-07" 34 0 ].

Definition seven_points : list value :=
  [ point "05-01" 31 0; point "05-02" 33 0; point "05-03" 36 2; point "05-04" 41 0;
    point "05-05" 39 12; point "05-06" 35 4; point "05-07" 34 0 ].

(** [{"probabilities": {"very_hot": 72}}] *)
Definition hot_only : value :=
  VObj [("probabilities", VObj [("very_hot", VNum 72)])].

(** A full response, for Lahore. *)
Definition lahore : value :=
  VObj [("coords", VArr [VNum 31.5; VNum 74.25]); ("city", VStr "Lahore");
        ("probabilities", VObj [("very_hot", VNum 72); ("very_wet", VNum 8)]);
        ("time_series", VArr seven_points)].

(** [{"time_series": [null]}] and [{"probabilities": {"very_hot": "high"}}] *)
Definition null_point : value := VObj [("time_series", VArr [VNull])].

Definition text_probability : value :=
  VObj [("probabilities", VObj [("very_hot", VStr "high")])].

(** [{"probabilities": {"very_hot": {"toString": 1}}}] *)
Definition own_toString : value :=
  VObj [("probabilities", VObj [("very_hot", VObj [("toString", VNum 1)])])].

(** ** The request of a query *)

(** [String.prototype.trim]: white space and line terminators are stripped
    from both ends.  Among the code units below 256 these are TAB, LF, VT,
    FF, CR, SP and NBSP. *)
Definition is_space (c : ascii) : bool :=
  let n := nat_of_ascii c in
  ((9 <=? n) && (n <=? 13) || (n =? 32) || (n =? 160))%nat.

Fixpoint drop_spaces (l : list ascii) : list ascii :=
  match l with
  | [] => []
  | c :: rest => if is_space c then drop_spaces rest else l
  end.

Definition trim (s : string) : string :=
  string_of_list_ascii
    (rev (drop_spaces (rev (drop_spaces (list_ascii_of_string s))))).

(** The body [checkWeather] posts to [/check]:
    [{ city, date, selected_metrics: selected, lat_lon }] with
    [lat_lon = pin ? pin.trim() : null]. *)
Record request : Type := {
  req_city : string;
  req_date : string;
  req_selected_metrics : list string;
  req_lat_lon : option string
}.

Definition check_request (st : page) : request :=
  {| req_city := match cityInput st with
                 | EmptyString => "Karachi"
                 | String _ _ => cityInput st
                 end;
     req_date := dateInput st;
     req_selected_metrics := checked st;
     req_lat_lon := match pinInput st with
                    | EmptyString => None
                    | String _ _ => Some (trim (pinInput st))
                    end |}.

(** ** The downloads *)

(** [downloadCSV] and [downloadJSON] are the same function but for the
    endpoint, the extension of the file and the wording of the alert. *)
Inductive file_kind : Type :=
| CSV
| JSON.

Definition kind_name (k : file_kind) : string :=
  match k with
  | CSV => "CSV"
  | JSON => "JSON"
  end.

Definition extension (k : file_kind) : string :=
  match k with
  | CSV => "csv"
  | JSON => "json"
  end.

(** A download whose request is outstanding: which of the two, and the
    [city] and [date] it read (they make the body of its request, and
    [city] names the file). *)
Record download : Type := {
  dl_kind : file_kind;
  dl_city : string;
  dl_date : string
}.

(** How the request of a download ends: [fetch] rejects, or a response
    arrives with its status and with what [resp.blob()] makes of its body
    (the bytes, or an error). *)
Inductive download_outcome : Type :=
| Failed (e : exn)
| Answered (status : N) (blob : completion string).

(** The page together with what the downloads add to it: the files the
    browser has saved (name and content), and the downloads outstanding. *)
Record browser : Type := {
  doc : page;
  saved : list (string * string);
  downloading : list download
}.

(** A download up to its [await]: [city] (with its default) and [date] are
    read from the inputs. *)
Definition download_call (k : file_kind) (b : browser) : browser :=
  let d := {| dl_kind := k;
              dl_city := match cityInput (doc b) with
                         | EmptyString => "Karachi"
                         | String _ _ => cityInput (doc b)
                         end;
              dl_date := dateInput (doc b) |} in
  {| doc := doc b; saved := saved b; downloading := downloading b ++ [d] |}.

Definition downloadCSV (b : browser) : browser := download_call CSV b.

Definition downloadJSON (b : browser) : browser := download_call JSON b.

(** The [try] block from the settled request on: the file handed to the
    browser ([link.download] and the blob behind [link.href]), or what was
    thrown. *)
Definition download_try (d : download) (o : download_outcome) : completion (string * string) :=
  match o with
  | Failed e => Throw e
  | Answered status blob =>
      if negb (ok status)
      then Throw (Error (kind_name (dl_kind d) ++ " download failed"))
      else bindC blob (fun bytes =>
             Normal (dl_city d ++ "_weather." ++ extension (dl_kind d), bytes))
  end.

(** [alert("CSV download not available on this backend.")] *)
Definition not_available (k : file_kind) : string :=
  kind_name k ++ " download not available on this backend.".

(** A download from the settled request to its end: the file is saved, or
    the [catch] clause alerts and logs. *)
Definition download_resume (d : download) (o : download_outcome) (b : browser) : browser :=
  match download_try d o with
  | Normal file =>
      {| doc := doc b; saved := saved b ++ [file]; downloading := downloading b |}
  | Throw e =>
      {| doc := log_and_alert e (not_available (dl_kind d)) (doc b);
         saved := saved b; downloading := downloading b |}
  end.

(** What can happen next once the downloads are counted in: an event of the
    page, a click on one of the two download buttons, or the request of the
    [k]-th outstanding download settling. *)
Inductive action : Type :=
| OnPage (ev : event)
| ClickCSV
| ClickJSON
| Downloaded (k : nat) (o : download_outcome).

Definition page_event (a : action) : option event :=
  match a with
  | OnPage ev => Some ev
  | _ => None
  end.

Section Browser.
Context {engine : Engine} {leaflet : Leaflet.Library}.

Definition act (b : browser) (a : action) : browser :=
  match a with
  | OnPage ev => {| doc := step (doc b) ev; saved := saved b; downloading := downloading b |}
  | ClickCSV => downloadCSV b
  | ClickJSON => downloadJSON b
  | Downloaded k o =>
      match nth_error (downloading b) k with
      | Some d =>
          download_resume d o
            {| doc := doc b; saved := saved b;
               downloading := remove_nth k (downloading b) |}
      | None => b
      end
  end.

Definition play (today : string) (acts : list action) : browser :=
  fold_left act acts {| doc := boot today; saved := []; downloading := [] |}.

End Browser.

(** ** More notions the statements use *)

(** The user edits an input or ticks metric boxes. *)
Definition is_edit (ev : event) : bool :=
  match ev with
  | TypeCity _ | TypePin _ | PickDate _ | Tick _ => true
  | _ => false
  end.

(** The request fails before anything is rendered: the fetch is rejected,
    the status is not a success, the body is not JSON, or it is JSON for
    [null]. *)
Definition fails_early (o : outcome) : option exn :=
  match o with
  | Rejected e => Some e
  | Responded status body =>
      if negb (ok status) then Some (Error ("Server " ++ digits status))
      else match body with
           | Throw e => Some e
           | Normal VNull => Some (TypeError "Cannot read properties of null (reading 'coords')")
           | Normal _ => None
           end
  end.

(** Statements that run the same way before and after a change [g] of the
    page, and leave the page with the same change. *)
Definition commutes {A : Type} (g : page -> page) (c : M A) : Prop :=
  forall st : page, c (g st) = (fst (c st), g (snd (c st))).

(** Number of elements the chart has for a window of [n] points: the axis
    line and the two paths, three per point, and the four of the legend. *)
Definition chart_size (n : nat) : nat := 3 + 3 * n + 4.

(** The locals a [checkWeather] call reads from the inputs of the page. *)
Definition frame_of (st : page) : frame :=
  {| city := match cityInput st with
             | EmptyString => "Karachi"
             | String _ _ => cityInput st
             end;
     date := dateInput st;
     selected := checked st |}.

(** A string with no white space at either end (the empty string too). *)
Definition ends_clean (s : string) : bool :=
  match list_ascii_of_string s with
  | [] => true
  | c :: rest => negb (is_space c) && negb (is_space (last rest c))
  end.

Definition all_spaces (s : string) : bool := forallb is_space (list_ascii_of_string s).

(** The page events among the actions, in order. *)
Definition page_events (acts : list action) : list event :=
  flat_map (fun a => match page_event a with
                     | Some ev => [ev]
                     | None => []
                     end) acts.

(** The page without its messages: all it shows and holds, the alerts and
    the console log apart. *)
Definition quiet (st : page) : page :=
  {| map := map st; marker := marker st; fresh := fresh st;
     cityInput := cityInput st; pinInput := pinInput st; dateInput := dateInput st;
     checked := checked st; loading := loading st; barChart := barChart st;
     lineChart := lineChart st; infoCard := infoCard st; alerts := [];
     console := []; pending := pending st |}.

(** The bytes of a download that goes through: a response with a success
    status whose body can be read. *)
Definition delivered (o : download_outcome) : option string :=
  match o with
  | Answered status (Normal bytes) => if ok status then Some bytes else None
  | _ => None
  end.

Definition is_click (a : action) : bool :=
  match a with
  | ClickCSV | ClickJSON => true
  | _ => false
  end.

Definition click_on (k : file_kind) : action :=
  match k with
  | CSV => ClickCSV
  | JSON => ClickJSON
  end.

(** [`${city}_weather.csv`], [`${city}_weather.json`] *)
Definition file_name (c : string) (k : file_kind) : string :=
  c ++ "_weather." ++ extension k.

(** A file name made of a city that is not empty, [_weather.] and one of
    the two extensions. *)
Definition weather_file (name : string) : Prop :=
  exists (c : string) (k : file_kind), c <> EmptyString /\ name = file_name c k.

(** More sample data: a page that has loaded and has no query outstanding,
    the map the [DOMContentLoaded] handler makes, a response with
    coordinates that are text, one whose time series holds a [null], and a
    browser with nothing saved. *)
Definition loaded_page : page :=
  @run example_engine example_leaflet "2025-01-01" [DOMContentLoaded].

Definition Karachi_map : Leaflet.map :=
  {| Leaflet.center := Karachi; Leaflet.zoom := 10;
     Leaflet.layers := [ {| Leaflet.marker_id := 0; Leaflet.marker_latlng := Karachi;
                            Leaflet.marker_popup := VStr "Karachi" |} ] |}.

Definition text_coords : value :=
  VObj [("coords", VArr [VStr "north"; VStr "east"]); ("city", VStr "Lahore");
        ("probabilities", VObj [("very_hot", VNum 72)]);
        ("time_series", VArr seven_points)].

Definition null_in_series : value :=
  VObj [("coords", VArr [VNum 31.5; VNum 74.25]); ("city", VStr "Lahore");
        ("probabilities", VObj [("very_hot", VNum 72)]);
        ("time_series", VArr [VNull])].

(** [{"coords": [31.5, 74.25], "city": 42}] *)
Definition city_42 : value :=
  VObj [("coords", VArr [VNum 31.5; VNum 74.25]); ("city", VNum 42)].

(** A point whose date is [{"toString": 1}]. *)
Definition unprintable_date : value :=
  VObj [("date", VObj [("toString", VNum 1)]); ("hot", VNum 34); ("wet", VNum 0)].

Definition sample_browser : browser :=
  {| doc := sample_page; saved := []; downloading := [] |}.

Definition Lahore_csv : download :=
  {| dl_kind := CSV; dl_city := "Lahore"; dl_date := "2025-01-01" |}.

(** * Proofs *)

(** ** The order of binary64 values *)

Section SpecFloatOrder.

Lemma SFcompare_refl (x : spec_float) : x <> S754_nan -> SFcompare x x = Some Eq.
Proof.
  destruct x as [s|s| |s m e]; simpl; try congruence; intros _.
  - destruct s; reflexivity.
  - rewrite Z.compare_refl, Pos.compare_cont_refl. destruct s; reflexivity.
Qed.






End SpecFloatOrder.

Section FloatOrder.
Open Scope float_scope.


Lemma SF_is_nan_false (x : float) : Prim2SF x <> S754_nan -> is_nan x = false.
Proof.
  intros H. unfold is_nan. rewrite FloatAxioms.eqb_spec. unfold SFeqb.
  rewrite SFcompare_refl by exact H. reflexivity.
Qed.





Lemma leb_is_nan_l (x y : float) : (x <=? y) = true -> is_nan x = false.
Proof.
  rewrite FloatAxioms.leb_spec. intros H. apply SF_is_nan_false. intros E.
  rewrite E in H. discriminate.
Qed.

Lemma eqb_zero_ltb_one (x : float) : (x =? 0) = true -> (x <? 1) = true.
Proof.
  rewrite FloatAxioms.eqb_spec, FloatAxioms.ltb_spec.
  replace (Prim2SF 0) with (S754_zero false) by reflexivity.
  replace (Prim2SF 1) with (S754_finite false 4503599627370496 (-52)) by reflexivity.
  unfold SFeqb, SFltb.
  destruct (Prim2SF x) as [s|s| |s m e]; intros H.
  - reflexivity.
  - destruct s; discriminate H.
  - discriminate H.
  - destruct s; discriminate H.
Qed.




Lemma Math_max_snoc (xs : list float) (x : float) :
  Math_max (xs ++ [x]) = max_step (Math_max xs) x.
Proof. unfold Math_max. rewrite fold_left_app. reflexivity. Qed.

(** [Math.max(..., 1)] is never [0] and never below [1], whatever the other
    arguments are. *)
Lemma Math_max_with_1 (xs : list float) :
  (Math_max (xs ++ [1]) =? 0) = false /\ (Math_max (xs ++ [1]) <? 1) = false.
Proof.
  rewrite Math_max_snoc. set (h := Math_max xs). unfold max_step.
  destruct (is_nan h) eqn:Hn; simpl; [split; reflexivity | ].
  replace (is_nan 1) with false by reflexivity.
  replace (is_pos_zero 1) with false by reflexivity. simpl.
  destruct (h <? 1) eqn:L; [split; reflexivity | ].
  split; [ | exact L ].
  destruct (h =? 0) eqn:E; [ | reflexivity ].
  apply eqb_zero_ltb_one in E. congruence.
Qed.

End FloatOrder.

(** ** Strings of digits *)

Section Digits.

Lemma length_append (a b : string) :
  String.length (a ++ b) = (String.length a + String.length b)%nat.
Proof. induction a as [|c a IH]; simpl; [reflexivity | now rewrite IH]. Qed.

Lemma length_substring (s : string) : forall i n : nat,
  (i + n <= String.length s)%nat -> String.length (substring i n s) = n.
Proof.
  induction s as [|c s IH]; intros i n H; simpl in H.
  - assert (i = 0%nat) by lia. assert (n = 0%nat) by lia. subst. reflexivity.
  - destruct i as [|i]; destruct n as [|n]; simpl; try reflexivity.
    + f_equal. apply IH. simpl. lia.
    + apply (IH i 0%nat). lia.
    + apply (IH i (S n)). lia.
Qed.

Lemma all_digits_append (a b : string) :
  all_digits a = true -> all_digits b = true -> all_digits (a ++ b) = true.
Proof.
  unfold all_digits. induction a as [|c a IH]; simpl; intros Ha Hb; [exact Hb | ].
  apply andb_true_iff in Ha. destruct Ha as [Hc Ha].
  rewrite Hc. simpl. now apply IH.
Qed.

Lemma all_digits_substring (s : string) : forall i n : nat,
  all_digits s = true -> all_digits (substring i n s) = true.
Proof.
  unfold all_digits. induction s as [|c s IH]; intros i n H.
  - destruct i, n; reflexivity.
  - simpl in H. apply andb_true_iff in H. destruct H as [Hc Hs].
    destruct i as [|i]; destruct n as [|n]; simpl; try reflexivity.
    + rewrite Hc. simpl. now apply IH.
    + now apply IH.
    + now apply IH.
Qed.

Lemma zeros_length (k : nat) : String.length (zeros k) = k.
Proof. unfold zeros. induction k as [|k IH]; simpl; [reflexivity | now rewrite IH]. Qed.

Lemma zeros_all_digits (k : nat) : all_digits (zeros k) = true.
Proof.
  unfold all_digits, zeros. rewrite list_ascii_of_string_of_list_ascii.
  induction k as [|k IH]; simpl; [reflexivity | exact IH].
Qed.

Lemma string_of_uint_all_digits (d : Decimal.uint) :
  all_digits (NilEmpty.string_of_uint d) = true.
Proof. unfold all_digits. induction d; simpl; auto. Qed.

Lemma digits_all_digits (n : N) : all_digits (digits n) = true.
Proof.
  unfold digits, NilZero.string_of_uint.
  destruct (N.to_uint n); try apply string_of_uint_all_digits. reflexivity.
Qed.

Lemma digits_nonempty (n : N) : (0 < String.length (digits n))%nat.
Proof.
  unfold digits, NilZero.string_of_uint. destruct (N.to_uint n); simpl; lia.
Qed.

(** With at least one digit asked for, [fixed_digits] gives a numeral with
    exactly that many digits after the point and at least one before. *)
Lemma fixed_digits_shape (f : nat) (n : N) :
  (0 < f)%nat -> fixed_shape f (fixed_digits f n).
Proof.
  intros Hf. unfold fixed_digits. destruct f as [|f]; [lia | ].
  set (m := if (String.length (digits n) <=? S f)%nat
            then zeros (S f + 1 - String.length (digits n)) ++ digits n
            else digits n).
  assert (Hlen : (S f < String.length m)%nat).
  { unfold m. destruct (Nat.leb_spec (String.length (digits n)) (S f)) as [L|L].
    - rewrite length_append, zeros_length. pose proof (digits_nonempty n). lia.
    - exact L. }
  assert (Hdig : all_digits m = true).
  { unfold m. destruct (String.length (digits n) <=? S f)%nat.
    - apply all_digits_append; [apply zeros_all_digits | apply digits_all_digits].
    - apply digits_all_digits. }
  exists (substring 0 (String.length m - S f) m), (substring (String.length m - S f) (S f) m).
  split; [reflexivity | ].
  split; [apply length_substring; lia | ].
  split; [rewrite length_substring by lia; lia | ].
  split; apply all_digits_substring; exact Hdig.
Qed.

(** [scaled_round] is the nearest integer, the larger one of two: with
    [t = m * 10^f], exactly [t * 2^e] when [e >= 0], and otherwise the [n]
    with [n - 1/2 <= t / 2^(-e) < n + 1/2]. *)
Lemma scaled_round_nearest (f : nat) (m : positive) (e : Z) :
  let t := (Z.pos m * 10 ^ Z.of_nat f)%Z in
  let n := Z.of_N (scaled_round f m e) in
  ((0 <= e)%Z -> n = (t * 2 ^ e)%Z) /\
  ((e < 0)%Z -> (2 * n * 2 ^ (- e) <= 2 * t + 2 ^ (- e) < 2 * (n + 1) * 2 ^ (- e))%Z).
Proof.
  intros t n. subst n. unfold scaled_round. fold t.
  assert (Ht : (0 < t)%Z).
  { unfold t. apply Z.mul_pos_pos; [lia | apply Z.pow_pos_nonneg; lia]. }
  split; intros He.
  - destruct (Z.leb_spec 0 e); [ | lia].
    rewrite Z2N.id; [reflexivity | ].
    apply Z.mul_nonneg_nonneg; [lia | apply Z.pow_nonneg; lia].
  - destruct (Z.leb_spec 0 e); [lia | ].
    assert (Hp : (0 < 2 ^ (- e))%Z) by (apply Z.pow_pos_nonneg; lia).
    replace (2 ^ (- e + 1))%Z with (2 * 2 ^ (- e))%Z
      by (rewrite Z.pow_add_r by lia; lia).
    set (d := (2 * 2 ^ (- e))%Z). set (a := (2 * t + 2 ^ (- e))%Z).
    assert (Hd : (0 < d)%Z) by (unfold d; lia).
    assert (Ha : (0 <= a)%Z) by (unfold a; lia).
    rewrite Z2N.id by (apply Z.div_pos; lia).
    pose proof (Z.mul_div_le a d Hd). pose proof (Z.mul_succ_div_gt a d Hd).
    fold d. lia.
Qed.

End Digits.

(** ** Running the statements of the script *)

Ltac run_M :=
  cbv [bind lift modify gets ret throw append_svg appendChild modify_map]; simpl.

Section Evaluation.
Context {engine : Engine}.

Lemma toFixed_shape (f : nat) (x : float) :
  (0 < f)%nat -> plain x = true ->
  exists sign body : string,
    toFixed f x = sign ++ body /\ (sign = EmptyString \/ sign = "-") /\
    fixed_shape f body.
Proof.
  intros Hf Hx. unfold toFixed. unfold plain in Hx.
  destruct (Prim2SF x) as [s|s| |s m e]; try discriminate.
  - exists EmptyString, (fixed_digits f 0). repeat split; [now left | ].
    now apply fixed_digits_shape.
  - rewrite Hx. exists (if s then "-" else EmptyString), (fixed_digits f (scaled_round f m e)).
    repeat split; [destruct s; auto | now apply fixed_digits_shape].
Qed.

Lemma Get_prop (v : value) (k : string) :
  nullish v = false -> Get v k = Normal (prop v k).
Proof. unfold prop. destruct v; simpl; intros H; try discriminate; reflexivity. Qed.

Lemma Get_nullish (v : value) (k : string) :
  nullish v = true -> exists e, Get v k = Throw e.
Proof. destruct v; simpl; intros H; try discriminate; eexists; reflexivity. Qed.

Lemma field_or_0_prop (k : string) (p : value) :
  nullish p = false -> field_or_0 k p = Normal (or_else (prop p k) (VNum 0)).
Proof. intros H. unfold field_or_0. rewrite (Get_prop p k H). reflexivity. Qed.

Lemma mapC_series (k : string) (last : list value) :
  Forall (fun p => nullish p = false) last ->
  mapC (field_or_0 k) last = Normal (series k last).
Proof.
  induction 1 as [|p last Hp _ IH]; simpl; [reflexivity | ].
  rewrite (field_or_0_prop k p Hp). simpl. rewrite IH. reflexivity.
Qed.

Lemma try_ToNumber_converts (v : value) :
  converts v = true -> try_ToNumber v = Normal (ToNumber v).
Proof. unfold try_ToNumber. now intros ->. Qed.

Lemma try_ToString_converts (v : value) :
  converts v = true -> try_ToString v = Normal (ToString v).
Proof. unfold try_ToString. now intros ->. Qed.

Lemma mapC_Normal {A B : Type} (f : A -> completion B) (g : A -> B) (l : list A) :
  Forall (fun a => f a = Normal (g a)) l -> mapC f l = Normal (List.map g l).
Proof.
  induction 1 as [|a l Ha _ IH]; simpl; [reflexivity | ].
  rewrite Ha. simpl. rewrite IH. reflexivity.
Qed.

Lemma mapC_map {A B C : Type} (h : A -> B) (f : B -> completion C) (l : list A) :
  mapC f (List.map h l) = mapC (fun a => f (h a)) l.
Proof. induction l as [|a l IH]; simpl; [reflexivity | now rewrite IH]. Qed.

Lemma combine_map_r {A B C : Type} (f : B -> C) (l1 : list A) : forall l2 : list B,
  combine l1 (List.map f l2) = List.map (fun ab => (fst ab, f (snd ab))) (combine l1 l2).
Proof.
  induction l1 as [|a l1 IH]; intros l2; [reflexivity | ].
  destruct l2 as [|b l2]; [reflexivity | ]. simpl. now rewrite IH.
Qed.

(** [Math.max(...vals, 1)] throws exactly when one of the values cannot be
    converted. *)
Lemma Math_max_1_value (vals : list value) :
  Math_max_1 vals
  = if forallb converts vals then Normal (scale_max vals) else Throw not_primitive.
Proof.
  unfold Math_max_1.
  assert (E : mapC try_ToNumber vals
              = if forallb converts vals then Normal (List.map ToNumber vals)
                else Throw not_primitive).
  { induction vals as [|v vals IH]; simpl; [reflexivity | ].
    unfold try_ToNumber at 1. destruct (converts v); simpl; [ | reflexivity].
    rewrite IH. destruct (forallb converts vals); reflexivity. }
  rewrite E. destruct (forallb converts vals); reflexivity.
Qed.

Lemma scale_max_not_0 (vals : list value) : (scale_max vals =? 0)%float = false.
Proof. unfold scale_max. apply Math_max_with_1. Qed.

Lemma series_converts (k : string) (last : list value) (p : value) :
  forallb converts (series k last) = true -> In p last ->
  converts (or_else (prop p k) (VNum 0)) = true.
Proof.
  intros H Hin. rewrite forallb_forall in H. apply H. unfold series.
  apply in_map_iff. exists p. split; [reflexivity | exact Hin].
Qed.

(** [buildPath] on a series that can be converted, with a maximum that is
    not 0: the path written out. *)
Lemma buildPath_series (k : string) (last : list value) (maxVal : float) :
  forallb converts (series k last) = true -> (maxVal =? 0)%float = false ->
  buildPath (List.length last) (series k last) maxVal = Normal (path_data k maxVal last).
Proof.
  intros Hc Hz. unfold buildPath, path_cmds, path_data.
  unfold series at 1. rewrite length_map. unfold series.
  rewrite combine_map_r, mapC_map.
  rewrite (mapC_Normal _ (path_vertex (List.length last) k maxVal)); [reflexivity | ].
  apply Forall_forall. intros [i p] Hin. apply in_combine_r in Hin.
  unfold path_cmd, try_path_y. cbn [fst snd]. rewrite Hz.
  rewrite (try_ToNumber_converts _ (series_converts k last p Hc Hin)). cbn [bindC].
  unfold path_vertex, path_y, circle_y. cbn [fst snd]. rewrite Hz. reflexivity.
Qed.

Lemma point_scales_split (last : list value) :
  forallb point_scales last
  = forallb (fun p => negb (nullish p)) last
    && forallb converts (series "hot" last) && forallb converts (series "wet" last).
Proof.
  induction last as [|p last IH]; [reflexivity | ].
  cbn [forallb series List.map]. fold (series "hot" last). fold (series "wet" last).
  rewrite IH. unfold point_scales.
  destruct (nullish p), (converts (or_else (prop p "hot") (VNum 0))),
    (converts (or_else (prop p "wet") (VNum 0))),
    (forallb (fun p => negb (nullish p)) last), (forallb converts (series "hot" last)),
    (forallb converts (series "wet" last)); reflexivity.
Qed.

Lemma point_scales_parts (p : value) :
  point_scales p = true ->
  nullish p = false /\ converts (or_else (prop p "hot") (VNum 0)) = true /\
  converts (or_else (prop p "wet") (VNum 0)) = true.
Proof.
  unfold point_scales. intros H. apply andb_true_iff in H. destruct H as [H Hw].
  apply andb_true_iff in H. destruct H as [Hn Hh]. apply negb_true_iff in Hn. auto.
Qed.

Lemma not_nullish_Forall (last : list value) :
  forallb (fun p => negb (nullish p)) last = true ->
  Forall (fun p => nullish p = false) last.
Proof.
  intros H. rewrite forallb_forall in H. apply Forall_forall. intros p Hp.
  apply H in Hp. now apply negb_true_iff in Hp.
Qed.

(** One point whose values can be converted: its two circles and its
    label.  One whose date cannot: its two circles, and a [TypeError]. *)
Lemma draw_point_appends (n : nat) (mh mw : float) (i : nat) (p : value)
      (els : list element) (st : page) :
  point_draws p = true ->
  draw_point n mh mw i p (set_lineChart els st)
  = (Normal tt, set_lineChart (els ++ point_elems n mh mw (i, p)) st).
Proof.
  intros H. unfold point_draws in H. apply andb_true_iff in H. destruct H as [Hs Hd].
  destruct (point_scales_parts p Hs) as [Hp [Hh Hw]].
  unfold draw_point.
  rewrite !(field_or_0_prop _ p Hp), (Get_prop p "date" Hp).
  cbv [bind lift].
  rewrite (try_ToNumber_converts _ Hh), (try_ToNumber_converts _ Hw),
    (try_ToString_converts _ Hd). run_M.
  unfold set_lineChart; simpl. rewrite <- !app_assoc. reflexivity.
Qed.

Lemma draw_point_date_throws (n : nat) (mh mw : float) (i : nat) (p : value)
      (els : list element) (st : page) :
  point_scales p = true -> converts (prop p "date") = false ->
  draw_point n mh mw i p (set_lineChart els st)
  = (Throw not_primitive,
     set_lineChart (els ++ [hot_circle n mh (i, p); wet_circle n mw (i, p)]) st).
Proof.
  intros Hs Hd. destruct (point_scales_parts p Hs) as [Hp [Hh Hw]].
  unfold draw_point.
  rewrite !(field_or_0_prop _ p Hp), (Get_prop p "date" Hp).
  cbv [bind lift].
  rewrite (try_ToNumber_converts _ Hh), (try_ToNumber_converts _ Hw).
  unfold try_ToString. rewrite Hd. run_M.
  unfold set_lineChart; simpl. rewrite <- !app_assoc. reflexivity.
Qed.

Lemma forEach_draw_point (n : nat) (mh mw : float) (last : list value) :
  forall (a : nat) (els : list element) (st : page),
  window_draws last = true ->
  forEach (fun ip => draw_point n mh mw (fst ip) (snd ip))
          (combine (seq a (List.length last)) last) (set_lineChart els st)
  = (Normal tt,
     set_lineChart (els ++ flat_map (point_elems n mh mw)
                                    (combine (seq a (List.length last)) last)) st).
Proof.
  induction last as [|p last IH]; intros a els st H; cbn [List.length seq combine forEach flat_map].
  - rewrite app_nil_r. reflexivity.
  - cbn [window_draws forallb] in H. apply andb_true_iff in H. destruct H as [Hp Hl].
    unfold bind. cbn [fst snd]. rewrite (draw_point_appends n mh mw a p els st Hp).
    rewrite (IH (S a) _ st Hl). rewrite <- app_assoc. reflexivity.
Qed.

Lemma first_failing_window (last : list value) :
  forallb point_scales last = true -> window_draws last = false ->
  exists j : nat,
    first_failing (fun p => converts (prop p "date")) last = Some j /\
    (j < List.length last)%nat.
Proof.
  induction last as [|p last IH]; cbn [forallb window_draws first_failing List.length];
    [discriminate | ].
  intros Hs Hw. apply andb_true_iff in Hs. destruct Hs as [Hp Hs].
  unfold point_draws in Hw. rewrite Hp in Hw. cbn [andb] in Hw.
  destruct (converts (prop p "date")); [ | exists 0%nat; split; [reflexivity | lia]].
  cbn [andb] in Hw. destruct (IH Hs Hw) as [j [-> Hj]].
  exists (S j). split; [reflexivity | lia].
Qed.

Lemma forEach_draw_point_throws (n : nat) (mh mw : float) (last : list value) :
  forall (a : nat) (els : list element) (st : page) (j : nat),
  forallb point_scales last = true ->
  first_failing (fun p => converts (prop p "date")) last = Some j ->
  forEach (fun ip => draw_point n mh mw (fst ip) (snd ip))
          (combine (seq a (List.length last)) last) (set_lineChart els st)
  = (Throw not_primitive,
     set_lineChart (els ++ firstn (3 * j + 2)
                             (flat_map (point_elems n mh mw)
                                       (combine (seq a (List.length last)) last))) st).
Proof.
  induction last as [|p last IH]; intros a els st j Hs Hj;
    cbn [List.length seq combine forEach flat_map first_failing] in *;
    [discriminate | ].
  apply andb_true_iff in Hs. destruct Hs as [Hp Hs].
  unfold bind. cbn [fst snd].
  destruct (converts (prop p "date")) eqn:Hd.
  - destruct (first_failing _ last) as [j'|] eqn:Hj'; [ | discriminate].
    injection Hj as <-.
    rewrite (draw_point_appends n mh mw a p els st)
      by (unfold point_draws; rewrite Hp, Hd; reflexivity).
    rewrite (IH (S a) _ st j' Hs eq_refl). rewrite <- app_assoc.
    replace (3 * S j' + 2)%nat with (3 + (3 * j' + 2))%nat by lia. reflexivity.
  - injection Hj as <-.
    rewrite (draw_point_date_throws n mh mw a p els st Hp Hd). reflexivity.
Qed.

Lemma forEach_append_svg (new : list element) :
  forall (els : list element) (st : page),
  forEach append_svg new (set_lineChart els st)
  = (Normal tt, set_lineChart (els ++ new) st).
Proof.
  induction new as [|e new IH]; intros els st; simpl.
  - rewrite app_nil_r. reflexivity.
  - run_M. unfold set_lineChart at 2; simpl.
    change (forEach append_svg new (set_lineChart (els ++ [e]) st)
            = (Normal tt, set_lineChart (els ++ e :: new) st)).
    rewrite IH, <- app_assoc. reflexivity.
Qed.

Lemma array_not_placeholder (l : list value) :
  l <> [] -> negb (ToBoolean (VArr l)) || length_is (VArr l) 0 = false.
Proof. intros H. simpl. destruct l; [congruence | reflexivity]. Qed.

(** [drawLineChart] on an array up to the first piece of markup: the maxima
    and the paths are there, and the axis line and the two paths are
    written. *)
Lemma drawLineChart_starts (l : list value) (st : page) :
  l <> [] -> forallb point_scales (slice_last 6 l) = true ->
  drawLineChart (VArr l) st
  = (let last := slice_last 6 l in
     let n := List.length last in
     let maxHot := scale_max (series "hot" last) in
     let maxWet := scale_max (series "wet" last) in
     forEach (fun ip => draw_point n maxHot maxWet (fst ip) (snd ip))
             (combine (seq 0 n) last) ;;
     forEach append_svg legend)
      (set_lineChart [axis_line; path_elem (path_data "hot" (scale_max (series "hot" (slice_last 6 l))) (slice_last 6 l)) "#ff6b6b";
                      path_elem (path_data "wet" (scale_max (series "wet" (slice_last 6 l))) (slice_last 6 l)) "#70d6ff"] st).
Proof.
  intros Hne Hs. rewrite point_scales_split in Hs.
  apply andb_true_iff in Hs. destruct Hs as [Hs Hw].
  apply andb_true_iff in Hs. destruct Hs as [Hn Hh].
  apply not_nullish_Forall in Hn.
  unfold drawLineChart. cbv [bind modify lift]. rewrite (array_not_placeholder l Hne).
  rewrite !(mapC_series _ _ Hn). cbv beta iota.
  rewrite !Math_max_1_value, Hh, Hw. cbv beta iota.
  rewrite (buildPath_series "hot" _ _ Hh (scale_max_not_0 _)).
  rewrite (buildPath_series "wet" _ _ Hw (scale_max_not_0 _)).
  reflexivity.
Qed.

(** [drawLineChart] on an array whose window can all be drawn: the chart
    of the window. *)
Lemma drawLineChart_array (l : list value) (st : page) :
  l <> [] -> window_draws (slice_last 6 l) = true ->
  drawLineChart (VArr l) st = (Normal tt, set_lineChart (chart_of (slice_last 6 l)) st).
Proof.
  intros Hne Hwin.
  assert (Hs : forallb point_scales (slice_last 6 l) = true).
  { unfold window_draws in Hwin. rewrite forallb_forall in *. intros p Hp.
    apply Hwin in Hp. unfold point_draws in Hp. now apply andb_true_iff in Hp. }
  rewrite (drawLineChart_starts l st Hne Hs). cbv zeta. unfold bind at 1.
  rewrite (forEach_draw_point _ _ _ _ 0 _ st Hwin).
  rewrite forEach_append_svg. unfold chart_of. rewrite <- app_assoc. reflexivity.
Qed.

(** A window with a date that cannot be converted: the chart up to the two
    circles of that point, and a [TypeError]. *)
Lemma drawLineChart_date_throws (l : list value) (st : page) (j : nat) :
  l <> [] -> forallb point_scales (slice_last 6 l) = true ->
  first_failing (fun p => converts (prop p "date")) (slice_last 6 l) = Some j ->
  (j < List.length (slice_last 6 l))%nat ->
  drawLineChart (VArr l) st
  = (Throw not_primitive,
     set_lineChart (firstn (3 + (3 * j + 2)) (chart_of (slice_last 6 l))) st).
Proof.
  intros Hne Hs Hj Hlt.
  rewrite (drawLineChart_starts l st Hne Hs). cbv zeta. unfold bind at 1.
  rewrite (forEach_draw_point_throws _ _ _ _ 0 _ st j Hs Hj).
  unfold chart_of. change (3 + (3 * j + 2))%nat with (S (S (S (3 * j + 2)))).
  cbn [app firstn]. do 5 f_equal.
  rewrite firstn_app.
  replace (3 * j + 2 - List.length (flat_map _ _))%nat with 0%nat; [now rewrite app_nil_r | ].
  assert (L : forall pts : list (nat * value),
            List.length (flat_map (point_elems (List.length (slice_last 6 l))
                                     (scale_max (series "hot" (slice_last 6 l)))
                                     (scale_max (series "wet" (slice_last 6 l)))) pts)
            = (3 * List.length pts)%nat).
  { induction pts as [|ip pts IH]; simpl; [reflexivity | rewrite IH; lia]. }
  rewrite L, length_combine, length_seq. lia.
Qed.

(** A window with an entry that cannot be read, or a [hot] or [wet] that
    cannot be converted: a [TypeError] before anything is written. *)
Lemma drawLineChart_scales_throw (l : list value) :
  l <> [] -> forallb point_scales (slice_last 6 l) = false ->
  exists msg : string, forall st : page,
    drawLineChart (VArr l) st = (Throw (TypeError msg), set_lineChart [] st).
Proof.
  intros Hne Hs. rewrite point_scales_split in Hs.
  destruct (forallb (fun p => negb (nullish p)) (slice_last 6 l)) eqn:Hn.
  - apply not_nullish_Forall in Hn. cbn [andb] in Hs.
    exists "Cannot convert object to primitive value". intros st.
    unfold drawLineChart. cbv [bind modify lift]. rewrite (array_not_placeholder l Hne).
    rewrite !(mapC_series _ _ Hn). cbv beta iota. rewrite !Math_max_1_value.
    destruct (forallb converts (series "hot" (slice_last 6 l))); [ | reflexivity].
    cbn [andb] in Hs. rewrite Hs. reflexivity.
  - clear Hs.
    assert (T : exists msg : string,
              mapC (field_or_0 "hot") (slice_last 6 l) = Throw (TypeError msg)).
    { induction (slice_last 6 l) as [|p last IH]; simpl in Hn; [discriminate | ].
      destruct (nullish p) eqn:N; simpl in Hn.
      - destruct p; try discriminate N; eexists; reflexivity.
      - simpl. rewrite (field_or_0_prop "hot" p N). simpl.
        destruct (IH Hn) as [msg ->]. exists msg. reflexivity. }
    destruct T as [msg T]. exists msg. intros st.
    unfold drawLineChart. cbv [bind modify lift].
    rewrite (array_not_placeholder l Hne), T. reflexivity.
Qed.

(** [drawLineChart] on a falsy value or on one of length 0: the placeholder
    alone. *)
Lemma drawLineChart_placeholder (ts : value) (st : page) :
  negb (ToBoolean ts) || length_is ts 0 = true ->
  drawLineChart ts st = (Normal tt, set_lineChart [placeholder] st).
Proof. intros E. unfold drawLineChart. run_M. rewrite E. reflexivity. Qed.

End Evaluation.

(** ** The line chart by kind of element *)

Section Chart.
Context {engine : Engine}.

Lemma filter_point_elems (keep : element -> bool) (n : nat) (mh mw : float)
      (pick : nat * value -> list element) (pts : list (nat * value)) :
  (forall ip, filter keep (point_elems n mh mw ip) = pick ip) ->
  filter keep (flat_map (point_elems n mh mw) pts) = flat_map pick pts.
Proof.
  intros H. induction pts as [|ip pts IH]; [reflexivity | ].
  cbn [flat_map]. rewrite filter_app, IH, H. reflexivity.
Qed.

Lemma circles_chart_of (last : list value) :
  circles (chart_of last)
  = flat_map (fun ip => [hot_circle (List.length last) (scale_max (series "hot" last)) ip;
                         wet_circle (List.length last) (scale_max (series "wet" last)) ip])
             (combine (seq 0 (List.length last)) last).
Proof.
  unfold circles, chart_of. rewrite !filter_app.
  rewrite (filter_point_elems _ _ _ _
             (fun ip => [hot_circle (List.length last) (scale_max (series "hot" last)) ip;
                         wet_circle (List.length last) (scale_max (series "wet" last)) ip]))
    by reflexivity.
  cbn. rewrite app_nil_r. reflexivity.
Qed.

Lemma axis_labels_chart_of (last : list value) :
  axis_labels (chart_of last)
  = List.map (date_label (List.length last)) (combine (seq 0 (List.length last)) last).
Proof.
  unfold axis_labels, chart_of. rewrite !filter_app.
  rewrite (filter_point_elems _ _ _ _ (fun ip => [date_label (List.length last) ip]))
    by reflexivity.
  cbn. rewrite app_nil_r.
  induction (combine (seq 0 (List.length last)) last) as [|ip pts IH];
    [reflexivity | cbn; now rewrite IH].
Qed.

Lemma paths_chart_of (last : list value) :
  paths (chart_of last)
  = [ path_elem (path_data "hot" (scale_max (series "hot" last)) last) "#ff6b6b";
      path_elem (path_data "wet" (scale_max (series "wet" last)) last) "#70d6ff" ].
Proof.
  unfold paths, chart_of. rewrite !filter_app.
  rewrite (filter_point_elems _ _ _ _ (fun _ => [])) by reflexivity.
  cbn. induction (combine (seq 0 (List.length last)) last) as [|ip pts IH];
    [reflexivity | exact IH].
Qed.

Lemma map_snd_combine_seq {A : Type} (l : list A) : forall a : nat,
  List.map snd (combine (seq a (List.length l)) l) = l.
Proof. induction l as [|x l IH]; intros a; simpl; [reflexivity | now rewrite IH]. Qed.

Lemma length_series (k : string) (last : list value) :
  List.length (series k last) = List.length last.
Proof. unfold series. apply length_map. Qed.

Lemma slice_last_length {A : Type} (k : nat) (l : list A) :
  List.length (slice_last k l) = Nat.min k (List.length l).
Proof. unfold slice_last. rewrite length_skipn. lia. Qed.

Lemma slice_last_all {A : Type} (k : nat) (l : list A) :
  (List.length l <= k)%nat -> slice_last k l = l.
Proof.
  intros H. unfold slice_last. replace (List.length l - k)%nat with 0%nat by lia.
  reflexivity.
Qed.

Lemma slice_last_idem {A : Type} (k : nat) (l : list A) :
  slice_last k (slice_last k l) = slice_last k l.
Proof. apply slice_last_all. rewrite slice_last_length. lia. Qed.

Lemma length_flat_map_points (n : nat) (mh mw : float) (pts : list (nat * value)) :
  List.length (flat_map (point_elems n mh mw) pts) = (3 * List.length pts)%nat.
Proof. induction pts as [|ip pts IH]; simpl; [reflexivity | rewrite IH; lia]. Qed.

Lemma chart_of_length (last : list value) :
  List.length (chart_of last) = chart_size (List.length last).
Proof.
  unfold chart_of, chart_size. cbn [app List.length].
  rewrite length_app, length_flat_map_points, length_combine, length_seq.
  cbn [legend List.length]. lia.
Qed.

(** When the dates hold no markup, the pieces of the chart are its
    elements. *)
Lemma svg_elements_chart_of (last : list value) :
  dates_plain last = true -> svg_elements (chart_of last) = Some (chart_of last).
Proof.
  intros H. unfold svg_elements.
  replace (forallb _ (chart_of last)) with true; [reflexivity | symmetry].
  unfold chart_of. cbn [app forallb text axis_line path_elem el andb].
  rewrite forallb_app. apply andb_true_iff. split; [ | vm_compute; reflexivity].
  unfold dates_plain in H. rewrite forallb_forall in *. intros e He.
  apply in_flat_map in He. destruct He as [[i p] [Hin He]].
  apply in_combine_r in Hin. apply H in Hin.
  destruct He as [<- | [<- | [<- | []]]]; [reflexivity | reflexivity | exact Hin].
Qed.

(** What [drawLineChart] leaves of an array that is not empty is the chart
    of its window, or a part of it that stops before the legend. *)
Lemma drawLineChart_prefix (l : list value) :
  l <> [] ->
  exists (r : completion unit) (k : nat),
    (forall st : page,
       drawLineChart (VArr l) st
       = (r, set_lineChart (firstn k (chart_of (slice_last 6 l))) st)) /\
    (window_draws (slice_last 6 l) = true ->
     r = Normal tt /\ k = List.length (chart_of (slice_last 6 l))) /\
    (window_draws (slice_last 6 l) = false ->
     (exists msg : string, r = Throw (TypeError msg)) /\
     (k + 4 < List.length (chart_of (slice_last 6 l)))%nat /\
     (forallb point_scales (slice_last 6 l) = false -> k = 0%nat) /\
     (forallb point_scales (slice_last 6 l) = true ->
      exists j : nat,
        first_failing (fun p => converts (prop p "date")) (slice_last 6 l) = Some j /\
        k = (3 + (3 * j + 2))%nat)).
Proof.
  intros Hne.
  assert (Hlen : (0 < List.length (slice_last 6 l))%nat).
  { rewrite slice_last_length. destruct l; [congruence | simpl; lia]. }
  destruct (window_draws (slice_last 6 l)) eqn:W.
  - exists (Normal tt), (List.length (chart_of (slice_last 6 l))).
    split; [ | split; [auto | discriminate]].
    intros st. rewrite firstn_all. now apply drawLineChart_array.
  - destruct (forallb point_scales (slice_last 6 l)) eqn:S.
    + destruct (first_failing_window _ S W) as [j [Hj Hlt]].
      exists (Throw not_primitive), (3 + (3 * j + 2))%nat.
      split; [intros st; now apply drawLineChart_date_throws | ].
      split; [discriminate | ]. intros _.
      split; [eexists; reflexivity | ].
      split; [rewrite chart_of_length; unfold chart_size; lia | ].
      split; [discriminate | ]. intros _. exists j. split; [exact Hj | reflexivity].
    + destruct (drawLineChart_scales_throw l Hne S) as [msg Hm].
      exists (Throw (TypeError msg)), 0%nat.
      split; [exact Hm | ].
      split; [discriminate | ]. intros _.
      split; [eexists; reflexivity | ].
      split; [rewrite chart_of_length; unfold chart_size; lia | ].
      split; [reflexivity | discriminate].
Qed.

(** A value that is not an array, or an array with an entry in its window
    that cannot be read: a [TypeError] before anything is written. *)
Lemma drawLineChart_unreadable (ts : value) :
  series_drawable ts = false ->
  exists msg : string, forall st : page,
    drawLineChart ts st = (Throw (TypeError msg), set_lineChart [] st).
Proof.
  unfold series_drawable. intros H.
  apply orb_false_iff in H. destruct H as [E H].
  destruct ts as [| |b|x|s|l|ps]; try discriminate E;
    try (eexists; intros st; unfold drawLineChart; cbv [bind modify throw];
         rewrite E; reflexivity).
  apply drawLineChart_scales_throw; [intros ->; discriminate E | ].
  rewrite point_scales_split, H. reflexivity.
Qed.

(** The earlier entries of an array are never read. *)
Lemma drawLineChart_window (l : list value) (st : page) :
  drawLineChart (VArr l) st = drawLineChart (VArr (slice_last 6 l)) st.
Proof.
  unfold drawLineChart. rewrite slice_last_idem.
  replace (length_is (VArr (slice_last 6 l)) 0) with (length_is (VArr l) 0);
    [reflexivity | ].
  cbn [length_is]. rewrite slice_last_length. destruct l; reflexivity.
Qed.

Lemma Forall_firstn {A : Type} (P : A -> Prop) (k : nat) (l : list A) :
  Forall P l -> Forall P (firstn k l).
Proof.
  intros H. rewrite <- (firstn_skipn k l) in H. apply Forall_app in H. tauto.
Qed.

Lemma Forall_filter {A : Type} (P : A -> Prop) (f : A -> bool) (l : list A) :
  Forall (fun a => f a = true -> P a) l -> Forall P (filter f l).
Proof.
  induction 1 as [|a l Ha _ IH]; simpl; [constructor | ].
  destruct (f a) eqn:E; [constructor; auto | exact IH].
Qed.

End Chart.

(** ** The trend line renderer *)

Section TrendLine.
Context {engine : Engine}.

(** C3.  What the trend line renderer does with an array depends on its
    last six entries alone: the earlier ones are dropped, whatever they are
    and however the call ends.  When the series is longer than 6 and each
    of its last six entries can be drawn (it is not [null], its [hot] and
    [wet] convert to numbers and its [date] to a string), the call
    completes and the chart is that of those 6 points, in order: one axis
    label per point with its date, two marker circles per point, and two
    paths of 6 vertices each, through the positions of the circles; when
    the dates hold no markup, these pieces are the elements of the chart.
    When one of the last six cannot be drawn the call throws a [TypeError]
    and the chart is left as a part of that chart which stops before the
    legend.  A series of length 0 is drawn as the placeholder text alone:
    no path, no marker circle, no axis label. *)
Theorem C3_last_six_points_or_placeholder (l : list value) (st : page) :
  let window := slice_last 6 l in
  let maxHot := scale_max (series "hot" window) in
  let maxWet := scale_max (series "wet" window) in
  let chart := lineChart (snd (drawLineChart (VArr l) st)) in
  drawLineChart (VArr l) st = drawLineChart (VArr window) st /\
  ((6 < List.length l)%nat ->
   l = (firstn (List.length l - 6) l ++ window)%list /\
   List.length window = 6%nat /\
   (window_draws window = true ->
    fst (drawLineChart (VArr l) st) = Normal tt /\
    chart = chart_of window /\
    (dates_plain window = true -> svg_elements chart = Some (chart_of window)) /\
    List.map text (axis_labels chart)
    = List.map (fun p => Some (ToString (prop p "date"))) window /\
    circles chart
    = flat_map (fun ip => [hot_circle 6 maxHot ip; wet_circle 6 maxWet ip])
               (combine (seq 0 6) window) /\
    paths chart
    = [ path_elem (String.concat " " (List.map (path_vertex 6 "hot" maxHot)
                                               (combine (seq 0 6) window))) "#ff6b6b";
        path_elem (String.concat " " (List.map (path_vertex 6 "wet" maxWet)
                                               (combine (seq 0 6) window))) "#70d6ff" ]) /\
   (window_draws window = false ->
    exists (msg : string) (k : nat),
      fst (drawLineChart (VArr l) st) = Throw (TypeError msg) /\
      chart = firstn k (chart_of window) /\
      (k + 4 < List.length (chart_of window))%nat))
  /\
  (List.length l = 0%nat ->
   fst (drawLineChart (VArr l) st) = Normal tt /\
   chart = [placeholder] /\
   paths chart = [] /\ circles chart = [] /\ axis_labels chart = []).
Proof.
  intros window maxHot maxWet chart.
  split; [apply drawLineChart_window | ]. split.
  - intros Hlen.
    assert (Hw : List.length window = 6%nat).
    { unfold window. rewrite slice_last_length. lia. }
    assert (Hne : l <> []) by (destruct l; [simpl in Hlen; lia | discriminate]).
    split; [symmetry; apply firstn_skipn | ].
    split; [exact Hw | ].
    destruct (drawLineChart_prefix l Hne) as [r [k [E [Hyes Hno]]]].
    fold window in E, Hyes, Hno.
    assert (Ec : chart = firstn k (chart_of window)).
    { unfold chart. rewrite E. reflexivity. }
    split.
    + intros Hwin. destruct (Hyes Hwin) as [-> ->]. rewrite firstn_all in Ec.
      split; [rewrite E; reflexivity | ].
      split; [exact Ec | ].
      split; [intros Hd; rewrite Ec; now apply svg_elements_chart_of | ].
      rewrite Ec, axis_labels_chart_of, circles_chart_of, paths_chart_of.
      unfold path_data. rewrite Hw. fold maxHot maxWet.
      repeat split.
      rewrite <- (map_snd_combine_seq window 0) at 2. rewrite Hw, !map_map. reflexivity.
    + intros Hwin. destruct (Hno Hwin) as [[msg ->] [Hk _]].
      exists msg, k. split; [rewrite E; reflexivity | ]. split; [exact Ec | exact Hk].
  - intros Hlen. destruct l; [ | discriminate]. unfold chart.
    rewrite drawLineChart_placeholder by reflexivity. repeat split.
Qed.


(** C9.  When the window holds exactly one point, its x-position is the
    horizontal centre of the drawing area, which runs from [leftPad] to
    [viewW - rightPad].  Whatever the renderer gets to write for the point,
    whether it completes or throws on the way, stands there: every marker
    circle and every axis label it writes has x = 260, and every path it
    writes starts (and ends) at x = 260.  When the point can be drawn it
    writes both circles, the label and both paths, and (its date holding no
    markup) these are the elements of the chart. *)
Theorem C9_single_point_is_centered (l : list value) (st : page) :
  let window := slice_last 6 l in
  let centre := ((leftPad + (viewW - rightPad)) / 2)%float in
  let chart := lineChart (snd (drawLineChart (VArr l) st)) in
  List.length window = 1%nat ->
  (forall i : nat, xFor (List.length window) i = centre) /\
  centre = (leftPad + width / 2)%float /\
  Forall (fun e => attr_of "cx" (attrs e) = Some (ANum centre)) (circles chart) /\
  Forall (fun e => attr_of "x" (attrs e) = Some (ANum centre)) (axis_labels chart) /\
  Forall (fun e => exists y : string,
                     attr_of "d" (attrs e) = Some (AStr ("M 260.00 " ++ y)))
         (paths chart) /\
  (window_draws window = true ->
   fst (drawLineChart (VArr l) st) = Normal tt /\
   List.length (circles chart) = 2%nat /\
   List.length (axis_labels chart) = 1%nat /\
   List.map (fun e => attr_of "d" (attrs e)) (paths chart)
   = List.map (fun k : string =>
                 Some (AStr ("M 260.00 " ++
                             toFixed 2 (circle_y k (scale_max (series k window))
                                                 (nth 0 window VNull)))))
              ["hot"; "wet"] /\
   (dates_plain window = true -> svg_elements chart = Some chart)).
Proof.
  intros window centre chart Hone.
  assert (Hne : l <> []).
  { intros ->. discriminate Hone. }
  assert (Hx : forall i : nat, xFor 1 i = centre) by (intros i; reflexivity).
  split; [rewrite Hone; exact Hx | ].
  split; [reflexivity | ].
  destruct (drawLineChart_prefix l Hne) as [r [k [E [Hyes Hno]]]].
  fold window in E, Hyes, Hno.
  assert (Ec : chart = firstn k (chart_of window)).
  { unfold chart. rewrite E. reflexivity. }
  destruct window as [|p [|q rest]] eqn:W; try discriminate Hone.
  split; [ | split; [ | split]].
  - rewrite Ec. apply Forall_filter, Forall_firstn.
    unfold chart_of. cbn [List.length seq combine flat_map point_elems app legend].
    repeat (constructor; [intros H; first [reflexivity | discriminate H] | ]).
    constructor.
  - rewrite Ec. apply Forall_filter, Forall_firstn.
    unfold chart_of. cbn [List.length seq combine flat_map point_elems app legend].
    repeat (constructor; [intros H; first [reflexivity | discriminate H] | ]).
    constructor.
  - rewrite Ec. apply Forall_filter, Forall_firstn.
    unfold chart_of. cbn [List.length seq combine flat_map point_elems app legend].
    repeat (constructor;
            [intros H; first [discriminate H | eexists; reflexivity] | ]).
    constructor.
  - intros Hwin. destruct (Hyes Hwin) as [-> ->]. rewrite firstn_all in Ec.
    split; [rewrite E; reflexivity | ].
    rewrite Ec, circles_chart_of, axis_labels_chart_of, paths_chart_of.
    split; [reflexivity | ]. split; [reflexivity | ]. split; [reflexivity | ].
    intros Hd. now apply svg_elements_chart_of.
Qed.

End TrendLine.

(** ** The bar chart renderer *)

Section BarChart.

Lemma ToBoolean_not_nullish (v : value) : ToBoolean v = true -> nullish v = false.
Proof. destruct v; simpl; intros H; try discriminate; reflexivity. Qed.

(** Reading the probability of a bar never throws once [data] itself can be
    read. *)
Lemma bar_prob_value (data : value) (m : metric) :
  nullish data = false -> bar_prob data m = Normal (bar_value data m).
Proof.
  intros Hd. unfold bar_value, bar_prob.
  rewrite (Get_prop data "probabilities" Hd). simpl.
  destruct (ToBoolean (prop data "probabilities")) eqn:T; [ | reflexivity].
  rewrite (Get_prop _ (key m) (ToBoolean_not_nullish _ T)). simpl.
  destruct (prop (prop data "probabilities") (key m)); reflexivity.
Qed.

Lemma bar_value_unfold (data : value) (m : metric) :
  nullish data = false ->
  bar_value data m
  = if ToBoolean (prop data "probabilities")
    then match prop (prop data "probabilities") (key m) with
         | VNum x => x
         | _ => 0%float
         end
    else 0%float.
Proof.
  intros Hd. unfold bar_value, bar_prob.
  rewrite (Get_prop data "probabilities" Hd). simpl.
  destruct (ToBoolean (prop data "probabilities")) eqn:T; [ | reflexivity].
  rewrite (Get_prop _ (key m) (ToBoolean_not_nullish _ T)). simpl.
  destruct (prop (prop data "probabilities") (key m)); reflexivity.
Qed.

Lemma bar_value_missing (data : value) (m : metric) :
  no_probability data (key m) -> bar_value data m = 0%float.
Proof.
  intros [Hd Hp | Hd Hp Hk | Hd Hp Hk]; rewrite (bar_value_unfold data m Hd), Hp;
    [reflexivity | rewrite Hk; reflexivity | ].
  destruct (prop (prop data "probabilities") (key m)); try reflexivity. discriminate Hk.
Qed.

Lemma forEach_render_bar (data : value) (ms : list metric) :
  nullish data = false ->
  forall (bars : list bar_item) (st : page),
  forEach (render_bar data) ms (set_barChart bars st)
  = (Normal tt,
     set_barChart (bars ++ List.map (fun m => bar_of m (bar_value data m)) ms)%list st).
Proof.
  intros Hd. induction ms as [|m ms IH]; intros bars st; simpl.
  - rewrite app_nil_r. reflexivity.
  - unfold bind at 1. unfold render_bar at 1. rewrite (bar_prob_value data m Hd).
    run_M.
    change (forEach (render_bar data) ms
              (set_barChart (bars ++ [bar_of m (bar_value data m)])%list st)
            = (Normal tt,
               set_barChart
                 (bars ++ bar_of m (bar_value data m)
                       :: List.map (fun m0 => bar_of m0 (bar_value data m0)) ms)%list st)).
    rewrite IH, <- app_assoc. reflexivity.
Qed.

(** The bar chart block: one bar per metric of [useDefs], in that order. *)
Lemma render_barChart_bars (fr : frame) (data : value) (st : page) :
  nullish data = false ->
  render_barChart fr data st
  = (Normal tt,
     set_barChart (List.map (fun m => bar_of m (bar_value data m)) (useDefs (selected fr))) st).
Proof.
  intros Hd. unfold render_barChart, bind at 1, modify at 1.
  apply (forEach_render_bar data _ Hd []).
Qed.

Lemma In_METRICS (P : metric -> Prop) :
  P {| id := "hot"; key := "very_hot"; label := "Very hot"; color := "#ff6b6b" |} ->
  P {| id := "cold"; key := "very_cold"; label := "Very cold"; color := "#6b9bff" |} ->
  P {| id := "wet"; key := "very_wet"; label := "Very wet"; color := "#70d6ff" |} ->
  P {| id := "windy"; key := "very_windy"; label := "Very windy"; color := "#7dd3c0" |} ->
  P {| id := "uncomfortable"; key := "uncomfortable"; label := "Uncomfortable";
       color := "#ff9ff3" |} ->
  forall m, In m METRICS -> P m.
Proof.
  intros H1 H2 H3 H4 H5 m Hm. unfold METRICS in Hm. simpl in Hm.
  destruct Hm as [<- | [<- | [<- | [<- | [<- | []]]]]]; assumption.
Qed.

(** No two metrics of the table share a label. *)
Lemma label_injective (m m' : metric) :
  In m METRICS -> In m' METRICS -> label m = label m' -> m = m'.
Proof.
  intros Hm. revert m'. revert m Hm.
  apply (In_METRICS (fun m => forall m', In m' METRICS -> label m = label m' -> m = m'));
    apply (In_METRICS (fun m' => label _ = label m' -> _ = m'));
    simpl; intros H; try reflexivity; discriminate H.
Qed.

Lemma subseq_refl {A : Type} (l : list A) : subseq l l.
Proof. induction l; constructor; assumption. Qed.

Lemma subseq_filter {A : Type} (f : A -> bool) (l : list A) : subseq (filter f l) l.
Proof.
  induction l as [|a l IH]; simpl; [constructor | ].
  destruct (f a); constructor; exact IH.
Qed.

Lemma subseq_map {A B : Type} (f : A -> B) (l1 l2 : list A) :
  subseq l1 l2 -> subseq (List.map f l1) (List.map f l2).
Proof. induction 1; simpl; constructor; assumption. Qed.

Lemma useDefs_subseq (sel : list string) : subseq (useDefs sel) METRICS.
Proof. destruct sel; unfold useDefs; [apply subseq_refl | apply subseq_filter]. Qed.

Lemma subseq_In {A : Type} (l1 l2 : list A) (a : A) : subseq l1 l2 -> In a l1 -> In a l2.
Proof.
  induction 1 as [|b l1 l2 _ IH|b l1 l2 _ IH]; simpl; intros H; auto.
  destruct H as [H | H]; auto.
Qed.

Lemma includes_In (i : string) (sel : list string) :
  existsb (String.eqb i) sel = true <-> In i sel.
Proof.
  rewrite existsb_exists. split.
  - intros [x [Hx E]]. apply String.eqb_eq in E. now subst.
  - intros H. exists i. split; [exact H | apply String.eqb_refl].
Qed.

(** With a selection, a metric of the table is used exactly when its
    identifier is selected. *)
Lemma useDefs_In (sel : list string) (m : metric) :
  sel <> [] -> (In m (useDefs sel) <-> In m METRICS /\ In (id m) sel).
Proof.
  intros Hne. destruct sel as [|s sel]; [congruence | ].
  unfold useDefs. rewrite filter_In, includes_In. reflexivity.
Qed.

Lemma filter_none {A : Type} (f : A -> bool) (l : list A) :
  (forall a, In a l -> f a = false) -> filter f l = [].
Proof.
  induction l as [|a l IH]; intros H; simpl; [reflexivity | ].
  rewrite (H a (or_introl eq_refl)). apply IH. intros b Hb. apply H. now right.
Qed.

End BarChart.

Section BarChartProperties.

Lemma no_probability_readable (data : value) (k : string) :
  no_probability data k -> nullish data = false.
Proof. intros [H _ | H _ _ | H _ _]; exact H. Qed.

(** C1.  A metric that is rendered and for which the response gives no
    probability (no [probabilities] mapping, no such key in it, or something
    that is not a number under the key) gets a bar whose height percentage
    and printed percentage are both 0: that bar is in the chart, and any bar
    of the chart carrying the metric's label shows 0. *)
Theorem C1_missing_probability_renders_zero
        (fr : frame) (data : value) (st : page) (m : metric) :
  let bars := barChart (snd (render_barChart fr data st)) in
  In m (useDefs (selected fr)) -> no_probability data (key m) ->
  In (bar_of m 0%float) bars /\
  (forall b : bar_item, In b bars -> bar_label b = label m ->
     bar_height b = 0%float /\ bar_percent b = 0%float).
Proof.
  intros bars Hm Hno. unfold bars.
  rewrite (render_barChart_bars fr data st (no_probability_readable _ _ Hno)). simpl.
  split.
  - rewrite <- (bar_value_missing data m Hno).
    apply (in_map (fun m0 => bar_of m0 (bar_value data m0))). exact Hm.
  - intros b Hb Hl. apply in_map_iff in Hb. destruct Hb as [m' [<- Hm']].
    simpl in Hl.
    assert (E : m' = m).
    { apply label_injective; [ | | exact Hl].
      - exact (subseq_In _ _ _ (useDefs_subseq (selected fr)) Hm').
      - exact (subseq_In _ _ _ (useDefs_subseq (selected fr)) Hm). }
    subst m'. simpl. rewrite (bar_value_missing data m Hno). split; reflexivity.
Qed.

Lemma subseq_NoDup {A : Type} (l1 l2 : list A) : subseq l1 l2 -> NoDup l2 -> NoDup l1.
Proof.
  induction 1 as [|a l1 l2 Hs IH|a l1 l2 Hs IH]; intros Hnd.
  - constructor.
  - inversion Hnd; subst. now apply IH.
  - inversion Hnd as [|? ? Hnotin Hnd']; subst. constructor; [ | now apply IH].
    intros Hin. apply Hnotin. eapply subseq_In; eassumption.
Qed.

Lemma labels_NoDup : NoDup (List.map label METRICS).
Proof.
  unfold METRICS. simpl.
  repeat constructor; simpl; intros H;
    repeat (destruct H as [H | H]; [discriminate H | ]); exact H.
Qed.

(** C2.  The bars are those of [useDefs], one per metric.  With an empty
    selection they are the five metrics of the table, in its order (hot,
    cold, wet, windy, uncomfortable).  With a selection, a metric of the
    table has a bar exactly when its identifier is selected.  Either way the
    bars follow the table's order and no metric has two. *)
Theorem C2_selected_metrics_in_table_order (fr : frame) (data : value) (st : page) :
  let bars := barChart (snd (render_barChart fr data st)) in
  nullish data = false ->
  bars = List.map (fun m => bar_of m (bar_value data m)) (useDefs (selected fr)) /\
  (selected fr = [] ->
   List.map bar_label bars
   = ["Very hot"; "Very cold"; "Very wet"; "Very windy"; "Uncomfortable"]) /\
  (selected fr <> [] ->
   forall m : metric, In m METRICS ->
     (In (label m) (List.map bar_label bars) <-> In (id m) (selected fr))) /\
  subseq (List.map bar_label bars) (List.map label METRICS) /\
  NoDup (List.map bar_label bars).
Proof.
  intros bars Hd.
  assert (E : bars = List.map (fun m => bar_of m (bar_value data m)) (useDefs (selected fr))).
  { unfold bars. rewrite (render_barChart_bars fr data st Hd). reflexivity. }
  assert (L : List.map bar_label bars = List.map label (useDefs (selected fr))).
  { rewrite E, map_map. reflexivity. }
  split; [exact E | ].
  split; [intros Hsel; rewrite L, Hsel; reflexivity | ].
  split.
  { intros Hsel m Hm. rewrite L. split.
    - intros Hin. apply in_map_iff in Hin. destruct Hin as [m' [Hl Hm']].
      apply (useDefs_In _ _ Hsel) in Hm'. destruct Hm' as [Hm'T Hm'S].
      rewrite <- (label_injective m' m Hm'T Hm Hl). exact Hm'S.
    - intros Hin. apply in_map. apply (useDefs_In _ _ Hsel). split; assumption. }
  assert (S : subseq (List.map bar_label bars) (List.map label METRICS)).
  { rewrite L. apply subseq_map, useDefs_subseq. }
  split; [exact S | exact (subseq_NoDup _ _ S labels_NoDup)].
Qed.

Lemma known_id (m : metric) : In m METRICS -> known (id m) = true.
Proof.
  intros Hm. unfold known. apply existsb_exists. exists m.
  split; [exact Hm | apply String.eqb_refl].
Qed.

(** C10.  A selection that is not empty and holds no identifier of the
    metric table leaves the bar chart empty (it does not fall back to the
    five metrics); and a selection renders the same bars as its known
    identifiers alone, as long as there is one: the unknown ones are
    ignored. *)
Theorem C10_unknown_identifiers_render_nothing
        (fr fr' : frame) (data : value) (st : page) :
  nullish data = false -> selected fr <> [] ->
  ((forall i : string, In i (selected fr) -> known i = false) ->
   barChart (snd (render_barChart fr data st)) = [] /\ useDefs (selected fr) <> METRICS)
  /\
  (selected fr' = filter known (selected fr) -> selected fr' <> [] ->
   barChart (snd (render_barChart fr data st))
   = barChart (snd (render_barChart fr' data st))).
Proof.
  intros Hd Hsel. rewrite !(render_barChart_bars _ data st Hd). simpl.
  split.
  - intros Hunknown.
    assert (E : useDefs (selected fr) = []).
    { destruct (selected fr) as [|s sel] eqn:S; [congruence | ].
      unfold useDefs. apply filter_none. intros m Hm.
      destruct (existsb (String.eqb (id m)) (s :: sel)) eqn:X; [ | reflexivity].
      apply includes_In in X. apply Hunknown in X. rewrite (known_id m Hm) in X.
      discriminate X. }
    rewrite E. split; [reflexivity | discriminate].
  - intros Hsel' Hne'. f_equal.
    destruct (selected fr) as [|s sel] eqn:S; [congruence | ].
    destruct (selected fr') as [|s' sel'] eqn:S'; [congruence | ].
    unfold useDefs. apply filter_ext_in. intros m Hm.
    apply eq_true_iff_eq. rewrite !includes_In, Hsel', filter_In, (known_id m Hm).
    tauto.
Qed.

End BarChartProperties.

(** ** Statements that leave part of the page alone *)

Section Keeps.
Context {B : Type} (f : page -> B).

Lemma keeps_ret {A : Type} (a : A) : keeps f (ret a).
Proof. intros st. reflexivity. Qed.

Lemma keeps_throw {A : Type} (e : exn) : keeps f (@throw A e).
Proof. intros st. reflexivity. Qed.

Lemma keeps_lift {A : Type} (c : completion A) : keeps f (lift c).
Proof. intros st. reflexivity. Qed.

Lemma keeps_gets {A : Type} (g : page -> A) : keeps f (gets g).
Proof. intros st. reflexivity. Qed.

Lemma keeps_modify (g : page -> page) :
  (forall st, f (g st) = f st) -> keeps f (modify g).
Proof. intros H st. apply H. Qed.

Lemma keeps_bind {A C : Type} (c : M A) (k : A -> M C) :
  keeps f c -> (forall a, keeps f (k a)) -> keeps f (bind c k).
Proof.
  intros Hc Hk st. unfold bind. specialize (Hc st).
  destruct (c st) as [[a|e] st1]; simpl in *.
  - rewrite (Hk a st1). exact Hc.
  - exact Hc.
Qed.

Lemma keeps_forEach {A : Type} (g : A -> M unit) (l : list A) :
  (forall a, keeps f (g a)) -> keeps f (forEach g l).
Proof.
  intros Hg. induction l as [|a l IH]; simpl.
  - apply keeps_ret.
  - apply keeps_bind; [apply Hg | intros _; exact IH].
Qed.

End Keeps.

Ltac keeps_tac :=
  repeat match goal with
         | |- keeps _ (ret _) => apply keeps_ret
         | |- keeps _ (throw _) => apply keeps_throw
         | |- keeps _ (lift _) => apply keeps_lift
         | |- keeps _ (gets _) => apply keeps_gets
         | |- keeps _ (forEach _ _) => apply keeps_forEach; intros
         | |- keeps _ (bind _ _) => apply keeps_bind; [ | intros ]
         | |- keeps _ (modify _) => apply keeps_modify; intros
         | |- keeps _ (if ?b then _ else _) => destruct b
         | |- keeps _ (match ?x with _ => _ end) => destruct x
         end.

Section KeepsScript.
Context {engine : Engine} {leaflet : Leaflet.Library}.
Context {B : Type} (f : page -> B).

Lemma keeps_render_barChart (fr : frame) (data : value) :
  (forall bars st, f (set_barChart bars st) = f st) ->
  keeps f (render_barChart fr data).
Proof.
  intros H. unfold render_barChart, render_bar, appendChild. keeps_tac; apply H.
Qed.

Lemma keeps_drawLineChart (ts : value) :
  (forall els st, f (set_lineChart els st) = f st) ->
  keeps f (drawLineChart ts).
Proof.
  intros H. unfold drawLineChart, draw_point, append_svg. keeps_tac; apply H.
Qed.

Lemma keeps_render_infoCard (fr : frame) (data : value) :
  (forall c st, f (set_infoCard c st) = f st) ->
  keeps f (render_infoCard fr data).
Proof. intros H. unfold render_infoCard. keeps_tac; apply H. Qed.

Lemma keeps_update_map (fr : frame) (data : value) :
  (forall g, keeps f (modify_map g)) ->
  (forall i st, f (set_marker i st) = f st) ->
  (forall i st, f (set_fresh i st) = f st) ->
  keeps f (update_map fr data).
Proof.
  intros H1 H2 H3. unfold update_map.
  keeps_tac; try apply H1; try apply H2; try apply H3.
Qed.

End KeepsScript.

(** ** The map and its marker *)

Section Handlers.
Context {engine : Engine} {leaflet : Leaflet.Library}.

Lemma one_marker_ext (st st' : page) :
  map st' = map st -> marker st' = marker st -> one_marker st -> one_marker st'.
Proof. unfold one_marker. intros -> ->. exact (fun H => H). Qed.

Lemma update_map_one_marker (fr : frame) (data : value) (st : page) :
  Leaflet.popup_ok (displayName (prop data "city") (city fr)) = true ->
  one_marker st -> one_marker (snd (update_map fr data st)).
Proof.
  intros Hpop Inv. unfold update_map.
  destruct (nullish data) eqn:N.
  - destruct (Get_nullish data "coords" N) as [e ->]. exact Inv.
  - rewrite (Get_prop data "coords" N), (Get_prop data "city" N).
    unfold bind at 1, lift at 1.
    destruct (ToBoolean (prop data "coords") && length_is (prop data "coords") 2);
      [ | exact Inv].
    unfold bind at 1, lift at 1.
    destruct (destructure2 (prop data "coords")) as [[lat lon]|e]; [ | exact Inv].
    cbn [fst snd]. unfold bind at 1, gets at 1.
    unfold one_marker in Inv.
    destruct (map st) as [m|] eqn:Hm.
    + destruct Inv as [mk [Hl Hmk]].
      destruct (Leaflet.latlng_ok lat lon).
      * cbv [bind lift modify gets ret throw modify_map]. rewrite Hpop.
        cbn [map marker set_map set_marker set_fresh snd fst]. rewrite Hm.
        cbn [map marker set_map set_marker set_fresh snd fst]. rewrite Hmk. simpl.
        unfold one_marker. simpl. rewrite Hl. simpl. rewrite Nat.eqb_refl. simpl.
        eexists. split; reflexivity.
      * unfold bind, throw. simpl. unfold one_marker. rewrite Hm. exists mk. now split.
    + unfold ret. simpl. unfold one_marker. rewrite Hm. exact Inv.
Qed.

Lemma displayName_text (data : value) (c : string) :
  city_is_text data = true -> exists s : string, displayName (prop data "city") c = VStr s.
Proof.
  unfold city_is_text, displayName, or_else. intros H.
  destruct (prop data "city") as [| |b|x|s|l|ps]; simpl in *;
    try discriminate H;
    try (destruct c; simpl; eexists; reflexivity).
  - destruct b; [discriminate H | destruct c; simpl; eexists; reflexivity].
  - apply negb_true_iff in H. rewrite H. destruct c; simpl; eexists; reflexivity.
  - destruct s; simpl; [destruct c; simpl | ]; eexists; reflexivity.
Qed.

(** After the map block of [try_block], nothing touches what depends only
    on the map, the marker and the input fields. *)
Lemma try_block_after_map {B : Type} (f : page -> B) (fr : frame) (o : outcome) (st : page) :
  (forall bars st, f (set_barChart bars st) = f st) ->
  (forall els st, f (set_lineChart els st) = f st) ->
  (forall c st, f (set_infoCard c st) = f st) ->
  f (snd (try_block fr o st)) = f st \/
  exists (status : N) (data : value),
    o = Responded status (Normal data) /\
    f (snd (try_block fr o st)) = f (snd (update_map fr data st)).
Proof.
  intros H1 H2 H3. destruct o as [e|status [data|e]]; simpl.
  - now left.
  - destruct (ok status); simpl; [ | now left].
    right. exists status, data. split; [reflexivity | ].
    unfold bind at 1, lift at 1. unfold bind at 1.
    destruct (update_map fr data st) as [[u|e] st1]; [ | reflexivity].
    cbn [snd].
    assert (K : keeps f (render_barChart fr data ;;
                         ts <- lift (Get data "time_series") ;;
                         drawLineChart (or_else ts (VArr [])) ;;
                         render_infoCard fr data)).
    { apply keeps_bind; [now apply keeps_render_barChart | intros _].
      apply keeps_bind; [apply keeps_lift | intros ts].
      apply keeps_bind; [now apply keeps_drawLineChart | intros _].
      now apply keeps_render_infoCard. }
    apply K.
  - destruct (ok status); simpl; now left.
Qed.

Lemma resume_observed {B : Type} (f : page -> B) (fr : frame) (o : outcome) (st : page) :
  (forall e msg st, f (log_and_alert e msg st) = f st) ->
  (forall b st, f (set_loading b st) = f st) ->
  f (checkWeather_resume fr o st) = f (snd (try_block fr o st)).
Proof.
  intros H1 H2. unfold checkWeather_resume.
  destruct (try_block fr o st) as [[u|e] st1]; simpl; rewrite H2; [reflexivity | apply H1].
Qed.

Lemma resume_one_marker (fr : frame) (o : outcome) (st : page) :
  (forall s : string, Leaflet.popup_ok (VStr s) = true) ->
  match o with
  | Responded _ (Normal data) => city_is_text data = true
  | _ => True
  end ->
  one_marker st -> one_marker (checkWeather_resume fr o st).
Proof.
  intros Hstr Hcity Inv.
  pose (f := fun st : page => (map st, marker st)).
  assert (E : f (checkWeather_resume fr o st) = f (snd (try_block fr o st)))
    by (apply resume_observed; reflexivity).
  destruct (try_block_after_map f fr o st) as [U | [status [data [-> U]]]];
    try reflexivity; rewrite U in E; unfold f in E; injection E as Em Ek.
  - exact (one_marker_ext _ _ Em Ek Inv).
  - apply (one_marker_ext _ _ Em Ek). apply update_map_one_marker; [ | exact Inv].
    destruct (displayName_text data (city fr) Hcity) as [s ->]. apply Hstr.
Qed.

Lemma on_click_one_marker (lat lng : float) (st : page) :
  one_marker st -> one_marker (on_click lat lng st).
Proof.
  unfold on_click, one_marker. destruct (map st) as [m|] eqn:Hm;
    [ | rewrite Hm; exact (fun H => H)].
  intros [mk [Hl Hmk]]. rewrite Hmk. simpl. rewrite Hl. simpl.
  rewrite Nat.eqb_refl. simpl. eexists. split; reflexivity.
Qed.

Lemma step_one_marker (st : page) (ev : event) :
  (forall s : string, Leaflet.popup_ok (VStr s) = true) ->
  response_city_is_text ev = true ->
  one_marker st -> one_marker (step st ev).
Proof.
  intros Hstr Hev Inv. destruct ev as [ |s|s|s|ids|lat lng| |k o]; simpl;
    try exact Inv.
  - destruct (map st) eqn:Hm; [exact Inv | ].
    unfold on_DOMContentLoaded, one_marker. simpl. eexists. split; reflexivity.
  - now apply on_click_one_marker.
  - destruct (nth_error (pending st) k) as [fr|]; [ | exact Inv].
    apply resume_one_marker; [exact Hstr | | exact Inv].
    destruct o as [e|status [data|e]]; try exact I. exact Hev.
Qed.

Lemma step_loaded (st : page) (ev : event) :
  loaded (step st ev) = loaded st || is_DOMContentLoaded ev.
Proof.
  destruct ev as [ |s|s|s|ids|lat lng| |k o]; simpl; try (now rewrite orb_false_r).
  - unfold loaded. destruct (map st) eqn:Hm; [now rewrite Hm | reflexivity].
  - rewrite orb_false_r. unfold on_click, loaded. destruct (map st) eqn:Hm; [reflexivity | ].
    now rewrite Hm.
  - rewrite orb_false_r. destruct (nth_error (pending st) k) as [fr|]; [ | reflexivity].
    rewrite (resume_observed loaded) by reflexivity.
    destruct (try_block_after_map loaded fr o (set_pending (remove_nth k (pending st)) st))
      as [U | [status [data [-> U]]]]; try reflexivity; rewrite U; [reflexivity | ].
    rewrite (keeps_update_map loaded fr data); try reflexivity.
    intros g st0. unfold modify_map, modify, loaded. simpl.
    destruct (map st0) eqn:Hm; [reflexivity | now rewrite Hm].
Qed.

Lemma fold_step_one_marker (evs : list event) : forall st : page,
  (forall s : string, Leaflet.popup_ok (VStr s) = true) ->
  forallb response_city_is_text evs = true ->
  one_marker st ->
  one_marker (fold_left step evs st) /\
  loaded (fold_left step evs st) = loaded st || existsb is_DOMContentLoaded evs.
Proof.
  induction evs as [|ev evs IH]; intros st Hstr Hevs Inv; simpl.
  - split; [exact Inv | now rewrite orb_false_r].
  - simpl in Hevs. apply andb_true_iff in Hevs. destruct Hevs as [Hev Hevs].
    destruct (IH (step st ev) Hstr Hevs (step_one_marker st ev Hstr Hev Inv)) as [I L].
    split; [exact I | ]. rewrite L, step_loaded, orb_assoc. reflexivity.
Qed.

End Handlers.

(** ** The loading flag, the pin field and the marker *)

Section HandlerProperties.
Context {engine : Engine} {leaflet : Leaflet.Library}.

Lemma fold_step_idle (evs : list event) : forall st : page,
  existsb is_Query evs = false -> pending st = [] -> loading st = false ->
  pending (fold_left step evs st) = [] /\ loading (fold_left step evs st) = false.
Proof.
  induction evs as [|ev evs IH]; intros st Hq Hp Hl; simpl; [now split | ].
  simpl in Hq. apply orb_false_iff in Hq. destruct Hq as [Hev Hq].
  assert (S : pending (step st ev) = [] /\ loading (step st ev) = false).
  { destruct ev as [ |s|s|s|ids|lat lng| |k o]; simpl;
      try discriminate Hev; try (now split).
    - destruct (map st); now split.
    - unfold on_click. destruct (map st); now split.
    - rewrite Hp. destruct k; now split. }
  destruct S as [S1 S2]. exact (IH _ Hq S1 S2).
Qed.

Lemma resume_clears_loading (fr : frame) (o : outcome) (st : page) :
  loading (checkWeather_resume fr o st) = false.
Proof.
  unfold checkWeather_resume. destruct (try_block fr o st) as [[u|e] st1]; reflexivity.
Qed.

Lemma fold_step_never_stuck (evs : list event) : forall st : page,
  (pending st = [] -> loading st = false) ->
  pending (fold_left step evs st) = [] -> loading (fold_left step evs st) = false.
Proof.
  induction evs as [|ev evs IH]; intros st Inv; simpl; [exact Inv | ].
  apply IH. destruct ev as [ |s|s|s|ids|lat lng| |k o]; simpl; try exact Inv.
  - destruct (map st); exact Inv.
  - unfold on_click. destruct (map st); exact Inv.
  - intros H. destruct (pending st); discriminate H.
  - destruct (nth_error (pending st) k) as [fr|]; [ | exact Inv].
    intros _. apply resume_clears_loading.
Qed.

(** C4.  The loading flag is false when the script has run and stays false
    until the first query; whatever the request of a [checkWeather] call
    comes to (a rejected fetch, a status that is not a success, a body that
    is not JSON, or a response that is rendered or makes a renderer throw),
    the call ends with the flag false; and the flag is false whenever no
    call is outstanding. *)
Theorem C4_loading_flag_is_cleared
        (today : string) (evs : list event) (fr : frame) (o : outcome)
        (st : page) (k : nat) :
  loading (boot today) = false /\
  (existsb is_Query evs = false -> loading (run today evs) = false) /\
  loading (checkWeather_resume fr o st) = false /\
  ((k < List.length (pending st))%nat -> loading (step st (Settled k o)) = false) /\
  (pending (run today evs) = [] -> loading (run today evs) = false).
Proof.
  split; [reflexivity | ].
  split.
  { intros Hq. apply (fold_step_idle evs (boot today) Hq); reflexivity. }
  split; [apply resume_clears_loading | ].
  split.
  { intros Hk. simpl. destruct (nth_error (pending st) k) as [fr'|] eqn:E.
    - apply resume_clears_loading.
    - apply nth_error_None in E. lia. }
  apply fold_step_never_stuck. reflexivity.
Qed.

(** C5.  Once the click handler is registered, a click at [(lat, lng)]
    leaves the pin field holding the two coordinates, each printed by
    [toFixed(5)], with a comma between them, and the city field empty; for
    coordinates that [toFixed] prints in fixed notation (finite, below 1e21)
    each of the two is a signed decimal numeral with exactly 5 digits after
    the point. *)
Theorem C5_click_fills_pin_and_clears_city (st : page) (lat lng : float) :
  loaded st = true ->
  let st' := step st (MapClick lat lng) in
  pinInput st' = toFixed 5 lat ++ "," ++ toFixed 5 lng /\
  cityInput st' = EmptyString /\
  (plain lat = true -> signed_fixed 5 (toFixed 5 lat)) /\
  (plain lng = true -> signed_fixed 5 (toFixed 5 lng)).
Proof.
  intros Hl st'. unfold st'. simpl. unfold on_click, loaded in *.
  destruct (map st) as [m|]; [ | discriminate Hl].
  split; [reflexivity | ]. split; [reflexivity | ].
  split; intros Hp; apply toFixed_shape; (lia || exact Hp).
Qed.

(** X21.  Given that Leaflet shows a string as popup content and that the
    city of every response, when there is one, is text: before the document
    has loaded there is no map and no marker, and from then on the map
    carries exactly one marker, the one the global [marker] refers to,
    after every event.  (With a city Leaflet cannot show, the global is
    left behind and the invariant breaks.) *)
Theorem one_marker_while_popups_open (today : string) (evs : list event) :
  (forall s : string, Leaflet.popup_ok (VStr s) = true) ->
  forallb response_city_is_text evs = true ->
  let st := run today evs in
  if existsb is_DOMContentLoaded evs
  then exists (m : Leaflet.map) (mk : Leaflet.marker),
         map st = Some m /\ Leaflet.layers m = [mk] /\
         marker st = Some (Leaflet.marker_id mk)
  else map st = None /\ marker st = None.
Proof.
  intros Hstr Hevs st.
  destruct (fold_step_one_marker evs (boot today) Hstr Hevs eq_refl) as [Inv L].
  fold (run today evs) in Inv, L. fold st in Inv, L.
  simpl in L. unfold loaded in L. unfold one_marker in Inv.
  destruct (existsb is_DOMContentLoaded evs); destruct (map st) as [m|];
    try discriminate L.
  - destruct Inv as [mk [H1 H2]]. exists m, mk. repeat split; assumption.
  - split; [reflexivity | exact Inv].
Qed.

End HandlerProperties.

(** ** Responses the renderers get through *)

Section Responses.
Context {engine : Engine} {leaflet : Leaflet.Library}.

Lemma bind_eq {A C : Type} (c : M A) (k : A -> M C) (st st1 : page) (a : A) :
  c st = (Normal a, st1) -> bind c k st = k a st1.
Proof. intros H. unfold bind. rewrite H. reflexivity. Qed.

Lemma update_map_completes (fr : frame) (data : value) (st : page) :
  nullish data = false -> coords_taken fr data = true ->
  fst (update_map fr data st) = Normal tt.
Proof.
  intros N Hc. unfold update_map, coords_taken in *.
  rewrite (Get_prop data "coords" N), (Get_prop data "city" N).
  unfold bind at 1, lift at 1.
  destruct (ToBoolean (prop data "coords") && length_is (prop data "coords") 2);
    [ | reflexivity].
  simpl in Hc.
  destruct (prop data "coords") as [| |b|x|s|[|lat [|lon [|z rest]]]|ps];
    try discriminate Hc.
  apply andb_true_iff in Hc. destruct Hc as [Hll Hpop].
  cbv [bind lift modify gets ret throw modify_map destructure2 nth fst snd].
  rewrite Hll, Hpop.
  destruct (map st) as [m|] eqn:Hm; [ | reflexivity].
  cbn [map marker set_map set_marker set_fresh snd fst]. rewrite ?Hm.
  cbn [map marker set_map set_marker set_fresh snd fst].
  destruct (marker st); cbn [map marker set_map set_marker set_fresh snd fst];
    rewrite ?Hm; reflexivity.
Qed.

Lemma drawLineChart_completes (ts : value) :
  chart_completes ts = true ->
  exists els : list element,
    els <> [] /\
    forall st : page, drawLineChart ts st = (Normal tt, set_lineChart els st).
Proof.
  unfold chart_completes. intros H.
  destruct (negb (ToBoolean ts) || length_is ts 0) eqn:E.
  - exists [placeholder]. split; [discriminate | ].
    intros st. now apply drawLineChart_placeholder.
  - simpl in H. destruct ts as [| |b|x|s|l|ps]; try discriminate H.
    exists (chart_of (slice_last 6 l)). split; [discriminate | ].
    intros st. apply drawLineChart_array; [ | exact H].
    intros ->. discriminate E.
Qed.

Lemma card_prob_value (data : value) (k : string) :
  nullish data = false -> card_prob data k = Normal (card_value data k).
Proof.
  intros N. unfold card_prob, card_value.
  rewrite (Get_prop data "probabilities" N). simpl.
  destruct (ToBoolean (prop data "probabilities")) eqn:T; [ | reflexivity].
  rewrite (Get_prop _ k (ToBoolean_not_nullish _ T)). reflexivity.
Qed.

Lemma card_converts_parts (fr : frame) (data : value) :
  card_converts fr data = true ->
  converts (card_value data "very_hot") = true /\
  converts (card_value data "very_wet") = true /\
  converts (displayName (prop data "city") (city fr)) = true.
Proof.
  unfold card_converts. intros H. apply andb_true_iff in H. destruct H as [H Hc].
  apply andb_true_iff in H. tauto.
Qed.

Lemma render_infoCard_card (fr : frame) (data : value) (st : page) :
  nullish data = false -> card_converts fr data = true ->
  render_infoCard fr data st = (Normal tt, set_infoCard (card_of fr data) st).
Proof.
  intros N H. destruct (card_converts_parts fr data H) as [Hh [Hw Hc]].
  unfold render_infoCard.
  rewrite !(card_prob_value data _ N), (Get_prop data "city" N).
  cbv [bind lift].
  rewrite (try_ToString_converts _ Hh), (try_ToString_converts _ Hw),
    (try_ToString_converts _ Hc).
  reflexivity.
Qed.

(** A card value that cannot be converted: a [TypeError], and the card
    stays as it was. *)
Lemma render_infoCard_throws (fr : frame) (data : value) (st : page) :
  nullish data = false -> card_converts fr data = false ->
  render_infoCard fr data st = (Throw not_primitive, st).
Proof.
  intros N H. unfold card_converts in H. unfold render_infoCard.
  rewrite !(card_prob_value data _ N), (Get_prop data "city" N).
  cbv [bind lift]. unfold try_ToString.
  destruct (converts (card_value data "very_hot")); [ | reflexivity].
  destruct (converts (displayName (prop data "city") (city fr)));
    [ | reflexivity].
  destruct (converts (card_value data "very_wet")); [discriminate H | reflexivity].
Qed.

(** What the card shows where the response gives no probability, or a
    falsy one. *)
Lemma card_value_falsy (data : value) (k : string) :
  ToBoolean (prop data "probabilities") = false
  \/ ToBoolean (prop (prop data "probabilities") k) = false ->
  card_value data k = VNum 0.
Proof.
  unfold card_value. intros [H | H]; rewrite H; [reflexivity | ].
  now rewrite andb_false_r.
Qed.

(** The whole [try] block on a response the renderers get through. *)
Lemma try_block_completes (fr : frame) (status : N) (data : value) (st : page) :
  ok status = true -> nullish data = false -> coords_taken fr data = true ->
  chart_completes (or_else (prop data "time_series") (VArr [])) = true ->
  card_converts fr data = true ->
  exists els : list element,
    els <> [] /\
    try_block fr (Responded status (Normal data)) st
    = (Normal tt,
       set_infoCard (card_of fr data)
         (set_lineChart els
            (set_barChart
               (List.map (fun m => bar_of m (bar_value data m)) (useDefs (selected fr)))
               (snd (update_map fr data st))))).
Proof.
  intros Hok N Hc Hts Hcard. unfold try_block. rewrite Hok. cbn [negb].
  pose proof (update_map_completes fr data st N Hc) as U.
  destruct (update_map fr data st) as [r st1] eqn:EU. cbn [fst snd] in *. subst r.
  destruct (drawLineChart_completes _ Hts) as [els [Hels D]].
  specialize (D (set_barChart
                   (List.map (fun m => bar_of m (bar_value data m)) (useDefs (selected fr)))
                   st1)).
  exists els. split; [exact Hels | ].
  rewrite (bind_eq (lift (Normal data)) _ st st data eq_refl).
  rewrite (bind_eq (update_map fr data) _ st st1 tt EU).
  rewrite (bind_eq (render_barChart fr data) _ st1 _ tt (render_barChart_bars fr data st1 N)).
  rewrite (Get_prop data "time_series" N).
  rewrite (bind_eq (lift (Normal (prop data "time_series"))) _ _ _ _ eq_refl).
  rewrite (bind_eq _ _ _ _ _ D).
  rewrite (render_infoCard_card fr data _ N Hcard). reflexivity.
Qed.

(** Once the map block has gone through, the bars [checkWeather] leaves on
    the page are those of the bar chart block, whatever the chart renderer
    and the summary card do afterwards. *)
Lemma barChart_after_resume (fr : frame) (status : N) (data : value) (st : page) :
  ok status = true -> nullish data = false ->
  fst (update_map fr data st) = Normal tt ->
  barChart (checkWeather_resume fr (Responded status (Normal data)) st)
  = List.map (fun m => bar_of m (bar_value data m)) (useDefs (selected fr)).
Proof.
  intros Hok N U. rewrite (resume_observed barChart) by reflexivity.
  unfold try_block. rewrite Hok. cbn [negb].
  destruct (update_map fr data st) as [r st1] eqn:EU. cbn [fst] in U. subst r.
  rewrite (bind_eq (lift (Normal data)) _ st st data eq_refl).
  rewrite (bind_eq (update_map fr data) _ st st1 tt EU).
  rewrite (bind_eq (render_barChart fr data) _ st1 _ tt (render_barChart_bars fr data st1 N)).
  assert (K : keeps barChart (ts <- lift (Get data "time_series") ;;
                              drawLineChart (or_else ts (VArr [])) ;;
                              render_infoCard fr data)).
  { apply keeps_bind; [apply keeps_lift | intros ts].
    apply keeps_bind; [now apply keeps_drawLineChart | intros _].
    now apply keeps_render_infoCard. }
  rewrite K. reflexivity.
Qed.

End Responses.

Section ResponseProperties.
Context {engine : Engine} {leaflet : Leaflet.Library}.

Lemma displayName_city (dcity : value) (c : string) :
  (ToBoolean dcity = true -> displayName dcity c = dcity) /\
  (ToBoolean dcity = false -> c <> EmptyString -> displayName dcity c = VStr c).
Proof.
  unfold displayName, or_else. split; intros H.
  - rewrite H. simpl. now rewrite H.
  - intros Hc. rewrite H. simpl. destruct c; [congruence | reflexivity].
Qed.

(** C6, as the code has it.  A response that can be read (it is not
    [null]), whose coordinates the map block gets through, whose time
    series the chart renderer gets through and whose card values (the two
    probabilities and the name shown) can be converted to strings, is
    rendered without any error: no alert, nothing logged; each bar shows
    the metric's probability, 0 where the response gives none or gives
    something that is not a number; the text written into the summary card
    has 0 for a probability that is missing or falsy and a nonzero number
    as it is, each converted to a string; the city written is the city of
    the response, or the city of the query when the response has none.  And
    an error raised on any response is caught by [checkWeather]: it is
    logged and alerted, and the page goes on. *)
Theorem C6_readable_responses_render_without_error
        (fr : frame) (status : N) (data : value) (st : page) :
  ok status = true -> nullish data = false -> coords_taken fr data = true ->
  chart_completes (or_else (prop data "time_series") (VArr [])) = true ->
  card_converts fr data = true ->
  let st' := checkWeather_resume fr (Responded status (Normal data)) st in
  fst (try_block fr (Responded status (Normal data)) st) = Normal tt /\
  alerts st' = alerts st /\ console st' = console st /\
  barChart st'
  = List.map (fun m => bar_of m (bar_value data m)) (useDefs (selected fr)) /\
  (forall m : metric, no_probability data (key m) -> bar_value data m = 0%float) /\
  lineChart st' <> [] /\
  infoCard st'
  = Some {| info_hp := ToString (card_value data "very_hot");
            info_wp := ToString (card_value data "very_wet");
            info_city := ToString (displayName (prop data "city") (city fr));
            info_date := date fr |} /\
  (forall k : string,
     ToBoolean (prop data "probabilities") = false
     \/ ToBoolean (prop (prop data "probabilities") k) = false ->
     card_value data k = VNum 0) /\
  (forall (k : string) (x : float),
     ToBoolean (prop data "probabilities") = true ->
     prop (prop data "probabilities") k = VNum x -> ToBoolean (VNum x) = true ->
     card_value data k = VNum x) /\
  (ToBoolean (prop data "city") = true ->
   displayName (prop data "city") (city fr) = prop data "city") /\
  (ToBoolean (prop data "city") = false -> city fr <> EmptyString ->
   displayName (prop data "city") (city fr) = VStr (city fr)) /\
  (forall (o : outcome) (e : exn),
     fst (try_block fr o st) = Throw e ->
     alerts (checkWeather_resume fr o st)
     = (alerts (snd (try_block fr o st)) ++ [oops e])%list
     /\ console (checkWeather_resume fr o st)
        = (console (snd (try_block fr o st)) ++ [e])%list
     /\ loading (checkWeather_resume fr o st) = false).
Proof.
  intros Hok N Hc Hts Hcard st'.
  destruct (try_block_completes fr status data st Hok N Hc Hts Hcard) as [els [Hels E]].
  assert (Ka : alerts (snd (update_map fr data st)) = alerts st).
  { apply (keeps_update_map alerts); try reflexivity.
    intros g st0. unfold modify_map, modify. simpl. destruct (map st0); reflexivity. }
  assert (Kc : console (snd (update_map fr data st)) = console st).
  { apply (keeps_update_map console); try reflexivity.
    intros g st0. unfold modify_map, modify. simpl. destruct (map st0); reflexivity. }
  unfold st', checkWeather_resume. rewrite E. cbn [fst snd].
  split; [reflexivity | ].
  split; [exact Ka | ]. split; [exact Kc | ].
  split; [reflexivity | ].
  split; [intros m; apply bar_value_missing | ].
  split; [exact Hels | ].
  split; [reflexivity | ].
  split; [intros k; apply card_value_falsy | ].
  split.
  { intros k x Hp Hk Hx. unfold card_value. rewrite Hp, Hk, Hx. reflexivity. }
  split; [apply displayName_city | ].
  split; [apply displayName_city | ].
  intros o e He. destruct (try_block fr o st) as [[u|e'] st1]; simpl in He.
  - discriminate He.
  - injection He as ->. repeat split.
Qed.

End ResponseProperties.

(** ** Closed examples *)

Section Examples.
#[local] Existing Instance example_engine.
#[local] Existing Instance example_leaflet.

(** The end-to-end example: Karachi, 2025-01-01, no metric selected, and a
    response with [very_hot: 72] alone.  The hot bar shows 72, the four
    others 0, the card says 72 for the heat, and the flag is cleared. *)
Example hot_only_rendered :
  let st := step sample_page (Settled 0 (Responded 200 (Normal hot_only))) in
  List.map (fun b => (bar_label b, bar_percent b)) (barChart st)
  = [("Very hot", 72%float); ("Very cold", 0%float); ("Very wet", 0%float);
     ("Very windy", 0%float); ("Uncomfortable", 0%float)] /\
  infoCard st = Some {| info_hp := "72"; info_wp := "0";
                        info_city := "Karachi"; info_date := "2025-01-01" |} /\
  lineChart st = [placeholder] /\ loading st = false /\ alerts st = [].
Proof. vm_compute. repeat split. Qed.

(** C6 as stated fails.  On the response [{"time_series": [null]}] the
    chart renderer throws a [TypeError] (reading [hot] of [null]): the line
    chart is left empty, the summary card is never written, and the error is
    alerted.  On [{"probabilities": {"very_hot": "high"}}] the bar shows 0
    but the summary card shows the text, not 0.  On
    [{"probabilities": {"very_hot": {"toString": 1}}}] the bar shows 0 and
    the template of the summary card throws a [TypeError]: no card is
    written. *)
Lemma C6_malformed_response_counterexample :
  fst (try_block sample_frame (Responded 200 (Normal null_point)) sample_page)
  = Throw (TypeError "Cannot read properties of null (reading 'hot')") /\
  lineChart (step sample_page (Settled 0 (Responded 200 (Normal null_point)))) = [] /\
  infoCard (step sample_page (Settled 0 (Responded 200 (Normal null_point)))) = None /\
  alerts (step sample_page (Settled 0 (Responded 200 (Normal null_point))))
  = ["Oops: Cannot read properties of null (reading 'hot'). Try a past date or change city/coords."] /\
  List.map bar_percent
    (barChart (step sample_page (Settled 0 (Responded 200 (Normal text_probability)))))
  = [0%float; 0%float; 0%float; 0%float; 0%float] /\
  infoCard (step sample_page (Settled 0 (Responded 200 (Normal text_probability))))
  = Some {| info_hp := "high"; info_wp := "0";
            info_city := "Karachi"; info_date := "2025-01-01" |} /\
  (exists msg : string,
     fst (try_block sample_frame (Responded 200 (Normal own_toString)) sample_page)
     = Throw (TypeError msg)) /\
  infoCard (step sample_page (Settled 0 (Responded 200 (Normal own_toString)))) = None.
Proof. vm_compute. repeat split. eexists. reflexivity. Qed.

(** [toFixed] on a few numbers, as an engine prints them: ties go to the
    larger magnitude, and a number is rounded from its binary64 value, not
    from its decimal literal (1.005 lies just below 1.005, 0.005 just above
    0.005). *)
Example toFixed_samples :
  List.map (toFixed 2) [260; 1.005; 0.005; 88.125; -0.001; 57.5]%float
  = ["260.00"; "1.00"; "0.01"; "88.13"; "-0.00"; "57.50"] /\
  List.map (toFixed 5) [24.86; 67; -179.999999; 0.000004; -0]%float
  = ["24.86000"; "67.00000"; "-180.00000"; "0.00000"; "0.00000"] /\
  List.map (toFixed 0) [2.5; -1.5; 0.5; 999999999999999900000]%float
  = ["3"; "-2"; "1"; "999999999999999868928"].
Proof. vm_compute. repeat split. Qed.

(** A single point: the axis line, two paths that start at x = 260, two
    circles and the date label at x = 260, and the legend. *)
Example single_point_chart :
  List.map (fun e => (tag e, attr_of "cx" (attrs e), attr_of "x" (attrs e), attr_of "d" (attrs e)))
           (lineChart (snd (drawLineChart (VArr [point "05-07" 34 2]) sample_page)))
  = [ ("line", None, None, None);
      ("path", None, None, Some (AStr "M 260.00 20.00"));
      ("path", None, None, Some (AStr "M 260.00 20.00"));
      ("circle", Some (ANum 260), None, None);
      ("circle", Some (ANum 260), None, None);
      ("text", None, Some (ANum 260), None);
      ("rect", None, Some (ANum 360), None);
      ("text", None, Some (ANum 376), None);
      ("rect", None, Some (ANum 360), None);
      ("text", None, Some (ANum 376), None) ].
Proof. vm_compute. reflexivity. Qed.

(** C1 at the end-to-end example: the response has no [very_cold], and the
    cold bar shows 0. *)
Lemma C1_witness :
  In cold_metric (useDefs (selected sample_frame)) /\
  no_probability hot_only (key cold_metric) /\
  In (bar_of cold_metric 0%float)
     (barChart (snd (render_barChart sample_frame hot_only sample_page))).
Proof.
  assert (Hin : In cold_metric (useDefs (selected sample_frame))).
  { right. left. reflexivity. }
  assert (Hno : no_probability hot_only (key cold_metric)).
  { apply key_missing; reflexivity. }
  split; [exact Hin | ]. split; [exact Hno | ].
  exact (proj1 (C1_missing_probability_renders_zero
                  sample_frame hot_only sample_page cold_metric Hin Hno)).
Defined.

(** C2 with nothing selected: the five bars, in the table's order. *)
Lemma C2_witness :
  nullish hot_only = false /\ selected sample_frame = [] /\
  List.map bar_label (barChart (snd (render_barChart sample_frame hot_only sample_page)))
  = ["Very hot"; "Very cold"; "Very wet"; "Very windy"; "Uncomfortable"].
Proof.
  split; [reflexivity | ]. split; [reflexivity | ].
  exact (proj1 (proj2 (C2_selected_metrics_in_table_order
                         sample_frame hot_only sample_page eq_refl)) eq_refl).
Defined.

(** C3 as stated fails: a series of seven entries whose last six hold a
    [null] is not drawn as its last six points.  The renderer throws on
    reading [hot] of [null], and no circle, path or label is written. *)
Lemma C3_unreadable_entry_counterexample :
  List.length seven_with_null = 7%nat /\
  (exists msg : string,
     fst (drawLineChart (VArr seven_with_null) sample_page) = Throw (TypeError msg)) /\
  lineChart (snd (drawLineChart (VArr seven_with_null) sample_page)) = [].
Proof.
  split; [reflexivity | ]. split; [ | vm_compute; reflexivity].
  vm_compute. eexists. reflexivity.
Qed.

(** C3 on seven points: the first is dropped, and the six others are
    drawn. *)
Lemma C3_witness :
  (6 < List.length seven_points)%nat /\
  window_draws (skipn 1 seven_points) = true /\
  dates_plain (skipn 1 seven_points) = true /\
  drawLineChart (VArr seven_points) sample_page
  = drawLineChart (VArr (skipn 1 seven_points)) sample_page /\
  svg_elements (lineChart (snd (drawLineChart (VArr seven_points) sample_page)))
  = Some (chart_of (skipn 1 seven_points)).
Proof.
  assert (Hlen : (6 < List.length seven_points)%nat) by (simpl; lia).
  assert (Hwin : window_draws (slice_last 6 seven_points) = true) by reflexivity.
  assert (Hd : dates_plain (slice_last 6 seven_points) = true) by reflexivity.
  split; [exact Hlen | ]. split; [exact Hwin | ]. split; [exact Hd | ].
  split.
  - exact (proj1 (C3_last_six_points_or_placeholder seven_points sample_page)).
  - exact (proj1 (proj2 (proj2
             (proj1 (proj2 (proj2
                (proj1 (proj2 (C3_last_six_points_or_placeholder seven_points sample_page))
                       Hlen)))
                    Hwin)))
             Hd).
Defined.

(** C4 on a rejected fetch. *)
Lemma C4_witness :
  (0 < List.length (pending sample_page))%nat /\
  loading sample_page = true /\
  loading (step sample_page (Settled 0 (Rejected (TypeError "Failed to fetch")))) = false.
Proof.
  assert (Hk : (0 < List.length (pending sample_page))%nat) by (simpl; lia).
  split; [exact Hk | ]. split; [reflexivity | ].
  exact (proj1 (proj2 (proj2 (proj2
           (C4_loading_flag_is_cleared "2025-01-01" [] sample_frame
              (Rejected (TypeError "Failed to fetch")) sample_page 0)))) Hk).
Defined.

(** C5 on a click near Karachi. *)
Lemma C5_witness :
  loaded sample_page = true /\
  pinInput (step sample_page (MapClick 24.8607 67.0011))
  = toFixed 5 24.8607 ++ "," ++ toFixed 5 67.0011 /\
  cityInput (step sample_page (MapClick 24.8607 67.0011)) = EmptyString.
Proof.
  split; [reflexivity | ].
  pose proof (C5_click_fills_pin_and_clears_city sample_page 24.8607 67.0011 eq_refl)
    as [Hpin [Hcity _]].
  split; [exact Hpin | exact Hcity].
Defined.

Example click_near_Karachi :
  pinInput (step sample_page (MapClick 24.8607 67.0011)) = "24.86070,67.00110".
Proof. vm_compute. reflexivity. Qed.

(** C6, as the code has it, on the full response. *)
Lemma C6_witness :
  ok 200 = true /\ nullish lahore = false /\ coords_taken sample_frame lahore = true /\
  chart_completes (or_else (prop lahore "time_series") (VArr [])) = true /\
  card_converts sample_frame lahore = true /\
  fst (try_block sample_frame (Responded 200 (Normal lahore)) sample_page) = Normal tt /\
  infoCard (checkWeather_resume sample_frame (Responded 200 (Normal lahore)) sample_page)
  = Some {| info_hp := "72"; info_wp := "8"; info_city := "Lahore";
            info_date := "2025-01-01" |}.
Proof.
  assert (Hco : coords_taken sample_frame lahore = true) by reflexivity.
  assert (Hts : chart_completes (or_else (prop lahore "time_series") (VArr [])) = true)
    by reflexivity.
  assert (Hca : card_converts sample_frame lahore = true) by reflexivity.
  split; [reflexivity | ]. split; [reflexivity | ].
  split; [exact Hco | ]. split; [exact Hts | ]. split; [exact Hca | ].
  pose proof (C6_readable_responses_render_without_error
                sample_frame 200 lahore sample_page eq_refl eq_refl Hco Hts Hca)
    as [Hr [_ [_ [_ [_ [_ [Hcard _]]]]]]].
  split; [exact Hr | exact Hcard].
Defined.

(** C7.  The invariant of one marker breaks on the code.  On a response
    with coordinates whose city is the number 42, [checkWeather] removes
    the marker it knows, adds the new one to the map, and then Leaflet
    throws on the popup content, before the global [marker] is assigned:
    the global still refers to the marker that is gone.  The next click
    removes nothing and adds a marker of its own: two markers are on the
    map, the one of the response and the one of the click. *)
Lemma C7_marker_left_behind_after_popup_error :
  let st1 := run "2025-01-01"
               [DOMContentLoaded; Query; Settled 0 (Responded 200 (Normal city_42))] in
  let st2 := step st1 (MapClick 24.8607 67.0011) in
  option_map (fun m => List.map Leaflet.marker_id (Leaflet.layers m)) (map st1)
  = Some [1%nat] /\
  marker st1 = Some 0%nat /\
  option_map (fun m => List.map Leaflet.marker_popup (Leaflet.layers m)) (map st2)
  = Some [VNum 42; VStr "Selected Location: 24.86070, 67.00110"] /\
  marker st2 = Some 2%nat.
Proof. vm_compute. repeat split. Qed.

(** X21 on a run with a click, a rendered response and another click. *)
Lemma one_marker_while_popups_open_witness :
  (forall s : string, Leaflet.popup_ok (VStr s) = true) /\
  forallb response_city_is_text
    [DOMContentLoaded; Query; MapClick 24.8607 67.0011;
     Settled 0 (Responded 200 (Normal lahore)); MapClick 31.5 74.25] = true /\
  exists (m : Leaflet.map) (mk : Leaflet.marker),
    map (run "2025-01-01"
           [DOMContentLoaded; Query; MapClick 24.8607 67.0011;
            Settled 0 (Responded 200 (Normal lahore)); MapClick 31.5 74.25]) = Some m /\
    Leaflet.layers m = [mk] /\
    marker (run "2025-01-01"
              [DOMContentLoaded; Query; MapClick 24.8607 67.0011;
               Settled 0 (Responded 200 (Normal lahore)); MapClick 31.5 74.25])
    = Some (Leaflet.marker_id mk).
Proof.
  assert (Hstr : forall s : string, Leaflet.popup_ok (VStr s) = true)
    by (intros s; reflexivity).
  split; [exact Hstr | ]. split; [reflexivity | ].
  exact (one_marker_while_popups_open "2025-01-01"
           [DOMContentLoaded; Query; MapClick 24.8607 67.0011;
            Settled 0 (Responded 200 (Normal lahore)); MapClick 31.5 74.25]
           Hstr eq_refl).
Defined.


Example heat_maximum : scale_max (series "hot" (slice_last 6 seven_points)) = 41%float.
Proof. vm_compute. reflexivity. Qed.

(** C9 on a single point. *)
Lemma C9_witness :
  List.length (slice_last 6 [point "05-07" 34 0]) = 1%nat /\
  xFor (List.length (slice_last 6 [point "05-07" 34 0])) 0 = 260%float /\
  Forall (fun e => attr_of "cx" (attrs e) = Some (ANum 260))
         (circles (lineChart (snd (drawLineChart (VArr [point "05-07" 34 0]) sample_page)))).
Proof.
  split; [reflexivity | ].
  pose proof (C9_single_point_is_centered [point "05-07" 34 0] sample_page eq_refl)
    as [Hx [_ [Hc _]]].
  split; [exact (Hx 0%nat) | exact Hc].
Defined.

(** C10 on a selection of one unknown identifier, and on a mixed one. *)
Lemma C10_witness :
  nullish hot_only = false /\ selected only_unknown <> [] /\
  barChart (snd (render_barChart only_unknown hot_only sample_page)) = [].
Proof.
  assert (Hne : selected only_unknown <> []) by discriminate.
  split; [reflexivity | ]. split; [exact Hne | ].
  refine (proj1 (proj1 (C10_unknown_identifiers_render_nothing
                          only_unknown only_unknown hot_only sample_page eq_refl Hne) _)).
  intros i [<- | []]. reflexivity.
Defined.

Example mixed_selection :
  barChart (snd (render_barChart wet_and_unknown hot_only sample_page))
  = barChart (snd (render_barChart only_wet hot_only sample_page)).
Proof. vm_compute. reflexivity. Qed.

End Examples.

(** * Further properties of the script *)

(** ** The chart renderer: when it throws, what it draws, where *)

Section ChartRenderer.
Context {engine : Engine}.

(** X1.  [drawLineChart] gets through exactly on these values: a falsy one
    or one of length 0 (the placeholder), or an array whose last six
    entries can all be drawn (the chart).  On any other value it throws a
    [TypeError].  It then leaves the chart empty when the value is not an
    array, when an entry of the window cannot be read or when a [hot] or
    [wet] cannot be converted; when the first date that cannot be converted
    is that of the point of index [j], it leaves the axis line, the two
    paths, what it wrote for the points before and the two circles of that
    point, and no legend.  Either way it changes nothing of the page but
    the line chart, and what it leaves there does not depend on what was
    there. *)
Theorem drawLineChart_outcome (ts : value) :
  (chart_completes ts = true ->
   exists els : list element,
     els <> [] /\
     forall st : page, drawLineChart ts st = (Normal tt, set_lineChart els st)) /\
  (chart_completes ts = false ->
   exists (msg : string) (els : list element),
     (forall st : page,
        drawLineChart ts st = (Throw (TypeError msg), set_lineChart els st)) /\
     (series_drawable ts = false -> els = []) /\
     (forall l : list value,
        ts = VArr l -> forallb point_scales (slice_last 6 l) = false -> els = []) /\
     (forall l : list value,
        ts = VArr l -> forallb point_scales (slice_last 6 l) = true ->
        exists j : nat,
          first_failing (fun p => converts (prop p "date")) (slice_last 6 l) = Some j /\
          els = firstn (3 + (3 * j + 2)) (chart_of (slice_last 6 l)) /\
          filter (has_tag "rect") els = [])).
Proof.
  split; [apply drawLineChart_completes | ].
  unfold chart_completes, series_drawable. intros H.
  apply orb_false_iff in H. destruct H as [E H]. rewrite E. cbn [orb].
  destruct ts as [| |b|x|s|l|ps]; try discriminate E;
    try (eexists; exists []; split;
         [intros st; unfold drawLineChart; cbv [bind modify throw]; rewrite E; reflexivity
         | split; [reflexivity | split; intros l Hl; discriminate Hl]]).
  assert (Hne : l <> []) by (intros ->; discriminate E).
  destruct (drawLineChart_prefix l Hne) as [r [k [D [_ Hno]]]].
  destruct (Hno H) as [[msg ->] [Hk [Hzero Hdate]]].
  exists msg, (firstn k (chart_of (slice_last 6 l))).
  split; [exact D | ].
  assert (Hs : forallb point_scales (slice_last 6 l) = false -> k = 0%nat) by exact Hzero.
  split.
  - intros Hn. rewrite Hs; [reflexivity | ].
    rewrite point_scales_split, Hn. reflexivity.
  - split; intros l' Hl' Hp; injection Hl' as <-.
    + rewrite (Hs Hp). reflexivity.
    + destruct (Hdate Hp) as [j [Hj ->]]. exists j.
      split; [exact Hj | ]. split; [reflexivity | ].
      assert (Hno_rect : forall i : nat,
                filter (has_tag "rect")
                  (firstn i ([axis_line;
                              path_elem (path_data "hot" (scale_max (series "hot" (slice_last 6 l)))
                                                   (slice_last 6 l)) "#ff6b6b";
                              path_elem (path_data "wet" (scale_max (series "wet" (slice_last 6 l)))
                                                   (slice_last 6 l)) "#70d6ff"]
                             ++ flat_map (point_elems (List.length (slice_last 6 l))
                                            (scale_max (series "hot" (slice_last 6 l)))
                                            (scale_max (series "wet" (slice_last 6 l))))
                                         (combine (seq 0 (List.length (slice_last 6 l)))
                                                  (slice_last 6 l)))%list) = []).
      { intros i.
        assert (F : Forall (fun e => has_tag "rect" e = false)
                      ([axis_line;
                        path_elem (path_data "hot" (scale_max (series "hot" (slice_last 6 l)))
                                             (slice_last 6 l)) "#ff6b6b";
                        path_elem (path_data "wet" (scale_max (series "wet" (slice_last 6 l)))
                                             (slice_last 6 l)) "#70d6ff"]
                       ++ flat_map (point_elems (List.length (slice_last 6 l))
                                      (scale_max (series "hot" (slice_last 6 l)))
                                      (scale_max (series "wet" (slice_last 6 l))))
                                   (combine (seq 0 (List.length (slice_last 6 l)))
                                            (slice_last 6 l)))%list).
        { apply Forall_app. split; [repeat constructor | ].
          apply Forall_forall. intros e He. apply in_flat_map in He.
          destruct He as [ip [_ [<- | [<- | [<- | []]]]]]; reflexivity. }
        apply (Forall_firstn _ i) in F.
        induction F as [|e els He _ IH]; [reflexivity | ].
        cbn [filter]. rewrite He. exact IH. }
      unfold chart_of. rewrite app_assoc, firstn_app.
      replace (3 + (3 * j + 2) - _)%nat with 0%nat.
      * cbn [firstn]. rewrite app_nil_r. apply Hno_rect.
      * rewrite length_app, length_flat_map_points, length_combine, length_seq.
        rewrite chart_of_length in Hk. unfold chart_size in Hk.
        cbn [List.length]. lia.
Qed.

(** X2.  For a time series that is not empty and whose window of [n]
    points can all be drawn, with dates that hold no markup, the chart has
    [3 + 3n + 4] elements: the axis line and the two paths first, then two
    circles and a label per point, and the four elements of the legend
    last.  The placeholder comes without the legend: it is the only
    element, and there is no [rect]. *)
Theorem chart_elements_and_legend (l : list value) (ts : value) (st : page) :
  (l <> [] -> window_draws (slice_last 6 l) = true ->
   dates_plain (slice_last 6 l) = true ->
   exists chart : list element,
     svg_elements (lineChart (snd (drawLineChart (VArr l) st))) = Some chart /\
     List.length chart = chart_size (Nat.min 6 (List.length l)) /\
     List.map tag (firstn 3 chart) = ["line"; "path"; "path"] /\
     skipn (List.length chart - 4) chart = legend /\
     List.length (filter (has_tag "rect") chart) = 2%nat /\
     List.length (circles chart) = (2 * Nat.min 6 (List.length l))%nat) /\
  (negb (ToBoolean ts) || length_is ts 0 = true ->
   svg_elements (lineChart (snd (drawLineChart ts st))) = Some [placeholder] /\
   filter (has_tag "rect") [placeholder] = []).
Proof.
  split.
  - intros Hne Hwin Hd. exists (chart_of (slice_last 6 l)).
    rewrite (drawLineChart_array l st Hne Hwin). cbn [snd lineChart set_lineChart].
    split; [now apply svg_elements_chart_of | ].
    rewrite chart_of_length, slice_last_length.
    split; [reflexivity | ]. split; [reflexivity | ].
    split; [ | split].
    + unfold chart_size, chart_of.
      set (pts := flat_map _ _).
      replace (3 + 3 * Nat.min 6 (List.length l) + 4 - 4)%nat
        with (List.length ([axis_line;
                path_elem (path_data "hot" (scale_max (series "hot" (slice_last 6 l)))
                                     (slice_last 6 l)) "#ff6b6b";
                path_elem (path_data "wet" (scale_max (series "wet" (slice_last 6 l)))
                                     (slice_last 6 l)) "#70d6ff"]
                ++ pts)%list).
      * rewrite app_assoc. rewrite skipn_app, skipn_all, Nat.sub_diag. reflexivity.
      * rewrite length_app. unfold pts.
        rewrite length_flat_map_points, length_combine, length_seq, slice_last_length.
        cbn [List.length]. lia.
    + unfold chart_of. rewrite !filter_app.
      rewrite (filter_point_elems _ _ _ _ (fun _ => [])) by reflexivity.
      cbn. induction (combine _ _) as [|ip pts IH]; [reflexivity | exact IH].
    + rewrite circles_chart_of.
      assert (L : forall (f : nat * value -> list element) (pts : list (nat * value)),
                (forall ip, List.length (f ip) = 2%nat) ->
                List.length (flat_map f pts) = (2 * List.length pts)%nat).
      { intros f pts Hf. induction pts as [|ip pts IH]; [reflexivity | ].
        cbn [flat_map]. rewrite length_app, Hf, IH. cbn [List.length]. lia. }
      rewrite L by reflexivity.
      rewrite length_combine, length_seq, slice_last_length. lia.
  - intros E. rewrite (drawLineChart_placeholder ts st E). split; reflexivity.
Qed.

(** X3.  The x-positions of a window (it has at most six points) lie in the
    drawing area and grow with the index; with two points or more the first
    stands on the left edge ([leftPad]) and the last on the right edge
    ([viewW - rightPad]), exactly. *)
Theorem x_positions_span_drawing_area (l : list value) (i j : nat) :
  let n := List.length (slice_last 6 l) in
  (i < j)%nat -> (j < n)%nat ->
  (xFor n i <? xFor n j)%float = true /\
  (leftPad <=? xFor n i)%float = true /\
  (xFor n j <=? viewW - rightPad)%float = true /\
  xFor n 0 = leftPad /\
  xFor n (n - 1) = (viewW - rightPad)%float.
Proof.
  intros n Hij Hjn. assert (Hn : (n <= 6)%nat).
  { unfold n. rewrite slice_last_length. lia. }
  clearbody n.
  destruct n as [|[|[|[|[|[|[|n]]]]]]]; try lia;
    destruct j as [|[|[|[|[|[|j]]]]]]; try lia;
    destruct i as [|[|[|[|[|i]]]]]; try lia;
    vm_compute; repeat split.
Qed.

End ChartRenderer.

(** ** The bar and the summary card, side by side *)

Section BarAndCard.

(** X4.  For a metric key the bar chart and the summary card read the same
    probability and agree but for text.  With no (truthy) [probabilities]
    both show 0.  On a number the bar shows it as it is and the card shows
    it too unless it is zero or [NaN], which it shows as 0.  On anything
    else the bar shows 0, and the card shows 0 only if the value is falsy:
    a truthy value that is not a number appears on the card as it is. *)
Theorem bar_and_card_agree_but_for_text (data : value) (m : metric) :
  nullish data = false ->
  let probs := prop data "probabilities" in
  let v := prop probs (key m) in
  exists (bar : float) (card : value),
    bar_prob data m = Normal bar /\ card_prob data (key m) = Normal card /\
    (ToBoolean probs = false -> bar = 0%float /\ card = VNum 0) /\
    (ToBoolean probs = true ->
     forall x : float, v = VNum x ->
       bar = x /\ card = VNum (if ToBoolean (VNum x) then x else 0%float)) /\
    (ToBoolean probs = true -> is_number v = false ->
     bar = 0%float /\ card = (if ToBoolean v then v else VNum 0)).
Proof.
  intros N probs v. exists (bar_value data m), (card_value data (key m)).
  split; [now apply bar_prob_value | ]. split; [now apply card_prob_value | ].
  rewrite (bar_value_unfold data m N). unfold card_value. fold probs. fold v.
  split; [intros ->; split; reflexivity | ].
  split; intros ->.
  - intros x ->. split; [reflexivity | ]. cbn [andb].
    destruct (ToBoolean (VNum x)); reflexivity.
  - intros Hv. simpl. destruct v; try discriminate Hv; split; reflexivity.
Qed.

End BarAndCard.

(** ** What a query leaves on the page when it fails *)

Section FailedQueries.
Context {engine : Engine} {leaflet : Leaflet.Library}.

Lemma bind_throw {A C : Type} (c : M A) (k : A -> M C) (st st1 : page) (e : exn) :
  c st = (Throw e, st1) -> bind c k st = (Throw e, st1).
Proof. intros H. unfold bind. rewrite H. reflexivity. Qed.

(** X5.  When the request fails before anything is rendered (the fetch is
    rejected, the status is not a success, the body is not JSON, or it is
    JSON for [null]) the call changes nothing of the page but three things:
    the error is logged, one alert is shown (its text built from the error's
    message, [Server] and the status for a bad status), and the loading
    flag is cleared.  The bars, the chart, the card, the map and the marker
    of the previous query stay. *)
Theorem failed_request_keeps_previous_rendering
        (fr : frame) (o : outcome) (e : exn) (st : page) :
  fails_early o = Some e ->
  let st' := checkWeather_resume fr o st in
  st' = set_loading false (log_and_alert e (oops e) st) /\
  barChart st' = barChart st /\ lineChart st' = lineChart st /\
  infoCard st' = infoCard st /\ map st' = map st /\ marker st' = marker st /\
  alerts st' = (alerts st ++ [oops e])%list /\
  (forall status body, o = Responded status body -> ok status = false ->
     oops e = "Oops: Server " ++ digits status
              ++ ". Try a past date or change city/coords.").
Proof.
  intros H st'.
  assert (E : st' = set_loading false (log_and_alert e (oops e) st)).
  { unfold st', checkWeather_resume, try_block. unfold fails_early in H.
    destruct o as [e0|status [data|e0]].
    - injection H as ->. reflexivity.
    - destruct (negb (ok status)).
      + injection H as <-. reflexivity.
      + destruct data; try discriminate H. injection H as <-. reflexivity.
    - destruct (negb (ok status)); injection H as <-; reflexivity. }
  split; [exact E | ]. rewrite E. repeat split.
  intros status body -> Hok. unfold fails_early in H. rewrite Hok in H.
  injection H as <-. reflexivity.
Qed.

(** X6.  When the response carries a pair of coordinates Leaflet does not
    take, or a [coords] object of length 2 that cannot be destructured, the
    error is thrown before anything is drawn: the map, the marker, the
    bars, the chart and the card all stay as they were, though the response
    may hold good probabilities and a good time series.  What is logged is
    the error Leaflet threw (whatever its kind and wording), or the
    [TypeError] of the destructuring, and the alert carries its message. *)
Theorem unusable_coordinates_render_nothing
        (fr : frame) (status : N) (data : value) (st : page) :
  ok status = true -> nullish data = false ->
  let st' := checkWeather_resume fr (Responded status (Normal data)) st in
  (forall lat lon : value,
     prop data "coords" = VArr [lat; lon] -> loaded st = true ->
     Leaflet.latlng_ok lat lon = false ->
     st' = set_loading false
             (log_and_alert (Leaflet.latlng_error lat lon)
                            (oops (Leaflet.latlng_error lat lon)) st)) /\
  (forall ps : list (string * value),
     prop data "coords" = VObj ps -> length_is (VObj ps) 2 = true ->
     exists msg : string,
       st' = set_loading false
               (log_and_alert (TypeError msg) (oops (TypeError msg)) st)).
Proof.
  intros Hok N st'.
  assert (R : forall e : exn,
            update_map fr data st = (Throw e, st) ->
            st' = set_loading false (log_and_alert e (oops e) st)).
  { intros e U. unfold st', checkWeather_resume, try_block. rewrite Hok. cbn [negb].
    rewrite (bind_eq (lift (Normal data)) _ st st data eq_refl).
    rewrite (bind_throw (update_map fr data) _ st st e U). reflexivity. }
  split.
  - intros lat lon Hc Hl Hll. apply R. unfold loaded in Hl.
    destruct (map st) as [m|] eqn:Hm; [ | discriminate Hl].
    unfold update_map. rewrite (Get_prop data "coords" N), Hc.
    cbv [bind lift gets throw ToBoolean length_is andb List.length Nat.eqb destructure2
         nth fst snd].
    rewrite Hm, Hll. reflexivity.
  - intros ps Hc Hlen. eexists. apply R.
    unfold update_map. rewrite (Get_prop data "coords" N), Hc.
    cbv [bind lift ToBoolean andb]. rewrite Hlen. reflexivity.
Qed.

(** X7.  When the map block gets through and the chart renderer throws
    (the time series is not drawable), the page is left half rendered: the
    bars are those of this response, the chart is empty, and the summary
    card is the one of the previous query (or none), with one alert. *)
Theorem chart_error_leaves_card_stale
        (fr : frame) (status : N) (data : value) (st : page) :
  ok status = true -> nullish data = false -> coords_taken fr data = true ->
  series_drawable (or_else (prop data "time_series") (VArr [])) = false ->
  let st' := checkWeather_resume fr (Responded status (Normal data)) st in
  barChart st'
  = List.map (fun m => bar_of m (bar_value data m)) (useDefs (selected fr)) /\
  lineChart st' = [] /\
  infoCard st' = infoCard st /\
  loading st' = false /\
  exists msg : string,
    alerts st' = (alerts st ++ [oops (TypeError msg)])%list.
Proof.
  intros Hok N Hc Hts st'.
  pose proof (update_map_completes fr data st N Hc) as U.
  assert (Ki : infoCard (snd (update_map fr data st)) = infoCard st).
  { apply (keeps_update_map infoCard); try reflexivity.
    intros g st0. unfold modify_map, modify. simpl. destruct (map st0); reflexivity. }
  assert (Ka : alerts (snd (update_map fr data st)) = alerts st).
  { apply (keeps_update_map alerts); try reflexivity.
    intros g st0. unfold modify_map, modify. simpl. destruct (map st0); reflexivity. }
  destruct (update_map fr data st) as [r st1] eqn:EU. cbn [fst snd] in *. subst r.
  destruct (drawLineChart_unreadable _ Hts) as [msg D].
  specialize (D (set_barChart
                   (List.map (fun m => bar_of m (bar_value data m)) (useDefs (selected fr)))
                   st1)).
  assert (E : try_block fr (Responded status (Normal data)) st
              = (Throw (TypeError msg),
                 set_lineChart []
                   (set_barChart
                      (List.map (fun m => bar_of m (bar_value data m))
                                (useDefs (selected fr))) st1))).
  { unfold try_block. rewrite Hok. cbn [negb].
    rewrite (bind_eq (lift (Normal data)) _ st st data eq_refl).
    rewrite (bind_eq (update_map fr data) _ st st1 tt EU).
    rewrite (bind_eq (render_barChart fr data) _ st1 _ tt
               (render_barChart_bars fr data st1 N)).
    rewrite (Get_prop data "time_series" N).
    rewrite (bind_eq (lift (Normal (prop data "time_series"))) _ _ _ _ eq_refl).
    unfold bind. rewrite D. reflexivity. }
  unfold st', checkWeather_resume. rewrite E. cbn.
  split; [reflexivity | ]. split; [reflexivity | ].
  split; [exact Ki | ]. split; [reflexivity | ].
  exists msg. rewrite Ka. reflexivity.
Qed.

End FailedQueries.

(** ** Statements that do not look at the inputs *)

Section Commutes.
Context (g : page -> page).

Lemma commutes_ret {A : Type} (a : A) : commutes g (ret a).
Proof. intros st. reflexivity. Qed.

Lemma commutes_throw {A : Type} (e : exn) : commutes g (@throw A e).
Proof. intros st. reflexivity. Qed.

Lemma commutes_lift {A : Type} (c : completion A) : commutes g (lift c).
Proof. intros st. reflexivity. Qed.

Lemma commutes_gets {A : Type} (f : page -> A) :
  (forall st, f (g st) = f st) -> commutes g (gets f).
Proof. intros H st. unfold gets. rewrite H. reflexivity. Qed.

Lemma commutes_modify (h : page -> page) :
  (forall st, h (g st) = g (h st)) -> commutes g (modify h).
Proof. intros H st. unfold modify. rewrite H. reflexivity. Qed.

Lemma commutes_bind {A C : Type} (c : M A) (k : A -> M C) :
  commutes g c -> (forall a, commutes g (k a)) -> commutes g (bind c k).
Proof.
  intros Hc Hk st. unfold bind. rewrite (Hc st).
  destruct (c st) as [[a|e] st1]; cbn [fst snd]; [apply Hk | reflexivity].
Qed.

Lemma commutes_forEach {A : Type} (f : A -> M unit) (l : list A) :
  (forall a, commutes g (f a)) -> commutes g (forEach f l).
Proof.
  intros Hf. induction l as [|a l IH]; simpl.
  - apply commutes_ret.
  - apply commutes_bind; [apply Hf | intros _; exact IH].
Qed.

End Commutes.

Ltac commutes_tac :=
  repeat match goal with
         | |- commutes _ (ret _) => apply commutes_ret
         | |- commutes _ (throw _) => apply commutes_throw
         | |- commutes _ (lift _) => apply commutes_lift
         | |- commutes _ (gets _) => apply commutes_gets; intros
         | |- commutes _ (forEach _ _) => apply commutes_forEach; intros
         | |- commutes _ (bind _ _) => apply commutes_bind; [ | intros ]
         | |- commutes _ (modify _) => apply commutes_modify; intros
         | |- commutes _ (if ?b then _ else _) => destruct b
         | |- commutes _ (match ?x with _ => _ end) => destruct x
         end.

Section QueriesInFlight.
Context {engine : Engine} {leaflet : Leaflet.Library}.

(** The [try] block reads and writes none of the inputs. *)
Lemma try_block_commutes_edit (ev : event) (fr : frame) (o : outcome) :
  is_edit ev = true -> commutes (fun st => step st ev) (try_block fr o).
Proof.
  intros He.
  destruct ev as [ |s|s|s|ids|lat lng| |k o']; try discriminate He;
    cbn [step];
    unfold try_block, update_map, render_barChart, render_bar, drawLineChart,
      draw_point, render_infoCard, modify_map, append_svg, appendChild;
    commutes_tac;
    try reflexivity;
    cbn [map set_cityInput set_pinInput set_dateInput set_checked];
    match goal with
    | |- context [map ?st] => destruct (map st); reflexivity
    end.
Qed.

Lemma resume_commutes_edit (ev : event) (fr : frame) (o : outcome) (st : page) :
  is_edit ev = true ->
  checkWeather_resume fr o (step st ev) = step (checkWeather_resume fr o st) ev.
Proof.
  intros He. unfold checkWeather_resume.
  rewrite (try_block_commutes_edit ev fr o He st).
  destruct (try_block fr o st) as [[u|e] st1]; cbn [fst snd];
    destruct ev as [ |s|s|s|ids|lat lng| |k o']; try discriminate He; reflexivity.
Qed.

Lemma settle_commutes_edit (ev : event) (k : nat) (o : outcome) (st : page) :
  is_edit ev = true ->
  step (step st ev) (Settled k o) = step (step st (Settled k o)) ev.
Proof.
  intros He.
  assert (P : pending (step st ev) = pending st).
  { destruct ev; try discriminate He; reflexivity. }
  cbn [step]. rewrite P.
  destruct (nth_error (pending st) k) as [fr|]; [ | reflexivity].
  rewrite <- (resume_commutes_edit ev fr o _ He).
  f_equal. destruct ev; try discriminate He; reflexivity.
Qed.

(** X8.  Whatever the user types or ticks while a request is outstanding,
    the response is rendered as if nothing had been edited, and rendering
    leaves the edits alone: settling after the edits gives the same page as
    the edits after settling.  (The city, the date and the selection a
    response is rendered with are those read when the query started.) *)
Theorem edits_in_flight_do_not_change_rendering
        (edits : list event) (k : nat) (o : outcome) (st : page) :
  forallb is_edit edits = true ->
  step (fold_left step edits st) (Settled k o)
  = fold_left step edits (step st (Settled k o)).
Proof.
  revert st. induction edits as [|ev edits IH]; intros st He; [reflexivity | ].
  simpl in He. apply andb_true_iff in He. destruct He as [Hev He].
  cbn [fold_left]. rewrite (IH _ He). f_equal. now apply settle_commutes_edit.
Qed.

End QueriesInFlight.

(** ** Queries outstanding together *)

Section OutstandingQueries.
Context {engine : Engine} {leaflet : Leaflet.Library}.

Lemma pending_after_resume (fr : frame) (o : outcome) (st : page) :
  pending (checkWeather_resume fr o st) = pending st.
Proof.
  rewrite (resume_observed pending) by reflexivity.
  destruct (try_block_after_map pending fr o st) as [U | [status [data [-> U]]]];
    try reflexivity; rewrite U; [reflexivity | ].
  apply (keeps_update_map pending); try reflexivity.
  intros g st0. unfold modify_map, modify. simpl. destruct (map st0); reflexivity.
Qed.

Lemma length_remove_nth {A : Type} (l : list A) : forall k : nat,
  (k < List.length l)%nat -> List.length (remove_nth k l) = (List.length l - 1)%nat.
Proof.
  induction l as [|a l IH]; intros k H; simpl in H; [lia | ].
  destruct k as [|k]; simpl; [lia | ].
  rewrite IH by lia. lia.
Qed.

Lemma In_remove_nth {A : Type} (l : list A) : forall (k : nat) (a : A),
  In a (remove_nth k l) -> In a l.
Proof.
  induction l as [|b l IH]; intros k a H; [destruct k; exact H | ].
  destruct k as [|k]; simpl in H; [now right | ].
  destruct H as [H | H]; [now left | right; eapply IH; exact H].
Qed.

Lemma settled_pending (st : page) (k : nat) (o : outcome) (fr : frame) :
  nth_error (pending st) k = Some fr ->
  pending (step st (Settled k o)) = remove_nth k (pending st).
Proof. intros H. cbn [step]. rewrite H. now rewrite pending_after_resume. Qed.

Lemma step_pending_cities (st : page) (ev : event) :
  Forall (fun fr => city fr <> EmptyString) (pending st) ->
  Forall (fun fr => city fr <> EmptyString) (pending (step st ev)).
Proof.
  intros Inv. destruct ev as [ |s|s|s|ids|lat lng| |k o]; cbn [step]; try exact Inv.
  - destruct (map st); exact Inv.
  - unfold on_click. destruct (map st); exact Inv.
  - unfold checkWeather_call. cbn [pending set_pending]. apply Forall_app.
    split; [exact Inv | ]. constructor; [ | constructor].
    cbn [city]. destruct (cityInput st); discriminate.
  - destruct (nth_error (pending st) k) as [fr|]; [ | exact Inv].
    rewrite pending_after_resume. cbn [pending set_pending].
    apply Forall_forall. intros fr' Hin. apply In_remove_nth in Hin.
    rewrite Forall_forall in Inv. now apply Inv.
Qed.

Lemma fold_pending_cities (evs : list event) : forall st : page,
  Forall (fun fr => city fr <> EmptyString) (pending st) ->
  Forall (fun fr => city fr <> EmptyString) (pending (fold_left step evs st)).
Proof.
  induction evs as [|ev evs IH]; intros st H; [exact H | ].
  apply IH. now apply step_pending_cities.
Qed.

(** X11.  Every outstanding query has a city that is not empty (the input,
    or [Karachi] when the input is empty), after any run of events.  So the
    name on the popup and on the summary card is the city of the response
    when it has one and the city of the query otherwise: the fallback
    ['Selected Location'] of [checkWeather] is never reached. *)
Theorem selected_location_fallback_is_never_reached
        (today : string) (evs : list event) (fr : frame) (dcity : value) :
  In fr (pending (run today evs)) ->
  city fr <> EmptyString /\
  displayName dcity (city fr) = (if ToBoolean dcity then dcity else VStr (city fr)).
Proof.
  intros Hin.
  pose proof (fold_pending_cities evs (boot today) (Forall_nil _)) as Inv.
  fold (run today evs) in Inv.
  rewrite Forall_forall in Inv. specialize (Inv fr Hin).
  split; [exact Inv | ].
  destruct (ToBoolean dcity) eqn:T; now apply displayName_city.
Qed.

(** X13.  Responses are rendered in the order they arrive, not in the order
    the queries were made.  With two queries outstanding, the second made
    after some edits, if the second settles first (however it ends) and the
    first settles after it with a response the map block gets through, the
    bars on the page are those of the first query: its selection (not the
    one ticked since) and its response. *)
Theorem earlier_query_overwrites_later
        (st : page) (edits : list event) (o2 : outcome) (status : N) (data : value) :
  pending st = [] -> forallb is_edit edits = true ->
  ok status = true -> nullish data = false -> coords_taken (frame_of st) data = true ->
  let st2 := step (fold_left step edits (step st Query)) Query in
  let st3 := step st2 (Settled 1 o2) in
  let st4 := step st3 (Settled 0 (Responded status (Normal data))) in
  List.length (pending st2) = 2%nat /\
  barChart st4
  = List.map (fun m => bar_of m (bar_value data m)) (useDefs (checked st)) /\
  pending st4 = [].
Proof.
  intros Hp He Hok N Hc st2 st3 st4.
  assert (P1 : forall s, pending s = [frame_of st] ->
               pending (fold_left step edits s) = [frame_of st]).
  { clear st2 st3 st4. induction edits as [|ev edits IH]; intros s H; [exact H | ].
    simpl in He. apply andb_true_iff in He. destruct He as [Hev He].
    cbn [fold_left]. apply (IH He).
    destruct ev; try discriminate Hev; exact H. }
  assert (P2 : pending st2
               = [frame_of st; frame_of (fold_left step edits (step st Query))]).
  { unfold st2. cbn [step]. unfold checkWeather_call at 1. cbn [pending set_pending].
    rewrite P1; [reflexivity | ].
    unfold checkWeather_call. cbn [pending set_pending]. rewrite Hp. reflexivity. }
  assert (P3 : pending st3 = [frame_of st]).
  { unfold st3. rewrite (settled_pending st2 1 o2 _ ltac:(rewrite P2; reflexivity)).
    rewrite P2. reflexivity. }
  split; [rewrite P2; reflexivity | ].
  split.
  - unfold st4. cbn [step]. rewrite P3. cbn [nth_error remove_nth].
    apply barChart_after_resume; [exact Hok | exact N | ].
    now apply update_map_completes.
  - unfold st4.
    rewrite (settled_pending st3 0 _ _ ltac:(rewrite P3; reflexivity)).
    rewrite P3. reflexivity.
Qed.

End OutstandingQueries.

(** ** Where the view and the marker go *)

Section ViewAndMarker.
Context {engine : Engine} {leaflet : Leaflet.Library}.

Lemma update_map_accepts (fr : frame) (data lat lon : value) (st : page)
      (m : Leaflet.map) (mk : Leaflet.marker) :
  nullish data = false -> prop data "coords" = VArr [lat; lon] ->
  Leaflet.latlng_ok lat lon = true ->
  Leaflet.popup_ok (displayName (prop data "city") (city fr)) = true ->
  map st = Some m -> Leaflet.layers m = [mk] -> marker st = Some (Leaflet.marker_id mk) ->
  map (snd (update_map fr data st))
  = Some {| Leaflet.center := (lat, lon); Leaflet.zoom := 10;
            Leaflet.layers :=
              [ {| Leaflet.marker_id := fresh st; Leaflet.marker_latlng := (lat, lon);
                   Leaflet.marker_popup := displayName (prop data "city") (city fr) |} ] |}
  /\ marker (snd (update_map fr data st)) = Some (fresh st).
Proof.
  intros N Hc Hll Hpop Hm Hl Hmk. unfold update_map.
  rewrite (Get_prop data "coords" N), (Get_prop data "city" N), Hc.
  cbv [bind lift modify gets ret throw modify_map destructure2 nth fst snd
       ToBoolean length_is andb List.length Nat.eqb].
  rewrite Hll, Hpop.
  repeat (progress (rewrite ?Hm, ?Hmk;
                    cbn [map marker fresh set_map set_marker set_fresh snd fst])).
  unfold Leaflet.addLayer, Leaflet.removeLayer, Leaflet.setView. cbn [Leaflet.layers
    Leaflet.center Leaflet.zoom]. rewrite Hl. cbn [filter Leaflet.marker_id].
  rewrite Nat.eqb_refl. split; reflexivity.
Qed.

Lemma try_block_map_observed {B : Type} (f : page -> B)
      (fr : frame) (status : N) (data : value) (st : page) :
  (forall bars st, f (set_barChart bars st) = f st) ->
  (forall els st, f (set_lineChart els st) = f st) ->
  (forall c st, f (set_infoCard c st) = f st) ->
  ok status = true ->
  f (snd (try_block fr (Responded status (Normal data)) st))
  = f (snd (update_map fr data st)).
Proof.
  intros H1 H2 H3 Hok. unfold try_block. rewrite Hok. cbn [negb].
  unfold bind at 1, lift at 1. unfold bind at 1.
  destruct (update_map fr data st) as [[u|e] st1]; [ | reflexivity].
  cbn [snd].
  assert (K : keeps f (render_barChart fr data ;;
                       ts <- lift (Get data "time_series") ;;
                       drawLineChart (or_else ts (VArr [])) ;;
                       render_infoCard fr data)).
  { apply keeps_bind; [now apply keeps_render_barChart | intros _].
    apply keeps_bind; [apply keeps_lift | intros ts].
    apply keeps_bind; [now apply keeps_drawLineChart | intros _].
    now apply keeps_render_infoCard. }
  apply K.
Qed.

(** X14.  On a page with its map and its one marker, a response with a
    pair of coordinates Leaflet takes (and a name it can show) moves the
    view to those coordinates at zoom 10 and leaves exactly one marker, a
    new one, at the same coordinates, with the name on its popup: the city
    of the response, or the city of the query. *)
Theorem accepted_coordinates_move_view_and_marker
        (fr : frame) (status : N) (data lat lon : value) (st : page) :
  ok status = true -> nullish data = false -> prop data "coords" = VArr [lat; lon] ->
  Leaflet.latlng_ok lat lon = true ->
  Leaflet.popup_ok (displayName (prop data "city") (city fr)) = true ->
  loaded st = true -> one_marker st ->
  let st' := checkWeather_resume fr (Responded status (Normal data)) st in
  map st'
  = Some {| Leaflet.center := (lat, lon); Leaflet.zoom := 10;
            Leaflet.layers :=
              [ {| Leaflet.marker_id := fresh st; Leaflet.marker_latlng := (lat, lon);
                   Leaflet.marker_popup := displayName (prop data "city") (city fr) |} ] |}
  /\ marker st' = Some (fresh st).
Proof.
  intros Hok N Hc Hll Hpop Hl Inv st'.
  unfold loaded in Hl. unfold one_marker in Inv.
  destruct (map st) as [m|] eqn:Hm; [ | discriminate Hl].
  destruct Inv as [mk [Hlay Hmk]].
  destruct (update_map_accepts fr data lat lon st m mk N Hc Hll Hpop Hm Hlay Hmk)
    as [U1 U2].
  pose (f := fun s : page => (map s, marker s)).
  assert (E : f st' = f (snd (update_map fr data st))).
  { unfold st'. rewrite (resume_observed f) by reflexivity.
    apply try_block_map_observed; try reflexivity. exact Hok. }
  unfold f in E. injection E as E1 E2. rewrite E1, E2. split; assumption.
Qed.

End ViewAndMarker.

Section ClickOnTheMap.
Context {engine : Engine} {leaflet : Leaflet.Library}.

(** X15.  A click on the map replaces the one marker by a new one at the
    clicked coordinates as [toFixed(5)] printed them (two strings), with
    [Selected Location: lat, lon] on its popup.  It does not move the view,
    it renders nothing, and it starts no query: the bars, the chart, the
    card, the loading flag and the outstanding queries are as before. *)
Theorem click_moves_the_marker_only (st : page) (lat lng : float) (m : Leaflet.map) :
  map st = Some m -> one_marker st ->
  let st' := step st (MapClick lat lng) in
  map st'
  = Some {| Leaflet.center := Leaflet.center m; Leaflet.zoom := Leaflet.zoom m;
            Leaflet.layers :=
              [ {| Leaflet.marker_id := fresh st;
                   Leaflet.marker_latlng := (VStr (toFixed 5 lat), VStr (toFixed 5 lng));
                   Leaflet.marker_popup :=
                     VStr ("Selected Location: " ++ toFixed 5 lat ++ ", "
                           ++ toFixed 5 lng) |} ] |} /\
  marker st' = Some (fresh st) /\
  barChart st' = barChart st /\ lineChart st' = lineChart st /\
  infoCard st' = infoCard st /\ loading st' = loading st /\ pending st' = pending st.
Proof.
  intros Hm Inv st'. unfold st'. cbn [step]. unfold on_click. rewrite Hm.
  unfold one_marker in Inv. rewrite Hm in Inv. destruct Inv as [mk [Hl Hmk]].
  rewrite Hmk. unfold Leaflet.addLayer, Leaflet.removeLayer.
  cbn [map marker barChart lineChart infoCard loading pending set_cityInput
       set_pinInput set_marker set_fresh set_map Leaflet.layers Leaflet.center
       Leaflet.zoom].
  rewrite Hl. cbn [filter Leaflet.marker_id]. rewrite Nat.eqb_refl. repeat split.
Qed.

End ClickOnTheMap.

(** ** The request of a query *)

Section Request.

Lemma list_ascii_of_string_app (a b : string) :
  list_ascii_of_string (a ++ b) = (list_ascii_of_string a ++ list_ascii_of_string b)%list.
Proof. induction a as [|c a IH]; simpl; [reflexivity | now rewrite IH]. Qed.

Lemma drop_spaces_all (l : list ascii) : forallb is_space l = true -> drop_spaces l = [].
Proof.
  induction l as [|c l IH]; simpl; [reflexivity | ].
  intros H. apply andb_true_iff in H. destruct H as [Hc Hl]. rewrite Hc. now apply IH.
Qed.

Lemma last_default (l : list ascii) (c d : ascii) : l <> [] -> last l c = last l d.
Proof.
  induction l as [|x l IH]; intros H; [congruence | ].
  destruct l as [|y l]; [reflexivity | ].
  change (last (y :: l) c = last (y :: l) d). apply IH. discriminate.
Qed.

Lemma rev_head_last (l : list ascii) : forall c : ascii,
  exists tl : list ascii, rev (c :: l) = last l c :: tl.
Proof.
  induction l as [|d l IH]; intros c; [exists []; reflexivity | ].
  destruct (IH d) as [tl E]. exists (tl ++ [c])%list.
  change (rev (c :: d :: l)) with (rev (d :: l) ++ [c])%list. rewrite E.
  cbn [app]. f_equal.
  destruct l as [|y l]; [reflexivity | ].
  change (last (y :: l) d = last (y :: l) c). apply last_default. discriminate.
Qed.

Lemma trim_clean (s : string) : ends_clean s = true -> trim s = s.
Proof.
  unfold ends_clean, trim. intros H.
  rewrite <- (string_of_list_ascii_of_string s) at 2. f_equal.
  destruct (list_ascii_of_string s) as [|c l]; [reflexivity | ].
  apply andb_true_iff in H. destruct H as [Hc Hl].
  apply negb_true_iff in Hc. apply negb_true_iff in Hl.
  cbn [drop_spaces]. rewrite Hc.
  destruct (rev_head_last l c) as [tl E]. rewrite E. cbn [drop_spaces]. rewrite Hl.
  rewrite <- E. apply rev_involutive.
Qed.

Lemma trim_all_spaces (s : string) : all_spaces s = true -> trim s = EmptyString.
Proof.
  unfold all_spaces, trim. intros H. rewrite (drop_spaces_all _ H). reflexivity.
Qed.

(** X10.  What the query sends as [lat_lon]: [null] exactly when the pin
    field is empty; a pin that is not empty but all white space goes out as
    the empty string, not as [null]; and a pin with no white space at
    either end goes out as it is. *)
Theorem pin_to_lat_lon (st : page) :
  (req_lat_lon (check_request st) = None <-> pinInput st = EmptyString) /\
  (pinInput st <> EmptyString -> all_spaces (pinInput st) = true ->
   req_lat_lon (check_request st) = Some EmptyString) /\
  (pinInput st <> EmptyString -> ends_clean (pinInput st) = true ->
   req_lat_lon (check_request st) = Some (pinInput st)).
Proof.
  unfold check_request. cbn [req_lat_lon].
  destruct (pinInput st) as [|c r] eqn:P.
  - repeat split; congruence.
  - split; [split; discriminate | ].
    split; intros _ H; f_equal; [now apply trim_all_spaces | now apply trim_clean].
Qed.

Lemma is_digit_not_space (c : ascii) : is_digit c = true -> is_space c = false.
Proof.
  unfold is_digit, is_space. intros H. apply andb_true_iff in H. destruct H as [H1 H2].
  apply Nat.leb_le in H1. apply Nat.leb_le in H2.
  apply orb_false_iff. split; [apply orb_false_iff; split | ].
  - apply andb_false_iff. right. apply Nat.leb_gt. lia.
  - apply Nat.eqb_neq. lia.
  - apply Nat.eqb_neq. lia.
Qed.

Lemma last_app_nonempty (l1 l2 : list ascii) (c d : ascii) :
  l2 <> [] -> last (l1 ++ l2) c = last l2 d.
Proof.
  intros H. induction l1 as [|x l1 IH]; cbn [app].
  - now apply last_default.
  - destruct (l1 ++ l2)%list eqn:E; [ | exact IH].
    apply app_eq_nil in E. destruct E as [_ E]. congruence.
Qed.

Lemma last_all_digits (l : list ascii) (c : ascii) :
  l <> [] -> forallb is_digit l = true -> is_digit (last l c) = true.
Proof.
  induction l as [|x l IH]; intros Hne H; [congruence | ].
  simpl in H. apply andb_true_iff in H. destruct H as [Hx Hl].
  destruct l as [|y l]; [exact Hx | ]. apply IH; [discriminate | exact Hl].
Qed.

(** A signed numeral followed by anything, followed by a signed numeral,
    has no white space at either end. *)
Lemma numerals_ends_clean (f : nat) (s1 mid s2 : string) :
  (0 < f)%nat -> signed_fixed f s1 -> signed_fixed f s2 ->
  ends_clean (s1 ++ mid ++ s2) = true.
Proof.
  intros Hf [sg1 [b1 [-> [Hs1 [a1 [d1 [-> [_ [Ha1 [Da1 _]]]]]]]]]]
            [sg2 [b2 [-> [_ [a2 [d2 [-> [Hd2 [_ [_ Dd2]]]]]]]]]].
  unfold ends_clean. rewrite !list_ascii_of_string_app.
  generalize (list_ascii_of_string "."). intros dot.
  generalize (list_ascii_of_string mid). intros lmid.
  generalize (list_ascii_of_string a2). intros la2.
  generalize (list_ascii_of_string d1). intros ld1.
  generalize (list_ascii_of_string sg2). intros lsg2.
  assert (Hd2ne : list_ascii_of_string d2 <> []).
  { destruct d2; [simpl in Hd2; lia | discriminate]. }
  assert (Hlast : forall pre c,
            is_space (last (pre ++ list_ascii_of_string d2) c) = false).
  { intros pre c. rewrite (last_app_nonempty pre _ c c Hd2ne).
    apply is_digit_not_space. now apply last_all_digits. }
  destruct a1 as [|x a1]; [simpl in Ha1; lia | ].
  unfold all_digits in Da1. simpl in Da1. apply andb_true_iff in Da1.
  destruct Da1 as [Dx _]. apply is_digit_not_space in Dx.
  destruct Hs1 as [-> | ->]; cbn [list_ascii_of_string app].
  - rewrite Dx. cbn [negb andb].
    rewrite !app_assoc. rewrite Hlast. reflexivity.
  - cbn [is_space]. replace (is_space "-"%char) with false by reflexivity.
    cbn [negb andb].
    change (x :: (list_ascii_of_string a1 ++ ?r))%list
      with ((x :: list_ascii_of_string a1) ++ r)%list.
    rewrite !app_comm_cons, !app_assoc. rewrite Hlast. reflexivity.
Qed.

End Request.

Section ClickThenQuery.
Context {engine : Engine} {leaflet : Leaflet.Library}.

(** X9.  After a click on the map at coordinates [toFixed] prints in fixed
    notation, the next query is about the pin and about Karachi: it sends
    the two coordinates exactly as the pin field shows them, and as city it
    sends [Karachi], whatever had been typed, since the click emptied the
    city field.  [Karachi] is also the name its popup and its summary card
    fall back to. *)
Theorem query_after_click_sends_pin_and_Karachi (st : page) (lat lng : float) :
  loaded st = true -> plain lat = true -> plain lng = true ->
  let st' := step st (MapClick lat lng) in
  check_request st'
  = {| req_city := "Karachi"; req_date := dateInput st;
       req_selected_metrics := checked st;
       req_lat_lon := Some (toFixed 5 lat ++ "," ++ toFixed 5 lng) |} /\
  city (frame_of st') = "Karachi" /\
  pending (step st' Query) = (pending st ++ [frame_of st'])%list.
Proof.
  intros Hl Hlat Hlng st'.
  assert (Hlat5 : signed_fixed 5 (toFixed 5 lat)) by (apply toFixed_shape; [lia | exact Hlat]).
  assert (Hlng5 : signed_fixed 5 (toFixed 5 lng)) by (apply toFixed_shape; [lia | exact Hlng]).
  assert (Hclean : ends_clean (toFixed 5 lat ++ "," ++ toFixed 5 lng) = true).
  { apply (numerals_ends_clean 5); [lia | exact Hlat5 | exact Hlng5]. }
  assert (Hpin : pinInput st' = toFixed 5 lat ++ "," ++ toFixed 5 lng).
  { unfold st'. cbn [step]. unfold on_click, loaded in *.
    destruct (map st); [reflexivity | discriminate Hl]. }
  assert (Hcity : cityInput st' = EmptyString).
  { unfold st'. cbn [step]. unfold on_click, loaded in *.
    destruct (map st); [reflexivity | discriminate Hl]. }
  assert (Hrest : dateInput st' = dateInput st /\ checked st' = checked st
                  /\ pending st' = pending st).
  { unfold st'. cbn [step]. unfold on_click, loaded in *.
    destruct (map st); [repeat split | discriminate Hl]. }
  destruct Hrest as [Hd [Hch Hpe]].
  split.
  - unfold check_request. rewrite Hcity, Hd, Hch, Hpin.
    assert (Hne : toFixed 5 lat ++ "," ++ toFixed 5 lng <> EmptyString).
    { destruct Hlat5 as [sg [b [-> [_ [a [d [-> [_ [Ha _]]]]]]]]].
      destruct a; [simpl in Ha; lia | ]. destruct sg; discriminate. }
    rewrite (trim_clean _ Hclean).
    destruct (toFixed 5 lat ++ "," ++ toFixed 5 lng); [congruence | reflexivity].
  - split.
    + unfold frame_of. cbn [city]. rewrite Hcity. reflexivity.
    + cbn [step]. unfold checkWeather_call. cbn [pending set_pending].
      rewrite Hpe. reflexivity.
Qed.

End ClickThenQuery.

(** ** The downloads *)

Section Downloads.
Context {engine : Engine} {leaflet : Leaflet.Library}.

(** X16.  A download saves a file exactly when the response has a success
    status and its body can be read: one file, named after the city the
    call read, with the bytes of the body, and nothing is alerted or
    logged.  In every other case (the fetch rejected, a bad status, a body
    that cannot be read) nothing is saved, the error is logged, and the
    alert is the same fixed sentence whatever the error was. *)
Theorem download_saves_or_alerts (d : download) (o : download_outcome) (b : browser) :
  let b' := download_resume d o b in
  downloading b' = downloading b /\
  (forall bytes : string, delivered o = Some bytes ->
     saved b' = (saved b ++ [(file_name (dl_city d) (dl_kind d), bytes)])%list /\
     doc b' = doc b) /\
  (delivered o = None ->
     saved b' = saved b /\
     alerts (doc b') = (alerts (doc b) ++ [not_available (dl_kind d)])%list /\
     List.length (console (doc b')) = S (List.length (console (doc b))) /\
     quiet (doc b') = quiet (doc b)).
Proof.
  intros b'. unfold b', download_resume, download_try, delivered.
  destruct o as [e|status [bytes|e]]; [ | destruct (ok status) | destruct (ok status)];
    cbn [negb bindC saved doc downloading];
    (split; [reflexivity | ]); (split; [intros bytes' H | intros H]);
    try discriminate H.
  - cbn [log_and_alert alerts console]. rewrite length_app. cbn [List.length].
    repeat split. lia.
  - injection H as <-. split; reflexivity.
  - cbn [log_and_alert alerts console]. rewrite length_app. cbn [List.length].
    repeat split. lia.
  - cbn [log_and_alert alerts console]. rewrite length_app. cbn [List.length].
    repeat split. lia.
  - cbn [log_and_alert alerts console]. rewrite length_app. cbn [List.length].
    repeat split. lia.
Qed.

(** The [try] block of [checkWeather] reads and writes none of the
    messages. *)
Lemma try_block_commutes_quiet (fr : frame) (o : outcome) :
  commutes quiet (try_block fr o).
Proof.
  unfold try_block, update_map, render_barChart, render_bar, drawLineChart,
    draw_point, render_infoCard, modify_map, append_svg, appendChild;
    commutes_tac;
    try reflexivity;
    cbn [map quiet];
    match goal with
    | |- context [map ?st] => destruct (map st); reflexivity
    end.
Qed.

Lemma quiet_log_and_alert (e : exn) (msg : string) (st : page) :
  quiet (log_and_alert e msg st) = quiet st.
Proof. reflexivity. Qed.

Lemma resume_quiet (fr : frame) (o : outcome) (st : page) :
  quiet (checkWeather_resume fr o (quiet st)) = quiet (checkWeather_resume fr o st).
Proof.
  unfold checkWeather_resume. rewrite (try_block_commutes_quiet fr o st).
  destruct (try_block fr o st) as [[u|e] st1]; reflexivity.
Qed.

Lemma step_quiet (st : page) (ev : event) :
  quiet (step (quiet st) ev) = quiet (step st ev).
Proof.
  destruct ev as [ |s|s|s|ids|lat lng| |k o]; cbn [step]; try reflexivity.
  - cbn [quiet map]. destruct (map st); reflexivity.
  - unfold on_click. cbn [quiet map marker]. destruct (map st); reflexivity.
  - cbn [quiet pending]. destruct (nth_error (pending st) k) as [fr|]; [ | reflexivity].
    rewrite <- (resume_quiet fr o (set_pending _ st)). reflexivity.
Qed.

Lemma step_quiet_eq (st st' : page) (ev : event) :
  quiet st = quiet st' -> quiet (step st ev) = quiet (step st' ev).
Proof.
  intros H. rewrite <- (step_quiet st), <- (step_quiet st'), H. reflexivity.
Qed.

Lemma fold_act_quiet (acts : list action) : forall (b : browser) (st : page),
  quiet (doc b) = quiet st ->
  quiet (doc (fold_left act acts b)) = quiet (fold_left step (page_events acts) st).
Proof.
  induction acts as [|a acts IH]; intros b st H; [exact H | ].
  destruct a as [ev| | |k o]; cbn [fold_left page_events flat_map page_event app].
  - apply IH. cbn [act doc]. now apply step_quiet_eq.
  - apply IH. exact H.
  - apply IH. exact H.
  - apply IH. cbn [act]. destruct (nth_error (downloading b) k) as [d|]; [ | exact H].
    unfold download_resume. destruct (download_try d o); cbn [doc]; [exact H | ].
    rewrite quiet_log_and_alert. exact H.
Qed.

(** X17.  Downloads never touch what the page shows.  With clicks on the
    download buttons and settling downloads put anywhere among the events
    of the page, the map, the marker, the inputs, the loading flag, the
    bars, the chart, the summary card and the outstanding queries end up as
    they do without them: all a download can add to the page is alerts and
    console entries. *)
Theorem downloads_leave_the_page_alone (today : string) (acts : list action) :
  quiet (doc (play today acts)) = quiet (run today (page_events acts)).
Proof. unfold play, run. now apply fold_act_quiet. Qed.

Lemma nth_error_remove_nth {A : Type} (l : list A) : forall (k : nat) (a : A),
  nth_error l k = Some a -> S (List.length (remove_nth k l)) = List.length l.
Proof.
  intros k a H. assert (L : (k < List.length l)%nat).
  { apply nth_error_Some. congruence. }
  rewrite length_remove_nth by exact L. lia.
Qed.

Lemma download_try_file (d : download) (o : download_outcome) (file : string * string) :
  download_try d o = Normal file ->
  fst file = file_name (dl_city d) (dl_kind d).
Proof.
  unfold download_try. destruct o as [e|status [bytes|e]]; try discriminate;
    destruct (negb (ok status)); try discriminate.
  cbn [bindC]. intros H. injection H as <-. reflexivity.
Qed.

Lemma fold_act_files (acts : list action) : forall b : browser,
  Forall (fun d => dl_city d <> EmptyString) (downloading b) ->
  Forall (fun f => weather_file (fst f)) (saved b) ->
  let b' := fold_left act acts b in
  Forall (fun f => weather_file (fst f)) (saved b') /\
  (List.length (saved b') + List.length (downloading b')
   <= List.length (saved b) + List.length (downloading b)
      + List.length (filter is_click acts))%nat.
Proof.
  induction acts as [|a acts IH]; intros b Hd Hs; cbn [fold_left].
  - split; [exact Hs | cbn; lia].
  - assert (Hcall : forall k : file_kind,
              Forall (fun d => dl_city d <> EmptyString) (downloading (download_call k b))).
    { intros k. unfold download_call. cbn [downloading]. apply Forall_app.
      split; [exact Hd | ]. constructor; [ | constructor]. cbn [dl_city].
      destruct (cityInput (doc b)) eqn:C; [discriminate | rewrite <- C; congruence]. }
    destruct a as [ev| | |k o]; cbn [filter is_click List.length].
    + apply (IH (act b (OnPage ev))); assumption.
    + destruct (IH (act b ClickCSV) (Hcall CSV) Hs) as [F L]. split; [exact F | ].
      assert (E : List.length (downloading (act b ClickCSV))
                  = S (List.length (downloading b))).
      { unfold act, downloadCSV, download_call. cbn [downloading].
        rewrite length_app. cbn [List.length]. lia. }
      rewrite E in L. change (saved (act b ClickCSV)) with (saved b) in L. lia.
    + destruct (IH (act b ClickJSON) (Hcall JSON) Hs) as [F L]. split; [exact F | ].
      assert (E : List.length (downloading (act b ClickJSON))
                  = S (List.length (downloading b))).
      { unfold act, downloadJSON, download_call. cbn [downloading].
        rewrite length_app. cbn [List.length]. lia. }
      rewrite E in L. change (saved (act b ClickJSON)) with (saved b) in L. lia.
    + cbn [act]. destruct (nth_error (downloading b) k) as [d|] eqn:N;
        [ | now apply IH].
      pose proof (nth_error_remove_nth _ _ _ N) as Len.
      assert (Hd' : Forall (fun d => dl_city d <> EmptyString)
                           (remove_nth k (downloading b))).
      { apply Forall_forall. intros d' Hin. apply In_remove_nth in Hin.
        revert d' Hin. apply Forall_forall. exact Hd. }
      assert (Hcity : dl_city d <> EmptyString).
      { apply nth_error_In in N. revert d N. apply Forall_forall. exact Hd. }
      unfold download_resume. destruct (download_try d o) as [file|e] eqn:T;
        cbn [doc saved downloading].
      * match goal with
        | |- context [fold_left act acts ?b1] =>
            destruct (IH b1) as [F L]; cbn [saved downloading]
        end.
        -- exact Hd'.
        -- apply Forall_app. split; [exact Hs | ]. constructor; [ | constructor].
           exists (dl_city d), (dl_kind d). split; [exact Hcity | ].
           now apply download_try_file with (o := o).
        -- split; [exact F | ]. cbn [saved downloading] in L.
           rewrite length_app in L. cbn [List.length] in L. lia.
      * match goal with
        | |- context [fold_left act acts ?b1] =>
            destruct (IH b1) as [F L]; cbn [saved downloading]
        end.
        -- exact Hd'.
        -- exact Hs.
        -- split; [exact F | ]. cbn [saved downloading] in L. lia.
Qed.

(** X18.  After any run of events, clicks on the two buttons and settling
    downloads, every file the browser has saved is named by a city that is
    not empty, [_weather.] and [csv] or [json] (the default [Karachi] keeps
    the name from starting with the underscore), and the files saved and
    the downloads outstanding are together no more than the clicks: a
    click saves at most one file, and nothing else saves any. *)
Theorem saved_files_are_named_and_counted (today : string) (acts : list action) :
  let b := play today acts in
  Forall (fun f => weather_file (fst f)) (saved b) /\
  (List.length (saved b) + List.length (downloading b)
   <= List.length (filter is_click acts))%nat.
Proof.
  intros b. unfold b, play.
  destruct (fold_act_files acts {| doc := boot today; saved := []; downloading := [] |}
                           (Forall_nil _) (Forall_nil _)) as [F L].
  split; [exact F | exact L].
Qed.

Lemma fold_act_edits (edits : list event) : forall b : browser,
  forallb is_edit edits = true ->
  let b' := fold_left act (List.map OnPage edits) b in
  saved b' = saved b /\ downloading b' = downloading b /\
  alerts (doc b') = alerts (doc b).
Proof.
  induction edits as [|ev edits IH]; intros b He; [now repeat split | ].
  simpl in He. apply andb_true_iff in He. destruct He as [Hev He].
  cbn [List.map fold_left]. destruct (IH (act b (OnPage ev)) He) as [S [D A]].
  cbv zeta. rewrite S, D, A. cbn [act saved downloading doc].
  destruct ev; try discriminate Hev; repeat split.
Qed.

Lemma nth_error_snoc {A : Type} (l : list A) (a : A) :
  nth_error (l ++ [a]) (List.length l) = Some a.
Proof. rewrite nth_error_app2 by lia. now rewrite Nat.sub_diag. Qed.

Lemma remove_nth_snoc {A : Type} (l : list A) (a : A) :
  remove_nth (List.length l) (l ++ [a]) = l.
Proof. induction l as [|x l IH]; simpl; [reflexivity | now rewrite IH]. Qed.

(** X19.  The file is named after the city field as it was when the button
    was clicked ([Karachi] if it was empty), not as it is when the response
    arrives: whatever is typed, picked or ticked while the download is
    outstanding, a response with a success status and a readable body is
    saved under the name of the click, and nothing is alerted. *)
Theorem download_is_named_at_the_click
        (b : browser) (k : file_kind) (edits : list event) (status : N) (bytes : string) :
  forallb is_edit edits = true -> ok status = true ->
  let b1 := act b (click_on k) in
  let b2 := fold_left act (List.map OnPage edits) b1 in
  let b3 := act b2 (Downloaded (List.length (downloading b))
                               (Answered status (Normal bytes))) in
  saved b3
  = (saved b ++ [(file_name (city (frame_of (doc b))) k, bytes)])%list /\
  downloading b3 = downloading b /\
  alerts (doc b3) = alerts (doc b2).
Proof.
  intros He Hok b1 b2 b3.
  destruct (fold_act_edits edits b1 He) as [S [D A]]. fold b2 in S, D, A.
  assert (D1 : downloading b1
               = (downloading b
                  ++ [{| dl_kind := k; dl_city := city (frame_of (doc b));
                         dl_date := dateInput (doc b) |}])%list).
  { unfold b1. destruct k; reflexivity. }
  assert (S1 : saved b1 = saved b).
  { unfold b1. destruct k; reflexivity. }
  unfold b3. cbn [act]. rewrite D, D1, nth_error_snoc, remove_nth_snoc.
  unfold download_resume, download_try. rewrite Hok. cbn [negb bindC saved downloading doc dl_city dl_kind].
  rewrite S, S1. repeat split.
Qed.

(** X20.  A download does not know the pin.  After a click on the map a
    query sends the coordinates of the pin, but a download started then
    asks for [Karachi]: its request holds the city (which the click
    emptied) and the date, and nothing else. *)
Theorem download_after_map_click_is_for_Karachi
        (b : browser) (k : file_kind) (lat lng : float) :
  loaded (doc b) = true ->
  let b1 := act b (OnPage (MapClick lat lng)) in
  let b2 := act b1 (click_on k) in
  req_lat_lon (check_request (doc b1)) <> None /\
  downloading b2
  = (downloading b
     ++ [{| dl_kind := k; dl_city := "Karachi"; dl_date := dateInput (doc b) |}])%list /\
  doc b2 = doc b1.
Proof.
  intros Hl b1 b2. unfold b2, b1. cbn [act doc step]. unfold on_click, loaded in *.
  destruct (map (doc b)) as [m|]; [ | discriminate Hl].
  split.
  - unfold check_request. cbn [pinInput set_cityInput set_pinInput req_lat_lon].
    destruct (toFixed 5 lat ++ "," ++ toFixed 5 lng) eqn:E; [ | discriminate].
    exfalso. destruct (toFixed 5 lat); discriminate E.
  - destruct k; split; reflexivity.
Qed.

End Downloads.

(** ** Closed examples of the further properties *)

Section FurtherExamples.
#[local] Existing Instance example_engine.
#[local] Existing Instance example_leaflet.

(** X1 on two points, the second with a date that cannot be converted: the
    axis line, the two paths, the three pieces of the first point and the
    two circles of the second. *)
Lemma drawLineChart_outcome_witness :
  chart_completes (VArr [point "05-06" 35 4; unprintable_date]) = false /\
  exists (msg : string) (els : list element),
    (forall st : page,
       drawLineChart (VArr [point "05-06" 35 4; unprintable_date]) st
       = (Throw (TypeError msg), set_lineChart els st)) /\
    List.map tag els
    = ["line"; "path"; "path"; "circle"; "circle"; "text"; "circle"; "circle"].
Proof.
  split; [reflexivity | ].
  destruct (proj2 (drawLineChart_outcome (VArr [point "05-06" 35 4; unprintable_date]))
                  eq_refl)
    as [msg [els [D [_ [_ H]]]]].
  exists msg, els. split; [exact D | ].
  destruct (H [point "05-06" 35 4; unprintable_date] eq_refl eq_refl) as [j [Hj [-> _]]].
  injection Hj as <-. reflexivity.
Defined.

(** X2 on the seven points: a window of six, 25 elements. *)
Lemma chart_elements_and_legend_witness :
  seven_points <> [] /\
  window_draws (slice_last 6 seven_points) = true /\
  dates_plain (slice_last 6 seven_points) = true /\
  exists chart : list element,
    svg_elements (lineChart (snd (drawLineChart (VArr seven_points) sample_page)))
    = Some chart /\
    List.length chart = 25%nat.
Proof.
  assert (Hne : seven_points <> []) by discriminate.
  assert (Hwin : window_draws (slice_last 6 seven_points) = true) by reflexivity.
  assert (Hd : dates_plain (slice_last 6 seven_points) = true) by reflexivity.
  split; [exact Hne | ]. split; [exact Hwin | ]. split; [exact Hd | ].
  destruct (proj1 (chart_elements_and_legend seven_points VNull sample_page) Hne Hwin Hd)
    as [chart [Hs [Hl _]]].
  exists chart. split; [exact Hs | exact Hl].
Defined.

(** X3 on the first and the last of six points. *)
Lemma x_positions_span_drawing_area_witness :
  (0 < 5)%nat /\ (5 < List.length (slice_last 6 seven_points))%nat /\
  xFor 6 0 = 40%float /\ xFor 6 5 = 480%float.
Proof.
  assert (H1 : (0 < 5)%nat) by lia.
  assert (H2 : (5 < List.length (slice_last 6 seven_points))%nat) by (simpl; lia).
  split; [exact H1 | ]. split; [exact H2 | ].
  exact (proj2 (proj2 (proj2 (x_positions_span_drawing_area seven_points 0 5 H1 H2)))).
Defined.

(** X4 on a probability that is text: the bar shows 0, the card the text. *)
Lemma bar_and_card_agree_but_for_text_witness :
  nullish text_probability = false /\
  exists (bar : float) (card : value),
    bar_prob text_probability hot_metric = Normal bar /\
    card_prob text_probability (key hot_metric) = Normal card /\
    bar = 0%float /\ card = VStr "high".
Proof.
  split; [reflexivity | ].
  destruct (bar_and_card_agree_but_for_text text_probability hot_metric eq_refl)
    as [bar [card [Hb [Hc [_ [_ H]]]]]].
  exists bar, card. split; [exact Hb | ]. split; [exact Hc | ].
  exact (H eq_refl eq_refl).
Defined.

(** X5 on a response with status 503. *)
Lemma failed_request_keeps_previous_rendering_witness :
  fails_early (Responded 503 (Normal lahore)) = Some (Error "Server 503") /\
  alerts (checkWeather_resume sample_frame (Responded 503 (Normal lahore)) sample_page)
  = ["Oops: Server 503. Try a past date or change city/coords."] /\
  barChart (checkWeather_resume sample_frame (Responded 503 (Normal lahore)) sample_page)
  = [].
Proof.
  split; [reflexivity | ].
  destruct (failed_request_keeps_previous_rendering
              sample_frame (Responded 503 (Normal lahore)) (Error "Server 503")
              sample_page eq_refl)
    as [_ [Hbar [_ [_ [_ [_ [Hal _]]]]]]].
  split; [exact Hal | exact Hbar].
Defined.

(** X6 on coordinates that are text. *)
Lemma unusable_coordinates_render_nothing_witness :
  ok 200 = true /\ nullish text_coords = false /\
  prop text_coords "coords" = VArr [VStr "north"; VStr "east"] /\
  loaded sample_page = true /\
  Leaflet.latlng_ok (VStr "north") (VStr "east") = false /\
  checkWeather_resume sample_frame (Responded 200 (Normal text_coords)) sample_page
  = set_loading false
      (log_and_alert (Error "Invalid LatLng object: (north, east)")
                     "Oops: Invalid LatLng object: (north, east). Try a past date or change city/coords."
                     sample_page).
Proof.
  repeat (split; [reflexivity | ]).
  exact (proj1 (unusable_coordinates_render_nothing
                  sample_frame 200 text_coords sample_page eq_refl eq_refl)
               (VStr "north") (VStr "east") eq_refl eq_refl eq_refl).
Defined.

(** X7 on a time series that holds a [null]. *)
Lemma chart_error_leaves_card_stale_witness :
  ok 200 = true /\ nullish null_in_series = false /\
  coords_taken sample_frame null_in_series = true /\
  series_drawable (or_else (prop null_in_series "time_series") (VArr [])) = false /\
  List.length
    (barChart (checkWeather_resume sample_frame (Responded 200 (Normal null_in_series))
                                   sample_page)) = 5%nat /\
  lineChart (checkWeather_resume sample_frame (Responded 200 (Normal null_in_series))
                                 sample_page) = [] /\
  infoCard (checkWeather_resume sample_frame (Responded 200 (Normal null_in_series))
                                sample_page) = None.
Proof.
  assert (Hco : coords_taken sample_frame null_in_series = true) by reflexivity.
  assert (Hts : series_drawable (or_else (prop null_in_series "time_series") (VArr []))
                = false) by reflexivity.
  do 4 (split; [reflexivity | ]).
  destruct (chart_error_leaves_card_stale
              sample_frame 200 null_in_series sample_page eq_refl eq_refl Hco Hts)
    as [Hbar [Hline [Hcard _]]].
  split; [ | split; [exact Hline | exact Hcard]].
  exact (f_equal (@List.length bar_item) Hbar).
Defined.

(** X8 on a city typed and a box ticked while the query is outstanding. *)
Lemma edits_in_flight_do_not_change_rendering_witness :
  forallb is_edit [TypeCity "Lahore"; Tick ["hot"]] = true /\
  step (fold_left step [TypeCity "Lahore"; Tick ["hot"]] sample_page)
       (Settled 0 (Responded 200 (Normal lahore)))
  = fold_left step [TypeCity "Lahore"; Tick ["hot"]]
      (step sample_page (Settled 0 (Responded 200 (Normal lahore)))).
Proof.
  split; [reflexivity | ].
  exact (edits_in_flight_do_not_change_rendering
           [TypeCity "Lahore"; Tick ["hot"]] 0 (Responded 200 (Normal lahore))
           sample_page eq_refl).
Defined.

(** X9 on a click near Karachi. *)
Lemma query_after_click_sends_pin_and_Karachi_witness :
  loaded sample_page = true /\ plain 24.8607 = true /\ plain 67.0011 = true /\
  check_request (step sample_page (MapClick 24.8607 67.0011))
  = {| req_city := "Karachi"; req_date := "2025-01-01"; req_selected_metrics := [];
       req_lat_lon := Some (toFixed 5 24.8607 ++ "," ++ toFixed 5 67.0011) |}.
Proof.
  repeat (split; [reflexivity | ]).
  exact (proj1 (query_after_click_sends_pin_and_Karachi
                  sample_page 24.8607 67.0011 eq_refl eq_refl eq_refl)).
Defined.

(** X10 on a pin of two spaces. *)
Lemma pin_to_lat_lon_witness :
  pinInput (set_pinInput "  " sample_page) <> EmptyString /\
  all_spaces (pinInput (set_pinInput "  " sample_page)) = true /\
  req_lat_lon (check_request (set_pinInput "  " sample_page)) = Some EmptyString.
Proof.
  assert (Hne : pinInput (set_pinInput "  " sample_page) <> EmptyString) by discriminate.
  split; [exact Hne | ]. split; [reflexivity | ].
  exact (proj1 (proj2 (pin_to_lat_lon (set_pinInput "  " sample_page))) Hne eq_refl).
Defined.

(** X11 on the query of the sample page. *)
Lemma selected_location_fallback_is_never_reached_witness :
  In sample_frame (pending (run "2025-01-01" [DOMContentLoaded; Query])) /\
  city sample_frame <> EmptyString /\
  displayName VUndefined (city sample_frame) = VStr "Karachi".
Proof.
  assert (Hin : In sample_frame (pending (run "2025-01-01" [DOMContentLoaded; Query]))).
  { left. reflexivity. }
  split; [exact Hin | ].
  exact (selected_location_fallback_is_never_reached
           "2025-01-01" [DOMContentLoaded; Query] sample_frame VUndefined Hin).
Defined.

(** X13: a query with nothing ticked, a second one with [hot] ticked that
    fails first, then the response of the first: five bars. *)
Lemma earlier_query_overwrites_later_witness :
  pending loaded_page = [] /\ forallb is_edit [Tick ["hot"]] = true /\
  ok 200 = true /\ nullish lahore = false /\
  coords_taken (frame_of loaded_page) lahore = true /\
  List.length
    (barChart
       (step (step (step (fold_left step [Tick ["hot"]] (step loaded_page Query)) Query)
                   (Settled 1 (Rejected (TypeError "Failed to fetch"))))
             (Settled 0 (Responded 200 (Normal lahore))))) = 5%nat.
Proof.
  assert (Hco : coords_taken (frame_of loaded_page) lahore = true) by reflexivity.
  repeat (split; [reflexivity | ]).
  destruct (earlier_query_overwrites_later
              loaded_page [Tick ["hot"]] (Rejected (TypeError "Failed to fetch"))
              200 lahore eq_refl eq_refl eq_refl eq_refl Hco)
    as [_ [Hbar _]].
  exact (f_equal (@List.length bar_item) Hbar).
Defined.

(** X14 on the response for Lahore. *)
Lemma accepted_coordinates_move_view_and_marker_witness :
  ok 200 = true /\ nullish lahore = false /\
  prop lahore "coords" = VArr [VNum 31.5; VNum 74.25] /\
  Leaflet.latlng_ok (VNum 31.5) (VNum 74.25) = true /\
  Leaflet.popup_ok (displayName (prop lahore "city") (city sample_frame)) = true /\
  loaded sample_page = true /\ one_marker sample_page /\
  map (checkWeather_resume sample_frame (Responded 200 (Normal lahore)) sample_page)
  = Some {| Leaflet.center := (VNum 31.5, VNum 74.25); Leaflet.zoom := 10;
            Leaflet.layers :=
              [ {| Leaflet.marker_id := 1;
                   Leaflet.marker_latlng := (VNum 31.5, VNum 74.25);
                   Leaflet.marker_popup := VStr "Lahore" |} ] |}.
Proof.
  assert (Hone : one_marker sample_page).
  { eexists. split; reflexivity. }
  repeat (split; [reflexivity | ]).
  split; [exact Hone | ].
  exact (proj1 (accepted_coordinates_move_view_and_marker
                  sample_frame 200 lahore (VNum 31.5) (VNum 74.25) sample_page
                  eq_refl eq_refl eq_refl eq_refl eq_refl eq_refl Hone)).
Defined.

(** X15 on a click near Karachi. *)
Lemma click_moves_the_marker_only_witness :
  map sample_page = Some Karachi_map /\ one_marker sample_page /\
  marker (step sample_page (MapClick 24.8607 67.0011)) = Some 1%nat /\
  loading (step sample_page (MapClick 24.8607 67.0011)) = true /\
  pending (step sample_page (MapClick 24.8607 67.0011)) = [sample_frame].
Proof.
  assert (Hone : one_marker sample_page).
  { eexists. split; reflexivity. }
  split; [reflexivity | ]. split; [exact Hone | ].
  destruct (click_moves_the_marker_only sample_page 24.8607 67.0011 Karachi_map
                                        eq_refl Hone)
    as [_ [Hmk [_ [_ [_ [Hl Hp]]]]]].
  split; [exact Hmk | ]. split; [exact Hl | exact Hp].
Defined.

(** X16 on a body of two bytes for Lahore. *)
Lemma download_saves_or_alerts_witness :
  delivered (Answered 200 (Normal "a,b")) = Some "a,b" /\
  saved (download_resume Lahore_csv (Answered 200 (Normal "a,b")) sample_browser)
  = [("Lahore_weather.csv", "a,b")] /\
  doc (download_resume Lahore_csv (Answered 200 (Normal "a,b")) sample_browser)
  = sample_page.
Proof.
  split; [reflexivity | ].
  exact (proj1 (proj2 (download_saves_or_alerts
                         Lahore_csv (Answered 200 (Normal "a,b")) sample_browser))
               "a,b" eq_refl).
Defined.

(** X19: the city is typed after the click on the button. *)
Lemma download_is_named_at_the_click_witness :
  forallb is_edit [TypeCity "Lahore"] = true /\ ok 200 = true /\
  saved (act (fold_left act (List.map OnPage [TypeCity "Lahore"])
                        (act sample_browser ClickCSV))
             (Downloaded 0 (Answered 200 (Normal "a,b"))))
  = [("Karachi_weather.csv", "a,b")].
Proof.
  split; [reflexivity | ]. split; [reflexivity | ].
  exact (proj1 (download_is_named_at_the_click
                  sample_browser CSV [TypeCity "Lahore"] 200 "a,b" eq_refl eq_refl)).
Defined.

(** X20 on a click near Karachi and the JSON button. *)
Lemma download_after_map_click_is_for_Karachi_witness :
  loaded (doc sample_browser) = true /\
  downloading (act (act sample_browser (OnPage (MapClick 24.8607 67.0011))) ClickJSON)
  = [ {| dl_kind := JSON; dl_city := "Karachi"; dl_date := "2025-01-01" |} ].
Proof.
  split; [reflexivity | ].
  exact (proj1 (proj2 (download_after_map_click_is_for_Karachi
                         sample_browser JSON 24.8607 67.0011 eq_refl))).
Defined.

End FurtherExamples.
